(** * Aurora transaction records: a shallow embedding of [src/index.js]

    The development follows the layout of the JavaScript module:

    - byte strings, hexadecimal text and big-endian integers (Node's [Buffer]
      and the [bn.js] numbers the module manipulates);
    - the Keccak-256 sponge behind [ethUtil.rlphash] and
      [ethUtil.publicToAddress];
    - the RLP encoder and decoder;
    - the field table and the property setters installed by
      [ethUtil.defineProperties];
    - class [Transaction], method by method, in a state-and-exception monad;
    - the free functions [HexToAOA], [hexToString] and [decodeTx];
    - the properties of the specification.

    The module's dependencies ([ethereumjs-util], [rlp], [ethers],
    [ethereum-common] and the [secp256k1] binding) are not part of the
    repository: the functions the module calls are embedded under the
    names it calls them by; the fee constants and the curve are
    parameters of the methods, and the curve secp256k1 is provided as an
    instance. *)

From Stdlib Require Import ZArith Lia Bool Ascii String DecimalString.
From Stdlib Require Strings.Byte.
From stdpp Require Import base option list strings gmap.
From Bignums Require Import BigZ.

Local Open Scope Z_scope.

(** ** Byte strings *)

Abbreviation byte := Byte.byte.
Abbreviation bytes := (list Byte.byte).

#[global] Instance byte_eq_dec : EqDecision byte := Byte.byte_eq_dec.

Module Buf.

Definition byte_to_Z (b : byte) : Z := Z.of_N (Byte.to_N b).

(** The low eight bits of [z], as a byte. *)
Definition byte_of_Z (z : Z) : byte :=
  match Byte.of_N (Z.to_N (z mod 256)) with
  | Some b => b
  | None => Byte.x00
  end.

(** [new BN(buf)] and the integer behind [bufferToInt]: the big-endian
    value of a byte string. *)
Definition to_Z (b : bytes) : Z :=
  fold_left (fun acc x => acc * 256 + byte_to_Z x) b 0.

(** Big-endian digits of a non-negative integer, no leading zero byte;
    [fuel] bounds the number of digits. *)
Fixpoint be_digits (fuel : nat) (z : Z) (acc : bytes) : bytes :=
  match fuel with
  | O => acc
  | S fuel' =>
      if z <=? 0 then acc
      else be_digits fuel' (z / 256) (byte_of_Z z :: acc)
  end.

Definition of_Z (z : Z) : bytes := be_digits (Z.to_nat (Z.log2 z + 1)) z [].

(** [ethUtil.stripZeros] / [unpad]: drop the leading zero bytes. *)
Fixpoint stripZeros (b : bytes) : bytes :=
  match b with
  | x :: b' => if decide (x = Byte.x00) then stripZeros b' else b
  | [] => []
  end.

(** [ethUtil.setLength(msg, n)] (left variant): left-pad with zeros up to
    [n] bytes, or keep the last [n] bytes. *)
Definition setLength (n : nat) (b : bytes) : bytes :=
  if Nat.ltb (length b) n
  then replicate (n - length b) Byte.x00 ++ b
  else drop (length b - n) b.

(** [buf.slice(-n)]. *)
Definition last_n (n : nat) (b : bytes) : bytes := drop (length b - n) b.

End Buf.

(** ** Hexadecimal text *)

Module Hex.

Definition digit (n : Z) : ascii :=
  ascii_of_nat (Z.to_nat (if n <? 10 then 48 + n else 87 + n)).

(** Value of one hexadecimal digit, either case. *)
Definition value (c : ascii) : option Z :=
  let n := Z.of_nat (nat_of_ascii c) in
  if (48 <=? n) && (n <=? 57) then Some (n - 48)
  else if (97 <=? n) && (n <=? 102) then Some (n - 87)
  else if (65 <=? n) && (n <=? 70) then Some (n - 55)
  else None.

(** [buf.toString('hex')]. *)
Fixpoint encode (b : bytes) : string :=
  match b with
  | [] => EmptyString
  | x :: b' =>
      let n := Buf.byte_to_Z x in
      String (digit (n / 16)) (String (digit (n mod 16)) (encode b'))
  end.

(** [Buffer.from(s, 'hex')]: pairs of digits are decoded until the first
    pair that is not hexadecimal; a trailing single character is dropped. *)
Fixpoint decode (s : string) : bytes :=
  match s with
  | String a (String b s') =>
      match value a, value b with
      | Some h, Some l => Buf.byte_of_Z (16 * h + l) :: decode s'
      | _, _ => []
      end
  | _ => []
  end.

(** Value of a string of hexadecimal digits; [None] when it has another
    character. *)
Fixpoint number_from (acc : Z) (s : string) : option Z :=
  match s with
  | EmptyString => Some acc
  | String c s' =>
      match value c with
      | Some d => number_from (16 * acc + d) s'
      | None => None
      end
  end.

(** The regular expression [/^0x[0-9A-Fa-f]*$/] of [isHexString]. *)
Definition isHexString (s : string) : bool :=
  match s with
  | String "0" (String "x" s') => bool_decide (is_Some (number_from 0 s'))
  | _ => false
  end.

(** [isHexPrefixed]: the first two characters are [0x]. *)
Definition isHexPrefixed (s : string) : bool :=
  match s with
  | String "0" (String "x" _) => true
  | _ => false
  end.

Definition stripHexPrefix (s : string) : string :=
  match s with
  | String "0" (String "x" s') => s'
  | _ => s
  end.

Definition padToEven (s : string) : string :=
  if Nat.even (String.length s) then s else String "0" s.

(** [ethUtil.bufferToHex]. *)
Definition bufferToHex (b : bytes) : string := "0x" +:+ encode b.

End Hex.

(** ** Keccak-256

    [ethUtil.rlphash] and [ethUtil.publicToAddress] hash with the original
    Keccak padding (domain byte [0x01]), rate 136 bytes, 32 bytes of
    output.  Lanes are 64-bit integers; the state is the list of the 25
    lanes, lane [(x, y)] at position [x + 5 * y]. *)

Module Keccak.

Definition mask64 : Z := 2 ^ 64 - 1.

Definition rotl (v : Z) (n : Z) : Z :=
  Z.land (Z.lor (Z.shiftl v n) (Z.shiftr v (64 - n))) mask64.

Definition lane (st : list Z) (x y : nat) : Z :=
  nth ((x mod 5) + 5 * (y mod 5))%nat st 0.

Definition round_constants : list Z :=
  [ 0x0000000000000001; 0x0000000000008082; 0x800000000000808A;
    0x8000000080008000; 0x000000000000808B; 0x0000000080000001;
    0x8000000080008081; 0x8000000000008009; 0x000000000000008A;
    0x0000000000000088; 0x0000000080008009; 0x000000008000000A;
    0x000000008000808B; 0x800000000000008B; 0x8000000000008089;
    0x8000000000008003; 0x8000000000008002; 0x8000000000000080;
    0x000000000000800A; 0x800000008000000A; 0x8000000080008081;
    0x8000000000008080; 0x0000000080000001; 0x8000000080008008 ].

Definition rotation_offsets : list Z :=
  [  0;  1; 62; 28; 27;
    36; 44;  6; 55; 20;
     3; 10; 43; 25; 39;
    41; 45; 15; 21;  8;
    18;  2; 61; 56; 14 ].

Definition coords : list (nat * nat) :=
  flat_map (fun y => map (fun x => (x, y)) (seq 0 5)) (seq 0 5).

Definition theta (st : list Z) : list Z :=
  let c x := fold_left Z.lxor (map (lane st x) (seq 0 5)) 0 in
  let d x := Z.lxor (c (x + 4)%nat) (rotl (c (x + 1)%nat) 1) in
  map (fun '(x, y) => Z.lxor (lane st x y) (d x)) coords.

Definition rho_pi (st : list Z) : list Z :=
  map (fun '(x, y) =>
         let x0 := ((x + 3 * y) mod 5)%nat in
         rotl (lane st x0 x) (nth (x0 + 5 * x)%nat rotation_offsets 0))
      coords.

Definition chi (st : list Z) : list Z :=
  map (fun '(x, y) =>
         Z.lxor (lane st x y)
                (Z.ldiff (lane st (x + 2) y) (lane st (x + 1) y)))
      coords.

Definition iota (rc : Z) (st : list Z) : list Z :=
  match st with
  | a :: st' => Z.lxor a rc :: st'
  | [] => []
  end.

Definition round (st : list Z) (rc : Z) : list Z :=
  iota rc (chi (rho_pi (theta st))).

Definition permute (st : list Z) : list Z :=
  fold_left round round_constants st.

Definition rate : nat := 136.

(** Little-endian lane of eight bytes. *)
Definition lane_of_bytes (b : bytes) : Z :=
  fold_right (fun x acc => Buf.byte_to_Z x + 256 * acc) 0 b.

Definition bytes_of_lane (v : Z) : bytes :=
  map (fun i => Buf.byte_of_Z (Z.shiftr v (8 * Z.of_nat i))) (seq 0 8).

Fixpoint lanes_of_block (n : nat) (b : bytes) : list Z :=
  match n with
  | O => []
  | S n' => lane_of_bytes (take 8 b) :: lanes_of_block n' (drop 8 b)
  end.

(** pad10*1 with the Keccak domain bit. *)
Definition pad (msg : bytes) : bytes :=
  let q := (rate - length msg mod rate)%nat in
  if Nat.eqb q 1 then msg ++ [Byte.x81]
  else msg ++ [Byte.x01] ++ replicate (q - 2) Byte.x00 ++ [Byte.x80].

Definition xor_block (st : list Z) (blk : list Z) : list Z :=
  map (fun '(i, a) => Z.lxor a (nth i blk 0)) (imap pair st).

Fixpoint absorb (n : nat) (st : list Z) (msg : bytes) : list Z :=
  match n with
  | O => st
  | S n' =>
      absorb n'
        (permute (xor_block st (lanes_of_block 17 (take rate msg))))
        (drop rate msg)
  end.

Definition keccak256 (msg : bytes) : bytes :=
  let p := pad msg in
  let st := absorb (length p / rate) (replicate 25 0) p in
  take 32 (flat_map bytes_of_lane st).

End Keccak.

(** ** JavaScript values and exceptions *)

(** The values that reach the field setters and the RLP encoder: buffers,
    integer-valued numbers, strings of one-byte characters, and
    [undefined] / [null]. *)
Inductive jsval :=
| JUndef
| JNum (n : Z)
| JStr (s : string)
| JBuf (b : bytes).

(** The result of a call: a value, or a thrown error with its message. *)
Inductive outcome (A : Type) :=
| Ret (a : A)
| Throw (msg : string).
Arguments Ret {A} a.
Arguments Throw {A} msg.

Definition obind {A B} (o : outcome A) (k : A -> outcome B) : outcome B :=
  match o with
  | Ret a => k a
  | Throw e => Throw e
  end.

Declare Scope outcome_scope.
Delimit Scope outcome_scope with oc.
Notation "x <- c ;; k" := (obind c (fun x => k))
  (at level 20, c at level 99, k at level 200) : outcome_scope.
Notation "' pat <- c ;; k" := (obind c (fun x => match x with pat => k end))
  (at level 20, pat pattern, c at level 99, k at level 200) : outcome_scope.

Definition is_ret {A} (o : outcome A) : bool :=
  match o with Ret _ => true | Throw _ => false end.

(** [assert(cond, msg)]. *)
Definition assert (cond : bool) (msg : string) : outcome unit :=
  if cond then Ret tt else Throw msg.

(** ** Helpers of [ethereumjs-util] *)

Module EthUtil.

(** Digits of [n.toString(16)] for [n > 0], most significant first. *)
Fixpoint hex_digits (fuel : nat) (n : Z) (acc : string) : string :=
  match fuel with
  | O => acc
  | S fuel' =>
      if n <=? 0 then acc
      else hex_digits fuel' (n / 16) (String (Hex.digit (n mod 16)) acc)
  end.

(** [Number.prototype.toString(16)] on an integer. *)
Definition toString16 (n : Z) : string :=
  if n =? 0 then "0"
  else if n <? 0
       then String "-" (hex_digits (Z.to_nat (Z.log2 (- n) + 1)) (- n) "")
       else hex_digits (Z.to_nat (Z.log2 n + 1)) n "".

(** [intToBuffer(i)]: [Buffer.from(padToEven(i.toString(16)), 'hex')].
    Zero is the one-byte buffer [00]; a negative number has a sign
    character in its first pair and decodes to the empty buffer. *)
Definition intToBuffer (n : Z) : bytes :=
  Hex.decode (Hex.padToEven (toString16 n)).

(** [Buffer.from(str)]: UTF-8 of a string of one-byte characters. *)
Definition utf8 (s : string) : bytes :=
  flat_map (fun c =>
              let n := Z.of_nat (nat_of_ascii c) in
              if n <? 128 then [Buf.byte_of_Z n]
              else [Buf.byte_of_Z (192 + n / 64); Buf.byte_of_Z (128 + n mod 64)])
           (list_ascii_of_string s).

(** [ethUtil.toBuffer] (as of [ethereumjs-util] 5: a string that is not
    hexadecimal text is taken as UTF-8). *)
Definition toBuffer (v : jsval) : bytes :=
  match v with
  | JBuf b => b
  | JStr s =>
      if Hex.isHexString s
      then Hex.decode (Hex.padToEven (Hex.stripHexPrefix s))
      else utf8 s
  | JNum n => intToBuffer n
  | JUndef => []
  end.

(** [BN.prototype.toNumber]: only 53 bits are representable. *)
Definition toNumber (z : Z) : outcome Z :=
  if Z.abs z <? 2 ^ 53 then Ret z
  else Throw "Number can only safely store up to 53 bits".

(** [ethUtil.bufferToInt]. *)
Definition bufferToInt (v : jsval) : outcome Z :=
  toNumber (Buf.to_Z (toBuffer v)).

(** [new BN(x)] for a buffer or [undefined]. *)
Definition BN (v : jsval) : Z := Buf.to_Z (toBuffer v).

End EthUtil.

(** ** RLP *)

Module RLP.

(** The [toBuffer] of the [rlp] package, applied to every item that is
    encoded. *)
Definition toBuffer (v : jsval) : bytes :=
  match v with
  | JBuf b => b
  | JStr s =>
      if Hex.isHexPrefixed s
      then Hex.decode (Hex.padToEven (Hex.stripHexPrefix s))
      else EthUtil.utf8 s
  | JNum n => if n =? 0 then [] else EthUtil.intToBuffer n
  | JUndef => []
  end.

Definition encodeLength (len : nat) (offset : Z) : bytes :=
  if Nat.ltb len 56 then [Buf.byte_of_Z (Z.of_nat len + offset)]
  else
    let hexLength := Hex.padToEven (EthUtil.toString16 (Z.of_nat len)) in
    let lLength := Z.of_nat (String.length hexLength) / 2 in
    let firstByte := Hex.padToEven (EthUtil.toString16 (offset + 55 + lLength)) in
    Hex.decode (firstByte +:+ hexLength).

(** [rlp.encode] on one item that is not an array: the item is turned
    into a buffer, and a single byte below 128 is its own encoding. *)
Definition encode_buffer (input : bytes) : bytes :=
  match input with
  | [x] => if Buf.byte_to_Z x <? 128 then input
           else encodeLength 1 128 ++ input
  | _ => encodeLength (length input) 128 ++ input
  end.

Definition encode_item (v : jsval) : bytes := encode_buffer (toBuffer v).

(** [rlp.encode] on an array of such items. *)
Definition encode (items : list jsval) : bytes :=
  let buf := concat (map encode_item items) in
  encodeLength (length buf) 192 ++ buf.

End RLP.

(** [ethUtil.rlphash(items)]. *)
Definition rlphash (items : list jsval) : bytes :=
  Keccak.keccak256 (RLP.encode items).

(** ** The parts of [ethers] the decoder uses *)

Module Ethers.

(** What [RLP.decode] returns: the hexadecimal text of a byte string, or
    an array of such results. *)
Inductive rlpval :=
| RStr (hex : string)
| RArr (items : list rlpval).

(** [hexlify] on bytes (and on a single byte given as a number). *)
Definition hexlify (b : bytes) : string := "0x" +:+ Hex.encode b.

(** [_decode(data, offset)] and [_decodeChildren], on the suffix of [data]
    that starts at [offset]; the result carries the number of bytes
    consumed.  [remaining] is the distance from the child offset to the
    end of the enclosing list. *)
Fixpoint _decode (fuel : nat) (data : bytes) : outcome (rlpval * nat) :=
  match fuel, data with
  | S fuel', b0 :: rest =>
      let n := Buf.byte_to_Z b0 in
      if 0xf8 <=? n then
        let lengthLength := Z.to_nat (n - 0xf7) in
        if Nat.ltb (length rest) lengthLength then Throw "too short"
        else
          let len := Z.to_nat (Buf.to_Z (take lengthLength rest)) in
          if Nat.ltb (length rest) (lengthLength + len) then Throw "to short"
          else
            (items <- _decodeChildren fuel' (drop lengthLength rest) len ;;
             Ret (RArr items, 1 + lengthLength + len)%nat)%oc
      else if 0xc0 <=? n then
        let len := Z.to_nat (n - 0xc0) in
        if Nat.ltb (length rest) len then Throw "invalid rlp data"
        else
          (items <- _decodeChildren fuel' rest len ;;
           Ret (RArr items, 1 + len)%nat)%oc
      else if 0xb8 <=? n then
        let lengthLength := Z.to_nat (n - 0xb7) in
        if Nat.ltb (length rest) lengthLength then Throw "invalid rlp data"
        else
          let len := Z.to_nat (Buf.to_Z (take lengthLength rest)) in
          if Nat.ltb (length rest) (lengthLength + len)
          then Throw "invalid rlp data"
          else Ret (RStr (hexlify (take len (drop lengthLength rest))),
                    1 + lengthLength + len)%nat
      else if 0x80 <=? n then
        let len := Z.to_nat (n - 0x80) in
        if Nat.ltb (length rest) len then Throw "invalid rlp data"
        else Ret (RStr (hexlify (take len rest)), 1 + len)%nat
      else Ret (RStr (hexlify [b0]), 1%nat)
  | _, _ => Throw "invalid rlp data"
  end
with _decodeChildren (fuel : nat) (data : bytes) (remaining : nat)
  : outcome (list rlpval) :=
  match fuel, remaining with
  | _, O => Ret []
  | S fuel', _ =>
      ('(v, consumed) <- _decode fuel' data ;;
       if Nat.ltb remaining consumed then Throw "invalid rlp"
       else
         rest <- _decodeChildren fuel' (drop consumed data) (remaining - consumed) ;;
         Ret (v :: rest))%oc
  | O, _ => Throw "invalid rlp data"
  end.

(** [RLP.decode(data)]. *)
Definition decode (data : bytes) : outcome rlpval :=
  ('(v, consumed) <- _decode (2 * length data + 2) data ;;
   if Nat.eqb consumed (length data) then Ret v
   else Throw "invalid rlp data")%oc.

(** Decimal digits of the regular expression [/^[0-9]*$/]. *)
Fixpoint decimal_from (acc : Z) (s : string) : option Z :=
  match s with
  | EmptyString => Some acc
  | String c s' =>
      let n := Z.of_nat (nat_of_ascii c) in
      if (48 <=? n) && (n <=? 57) then decimal_from (10 * acc + (n - 48)) s'
      else None
  end.

(** [bigNumberify(value)] on a string: hexadecimal text, negated
    hexadecimal text, or decimal text. *)
Definition bigNumberify (value : string) : outcome Z :=
  if Hex.isHexString value then
    match Hex.number_from 0 (Hex.stripHexPrefix value) with
    | Some n => Ret n
    | None => Throw "invalid BigNumber string value"
    end
  else
    match value with
    | String "-" value' =>
        if Hex.isHexString value' then
          match Hex.number_from 0 (Hex.stripHexPrefix value') with
          | Some n => Ret (- n)
          | None => Throw "invalid BigNumber string value"
          end
        else
          match decimal_from 0 value' with
          | Some n => Ret (- n)
          | None => Throw "invalid BigNumber string value"
          end
    | _ =>
        match decimal_from 0 value with
        | Some n => Ret n
        | None => Throw "invalid BigNumber string value"
        end
    end.

(** [BigNumber.prototype.toNumber]. *)
Definition toNumber (z : Z) : outcome Z :=
  if Z.abs z <? 2 ^ 53 then Ret z else Throw "overflow".

End Ethers.

(** ** The curve and the signature helpers of [ethereumjs-util]

    The elliptic-curve primitives live in the native [secp256k1] binding;
    they are an interface here.  [secp_sign] is
    [secp256k1.sign(msgHash, privateKey)], the 64-byte signature and the
    recovery id; [secp_recover] is [secp256k1.recover] followed by
    [publicKeyConvert(_, false).slice(1)]; [secp_publicKeyCreate] is the
    uncompressed public key of a private key without its prefix byte. *)

Class Secp256k1 := {
  secp_sign : bytes -> bytes -> outcome (bytes * Z);
  secp_recover : bytes -> bytes -> Z -> outcome bytes;
  secp_publicKeyCreate : bytes -> bytes
}.

Record signature := { sig_r : bytes; sig_s : bytes; sig_v : Z }.

Section Signatures.
Context {curve : Secp256k1}.

(** [ethUtil.ecsign]. *)
Definition ecsign (msgHash privateKey : bytes) : outcome signature :=
  ('(sg, recovery) <- secp_sign msgHash privateKey ;;
   Ret {| sig_r := take 32 sg;
          sig_s := take 32 (drop 32 sg);
          sig_v := recovery + 27 |})%oc.

(** [ethUtil.ecrecover]. *)
Definition ecrecover (msgHash : bytes) (v : Z) (r s : jsval) : outcome bytes :=
  let sg := Buf.setLength 32 (EthUtil.toBuffer r)
            ++ Buf.setLength 32 (EthUtil.toBuffer s) in
  let recovery := v - 27 in
  if negb (recovery =? 0) && negb (recovery =? 1)
  then Throw "Invalid signature v value"
  else secp_recover msgHash sg recovery.

(** [ethUtil.publicToAddress]. *)
Definition publicToAddress (pubKey : jsval) : outcome bytes :=
  let pubKey := EthUtil.toBuffer pubKey in
  (_ <- assert (Nat.eqb (length pubKey) 64) "AssertionError" ;;
   Ret (Buf.last_n 20 (Keccak.keccak256 pubKey)))%oc.

(** [ethUtil.privateToAddress]: the address of a private key. *)
Definition privateToAddress (privateKey : bytes) : outcome bytes :=
  publicToAddress (JBuf (secp_publicKeyCreate privateKey)).

End Signatures.

(** ** Protocol fee constants ([ethereum-common/params.json]) *)

Record FeeTable := {
  txGas : Z;
  txCreation : Z;
  txDataZeroGas : Z;
  txDataNonZeroGas : Z
}.

Definition params_json : FeeTable :=
  {| txGas := 21000; txCreation := 32000;
     txDataZeroGas := 4; txDataNonZeroGas := 68 |}.

(** ** The field table *)

Module Field.
Record t := {
  name : string;
  alias : option string;
  length : option nat;
  allowLess : bool;
  allowZero : bool;
  default : bytes
}.
End Field.

(** The array [fields] of the constructor, in order. *)
Definition fields : list Field.t :=
  let mk name alias length allowLess allowZero default :=
    {| Field.name := name; Field.alias := alias; Field.length := length;
       Field.allowLess := allowLess; Field.allowZero := allowZero;
       Field.default := default |} in
  [ mk "nonce"      None         (Some 32%nat) true  false [];
    mk "gasPrice"   None         (Some 32%nat) true  false [];
    mk "gasLimit"   (Some "gas") (Some 32%nat) true  false [];
    mk "to"         None         (Some 20%nat) false true  [];
    mk "value"      None         (Some 32%nat) true  false [];
    mk "data"       (Some "input") None        false true  [];
    mk "action"     None         (Some 2%nat)  true  false [];
    mk "vote"       None         None          false true  [];
    mk "nickname"   None         None          false true  [];
    mk "asset"      None         (Some 20%nat) false true  [];
    mk "assetInfo"  None         None          false true  [];
    mk "subAddress" None         None          false true  [];
    mk "abi"        None         None          false true  [];
    mk "v"          None         None          false true  [Byte.x1b];
    mk "r"          None         (Some 32%nat) true  true  [];
    mk "s"          None         (Some 32%nat) true  true  [] ]%string.

(** A property of the array [fields] that is not an index: arrays carry
    no such property, so [fields['subAddress']] is [undefined]. *)
Definition array_named_property (a : list Field.t) (name : string) : jsval :=
  JUndef.

(** ** The transaction object *)

Record Transaction := {
  raw : list bytes;
  _chainId : Z;
  _homestead : bool;
  _subAddress : jsval;
  _from : option bytes;
  _senderPubKey : option bytes
}.

Definition set_raw (r : list bytes) (tx : Transaction) : Transaction :=
  {| raw := r; _chainId := _chainId tx; _homestead := _homestead tx;
     _subAddress := _subAddress tx; _from := _from tx;
     _senderPubKey := _senderPubKey tx |}.

Definition set_chainId (c : Z) (tx : Transaction) : Transaction :=
  {| raw := raw tx; _chainId := c; _homestead := _homestead tx;
     _subAddress := _subAddress tx; _from := _from tx;
     _senderPubKey := _senderPubKey tx |}.

Definition set_homestead (h : bool) (tx : Transaction) : Transaction :=
  {| raw := raw tx; _chainId := _chainId tx; _homestead := h;
     _subAddress := _subAddress tx; _from := _from tx;
     _senderPubKey := _senderPubKey tx |}.

Definition set_subAddress (v : jsval) (tx : Transaction) : Transaction :=
  {| raw := raw tx; _chainId := _chainId tx; _homestead := _homestead tx;
     _subAddress := v; _from := _from tx;
     _senderPubKey := _senderPubKey tx |}.

Definition set_from (a : bytes) (tx : Transaction) : Transaction :=
  {| raw := raw tx; _chainId := _chainId tx; _homestead := _homestead tx;
     _subAddress := _subAddress tx; _from := Some a;
     _senderPubKey := _senderPubKey tx |}.

Definition set_senderPubKey (k : bytes) (tx : Transaction) : Transaction :=
  {| raw := raw tx; _chainId := _chainId tx; _homestead := _homestead tx;
     _subAddress := _subAddress tx; _from := _from tx;
     _senderPubKey := Some k |}.

(** The object before the constructor body has run: no property yet. *)
Definition blank : Transaction :=
  {| raw := []; _chainId := 0; _homestead := false; _subAddress := JUndef;
     _from := None; _senderPubKey := None |}.

(** *** Methods run in a state monad with exceptions

    A method reads and updates the object it is called on; when it throws,
    the updates made before the throw stay. *)

Definition M (A : Type) : Type := Transaction -> outcome A * Transaction.

Definition mret {A} (a : A) : M A := fun tx => (Ret a, tx).

Definition mbind {A B} (m : M A) (k : A -> M B) : M B :=
  fun tx =>
    match m tx with
    | (Ret a, tx') => k a tx'
    | (Throw e, tx') => (Throw e, tx')
    end.

Definition mthrow {A} (msg : string) : M A := fun tx => (Throw msg, tx).

Definition lift {A} (o : outcome A) : M A := fun tx => (o, tx).

Definition this : M Transaction := fun tx => (Ret tx, tx).

Definition update (f : Transaction -> Transaction) : M unit :=
  fun tx => (Ret tt, f tx).

(** [try { body } catch (e) { handler }]. *)
Definition try_catch {A} (body : M A) (handler : M A) : M A :=
  fun tx =>
    match body tx with
    | (Ret a, tx') => (Ret a, tx')
    | (Throw _, tx') => handler tx'
    end.

Declare Scope tx_scope.
Delimit Scope tx_scope with tx.
Notation "x <- c ;; k" := (mbind c (fun x => k))
  (at level 20, c at level 99, k at level 200) : tx_scope.
Notation "c ;;; k" := (mbind c (fun _ => k))
  (at level 100, k at level 200, right associativity) : tx_scope.

Fixpoint for_each {A} (f : A -> M unit) (l : list A) : M unit :=
  match l with
  | [] => mret tt
  | a :: l' => (f a ;;; for_each f l')%tx
  end.

(** ** [ethUtil.defineProperties]: getters, setters and initial data *)

Definition show_nat (n : nat) : string := NilZero.string_of_uint (Nat.to_uint n).
Definition show_Z (z : Z) : string := NilZero.string_of_int (Z.to_int z).

(** [a[i] = v] on an array.  A store past the end grows the array; the
    constructor fills the positions in order, so the padding is never
    used. *)
Definition array_store (i : nat) (v : bytes) (a : list bytes) : list bytes :=
  if Nat.ltb i (length a) then <[i:=v]> a
  else a ++ replicate (i - length a) [] ++ [v].

(** The getter of field [i]: [self.raw[i]]. *)
Definition getter (i : nat) (tx : Transaction) : jsval :=
  match raw tx !! i with
  | Some b => JBuf b
  | None => JUndef
  end.

(** [field.length] when it is truthy. *)
Definition truthy_length (field : Field.t) : option nat :=
  match Field.length field with
  | Some n => if Nat.eqb n 0 then None else Some n
  | None => None
  end.

(** What the setter of a field stores for a value: the value as a buffer,
    a lone zero byte emptied unless the field allows zero, leading zeros
    stripped and the length bounded for [allowLess] fields, the exact
    length required for the other fields with a length. *)
Definition canonicalize (field : Field.t) (v : jsval) : outcome bytes :=
  let v := EthUtil.toBuffer v in
  let v := if String.eqb (Hex.encode v) "00" && negb (Field.allowZero field)
           then [] else v in
  match Field.allowLess field, truthy_length field with
  | true, Some n =>
      let v := Buf.stripZeros v in
      (_ <- assert (Nat.leb (length v) n)
              ("The field " +:+ Field.name field +:+ " must not have more "
               +:+ show_nat n +:+ " bytes") ;;
       Ret v)%oc
  | _, Some n =>
      if negb (Field.allowZero field && Nat.eqb (length v) 0) then
        (_ <- assert (Nat.eqb n (length v))
                ("The field " +:+ Field.name field +:+ " must have byte length of "
                 +:+ show_nat n) ;;
         Ret v)%oc
      else Ret v
  | _, None => Ret v
  end.

(** The setter of field [i]: [self.raw[i] = v] on the canonical value. *)
Definition setter (i : nat) (field : Field.t) (v : jsval) : M unit :=
  (b <- lift (canonicalize field v) ;;
   update (fun tx => set_raw (array_store i b (raw tx)) tx))%tx.

(** The accessor a property name denotes: a field name or an alias. *)
Definition property (name : string) : option (nat * Field.t) :=
  list_find (fun f => Field.name f = name \/ Field.alias f = Some name) fields.

(** [this.name = v], for [name] a field name or an alias: the accessors
    [defineProperties] installs.  The other properties of the object are
    not of this kind ([from] has a getter of its own, [getSenderAddress],
    and no setter) and are not read or written through [set] and [get]. *)
Definition set (name : string) (v : jsval) : M unit :=
  match property name with
  | Some (i, field) => setter i field v
  | None => mret tt
  end.

(** [this.name], for [name] a field name or an alias. *)
Definition get (name : string) (tx : Transaction) : jsval :=
  match property name with
  | Some (i, _) => getter i tx
  | None => JUndef
  end.

(** The constructor argument: an object of properties, with its [chainId]
    (a Number when present), or an array of field values.  A serialized
    buffer is first decoded into such an array by [defineProperties]. *)
Inductive txdata :=
| DataObject (props : gmap string jsval) (chainId : option Z)
| DataArray (items : list jsval).

Definition data_chainId (data : txdata) : option Z :=
  match data with
  | DataObject _ c => c
  | DataArray _ => None
  end.

Definition defineProperties (data : txdata) : M unit :=
  (update (set_raw []) ;;;
   for_each (fun '(i, field) => setter i field (JBuf (Field.default field)))
            (imap pair fields) ;;;
   match data with
   | DataArray items =>
       if Nat.ltb (length fields) (length items)
       then mthrow "wrong number of fields in data"
       else for_each (fun '(i, d) =>
                        match fields !! i with
                        | Some field => setter i field (JBuf (EthUtil.toBuffer d))
                        | None => mret tt
                        end)
                     (imap pair items)
   | DataObject props _ =>
       for_each (fun field =>
                   (match props !! Field.name field with
                    | Some v => set (Field.name field) v
                    | None => mret tt
                    end ;;;
                    match Field.alias field with
                    | Some a =>
                        match props !! a with
                        | Some v => set a v
                        | None => mret tt
                        end
                    | None => mret tt
                    end)%tx)
                fields
   end)%tx.

(** JavaScript's [a || b || 0] on the two chain ids. *)
Definition first_truthy (chainId : Z) (supplied : option Z) : Z :=
  if negb (chainId =? 0) then chainId
  else match supplied with
       | Some c => c
       | None => 0
       end.

(** [constructor (data)]. *)
Definition constructor (data : option txdata) : M unit :=
  let data := default (DataObject ∅ None) data in
  (defineProperties data ;;;
   tx <- this ;;
   sigV <- lift (EthUtil.bufferToInt (get "v" tx)) ;;
   let chainId := (sigV - 35) / 2 in
   let chainId := if chainId <? 0 then 0 else chainId in
   update (set_chainId (first_truthy chainId (data_chainId data))) ;;;
   update (set_homestead true) ;;;
   update (set_subAddress (array_named_property fields "subAddress")))%tx.

(** [new Transaction(data)]: the object, unless the constructor throws. *)
Definition new_Transaction (data : option txdata) : outcome Transaction :=
  match constructor data blank with
  | (Ret _, tx) => Ret tx
  | (Throw e, _) => Throw e
  end.

(** secp256k1n/2 *)
Definition N_DIV_2 : Z :=
  0x7fffffffffffffffffffffffffffffff5d576e7357a4501ddfe92f46681b20a0.

(** The order of the curve. *)
Definition secp256k1n : Z :=
  0xFFFFFFFFFFFFFFFFFFFFFFFFFFFFFFFEBAAEDCE6AF48A03BBFD25E8CD0364141.

(** What [validate] returns: a Boolean, or the joined error messages. *)
Inductive validation :=
| VBool (b : bool)
| VString (s : string).

(** ** class [Transaction] *)

Section Methods.
Context {curve : Secp256k1} (fees : FeeTable).

(** [toCreationAddress ()]; reading [toString] off a missing [to] is a
    TypeError. *)
Definition toCreationAddress (tx : Transaction) : outcome bool :=
  match get "to" tx with
  | JBuf b => Ret (String.eqb (Hex.encode b) "")
  | _ => Throw "TypeError"
  end.

(** [hash (includeSignature, chainID)].  In the branch of the chain id the
    array that was [this.raw] at entry receives the substituted [v], [r]
    and [s] and is the one hashed; the record ends with the copy taken
    before the substitution. *)
Definition hash (includeSignature : option bool) (chainID : option Z) : M bytes :=
  let includeSignature := default true includeSignature in
  ((if includeSignature && negb (default 0 chainID =? 0)
    then set "v" (JNum (default 0 chainID))
    else mret tt) ;;;
   items <-
     (if includeSignature then
        tx <- this ;; mret (raw tx)
      else
        tx <- this ;;
        if 0 <? _chainId tx then
          let raw0 := raw tx in
          set "v" (JNum (_chainId tx)) ;;;
          set "r" (JNum 0) ;;;
          set "s" (JNum 0) ;;;
          tx' <- this ;;
          let items := raw tx' in
          update (set_raw raw0) ;;;
          mret items
        else mret (take 6 (raw tx))) ;;
   mret (rlphash (map JBuf items)))%tx.

(** [getChainId ()]. *)
Definition getChainId (tx : Transaction) : Z := _chainId tx.

(** The array [items] built by [verifySignature]. *)
Definition verify_items (tx : Transaction) : list jsval :=
  [ get "nonce" tx; get "gasPrice" tx; get "gasLimit" tx; get "to" tx;
    get "value" tx; get "data" tx; JNum 0; get "vote" tx;
    get "nickname" tx; get "asset" tx; get "assetInfo" tx;
    _subAddress tx; get "abi" tx; JNum (_chainId tx); JNum 0; JNum 0 ].

(** [verifySignature ()].  The [console.log] of the recovered key is an
    output only and is left out. *)
Definition verifySignature : M bool :=
  (update (set_chainId 1) ;;;
   tx <- this ;;
   let msgHash := rlphash (verify_items tx) in
   if _homestead tx && (N_DIV_2 <? EthUtil.BN (get "s" tx)) then mret false
   else
     try_catch
       (v <- lift (EthUtil.bufferToInt (get "v" tx)) ;;
        let v := if 0 <? _chainId tx then v - (_chainId tx * 2 + 8) else v in
        k <- lift (ecrecover msgHash v (get "r" tx) (get "s" tx)) ;;
        update (set_senderPubKey k) ;;;
        tx' <- this ;;
        mret (bool_decide (is_Some (_senderPubKey tx'))))
       (mret false))%tx.

(** [getSenderPublicKey ()]. *)
Definition getSenderPublicKey : M jsval :=
  (tx <- this ;;
   (match _senderPubKey tx with
    | Some (_ :: _) => mret tt
    | _ =>
        ok <- verifySignature ;;
        if ok then mret tt else mthrow "Invalid Signature"
    end) ;;;
   tx' <- this ;;
   mret (match _senderPubKey tx' with
         | Some k => JBuf k
         | None => JUndef
         end))%tx.

(** [getSenderAddress ()], also the getter of the property [from]. *)
Definition getSenderAddress : M bytes :=
  (tx <- this ;;
   match _from tx with
   | Some a => mret a
   | None =>
       pubkey <- getSenderPublicKey ;;
       a <- lift (publicToAddress pubkey) ;;
       update (set_from a) ;;;
       mret a
   end)%tx.

(** [sign (privateKey, chainID)]; [Object.assign] runs the setters of
    [r], [s] and [v], in the order [ecsign] created them. *)
Definition sign (privateKey : bytes) (chainID : option Z) : M unit :=
  (msgHash <- hash (Some true) chainID ;;
   sig <- lift (ecsign msgHash privateKey) ;;
   let v := if 0 <? default 0 chainID
            then sig_v sig + (default 0 chainID * 2 + 8)
            else sig_v sig in
   set "r" (JBuf (sig_r sig)) ;;;
   set "s" (JBuf (sig_s sig)) ;;;
   set "v" (JNum v))%tx.

(** [getDataFee ()]. *)
Definition getDataFee (tx : Transaction) : outcome Z :=
  match raw tx !! 5%nat with
  | Some data =>
      Ret (fold_left
             (fun cost x =>
                if decide (x = Byte.x00) then cost + txDataZeroGas fees
                else cost + txDataNonZeroGas fees)
             data 0)
  | None => Throw "TypeError"
  end.

(** [getBaseFee ()]. *)
Definition getBaseFee (tx : Transaction) : outcome Z :=
  (dataFee <- getDataFee tx ;;
   let fee := dataFee + txGas fees in
   if _homestead tx then
     creation <- toCreationAddress tx ;;
     Ret (if creation then fee + txCreation fees else fee)
   else Ret fee)%oc.

(** [getUpfrontCost ()]. *)
Definition getUpfrontCost (tx : Transaction) : Z :=
  EthUtil.BN (get "gasLimit" tx) * EthUtil.BN (get "gasPrice" tx)
  + EthUtil.BN (get "value" tx).

(** [validate (stringError)]. *)
Definition validate (stringError : option bool) : M validation :=
  (ok <- verifySignature ;;
   let errors := if ok then [] else ["Invalid Signature"%string] in
   tx <- this ;;
   fee <- lift (getBaseFee tx) ;;
   errors <-
     (if EthUtil.BN (get "gasLimit" tx) <? fee then
        fee' <- lift (getBaseFee tx) ;;
        mret (errors ++ ["gas limit is too low. Need at least " +:+ show_Z fee'])
      else mret errors) ;;
   match stringError with
   | None | Some false => mret (VBool (Nat.eqb (length errors) 0))
   | Some true => mret (VString (String.concat " " errors))
   end)%tx.

End Methods.

(** ** The free functions of the module *)

Definition AOAtoHex (address : string) : string :=
  match address with
  | String "A" (String "O" (String "A" rest)) => "0x" +:+ rest
  | _ => address
  end.

Definition HexToAOA (address : string) : string :=
  match address with
  | String "0" (String "x" rest) => "AOA" +:+ rest
  | _ => address
  end.

(** The white space that [ToNumber] trims, among one-byte characters. *)
Definition is_whitespace (c : ascii) : bool :=
  let n := nat_of_ascii c in
  bool_decide (n ∈ [9; 10; 11; 12; 13; 32; 160]%nat).

(** [String.fromCharCode("0x" + a + b)]: the text is converted with
    [ToNumber]; what is not a hexadecimal literal is [NaN] and gives the
    character of code 0. *)
Definition fromCharCode (a : ascii) (b : option ascii) : ascii :=
  match Hex.value a, b with
  | Some h, Some b =>
      match Hex.value b with
      | Some l => ascii_of_nat (Z.to_nat (16 * h + l))
      | None => if is_whitespace b then ascii_of_nat (Z.to_nat h) else Ascii.zero
      end
  | _, _ => Ascii.zero
  end.

Fixpoint hexToString (hex : string) : string :=
  match hex with
  | String a (String b rest) => String (fromCharCode a (Some b)) (hexToString rest)
  | String a EmptyString => String (fromCharCode a None) EmptyString
  | EmptyString => EmptyString
  end.

(** [s.substring(2)]. *)
Definition substring2 (s : string) : string :=
  String.substring 2 (String.length s - 2) s.

(** The object [decodeTx] returns; [to] is absent once deleted.  [data]
    and [asset] are stored as decoded. *)
Module Decoded.
Record t := {
  from : string;
  nonce : Z;
  gasPrice : Z;
  gasLimit : Z;
  to : option string;
  value : Z;
  data : option Ethers.rlpval;
  v : Z;
  r : string;
  s : string;
  action : string;
  asset : option Ethers.rlpval;
  subAddress : string
}.
End Decoded.

(** The array destructuring [var [...] = decoded_tx]: the elements of an
    array, or the characters of a string. *)
Definition destructure (decoded_tx : Ethers.rlpval) : list Ethers.rlpval :=
  match decoded_tx with
  | Ethers.RArr items => items
  | Ethers.RStr s =>
      map (fun c => Ethers.RStr (String c EmptyString)) (list_ascii_of_string s)
  end.

(** A string method called on a destructured element: a TypeError unless
    the element is a string. *)
Definition as_string (v : option Ethers.rlpval) : outcome string :=
  match v with
  | Some (Ethers.RStr s) => Ret s
  | _ => Throw "TypeError"
  end.

(** [String(v)] for a decoded value: a text is itself, and a list is the
    texts of its elements joined by commas. *)
Fixpoint text_of (v : Ethers.rlpval) : string :=
  match v with
  | Ethers.RStr s => s
  | Ethers.RArr items => String.concat "," (map text_of items)
  end.

(** The test [isArrayish] of [ethers] on one element [v] of a list,
    [v < 0 || v >= 256 || parseInt(String(v)) != v], and the byte
    [hexlify] then reads off it.  The element is compared through its
    text, which for a decoded value is a text of [hexlify] or several of
    them joined by commas: it passes when it is [0x] followed by at
    least one digit, of a value below 256. *)
Definition array_byte (v : Ethers.rlpval) : option Z :=
  match text_of v with
  | String "0" (String "x" (String c digits)) =>
      match Hex.number_from 0 (String c digits) with
      | Some n => if n <? 256 then Some n else None
      | None => None
      end
  | _ => None
  end.

Fixpoint array_bytes (items : list Ethers.rlpval) : option (list Z) :=
  match items with
  | [] => Some []
  | v :: items' =>
      match array_byte v, array_bytes items' with
      | Some n, Some ns => Some (n :: ns)
      | _, _ => None
      end
  end.

(** [bigNumberify(value)] on a destructured element: a text is converted
    as such; a list that [isArrayish] accepts is taken as the bytes of a
    big-endian number; reading [toHexString] off [undefined] is a
    TypeError. *)
Definition bigNumberify_value (value : option Ethers.rlpval) : outcome Z :=
  match value with
  | Some (Ethers.RStr s) => Ethers.bigNumberify s
  | Some (Ethers.RArr items) =>
      match array_bytes items with
      | Some ns => Ret (fold_left (fun acc n => acc * 256 + n) ns 0)
      | None => Throw "invalid BigNumber value"
      end
  | None => Throw "TypeError"
  end.

Section Decoder.
Context {curve : Secp256k1}.

(** The array [items] hashed by [decodeTx]. *)
Definition decode_items (raw_nonce raw_gasPrice raw_gasLimit raw_to
                         raw_value raw_action sub : string) (chainId : Z)
  : list jsval :=
  [ JBuf (Hex.decode (substring2 raw_nonce));
    JBuf (Hex.decode (substring2 raw_gasPrice));
    JBuf (Hex.decode (substring2 raw_gasLimit));
    JBuf (Hex.decode (substring2 raw_to));
    JBuf (Hex.decode (substring2 raw_value));
    JBuf [];
    JBuf (Hex.decode (substring2 raw_action));
    JBuf []; JBuf []; JBuf []; JBuf [];
    JStr sub;
    JBuf [];
    JNum chainId; JNum 0; JNum 0 ].

(** The first half of [decodeTx], up to the array [items]: the text of
    the sub-address and the items that are hashed. *)
Definition decodeTx_items (decoded_tx : Ethers.rlpval)
  : outcome (list jsval * string) :=
  (let el := fun i : nat => destructure decoded_tx !! i in
   let chainId := 1 in
   raw_subAddress <- as_string (el 11%nat) ;;
   let subAddress := hexToString raw_subAddress in
   let subAddress :=
     match String.index 0 "AOA" subAddress with
     | Some idx => String.substring idx (String.length subAddress - idx) subAddress
     | None => subAddress
     end in
   let sub := if String.eqb subAddress (String Ascii.zero EmptyString)
              then "0x"%string else subAddress in
   raw_nonce <- as_string (el 0%nat) ;;
   raw_gasPrice <- as_string (el 1%nat) ;;
   raw_gasLimit <- as_string (el 2%nat) ;;
   raw_to <- as_string (el 3%nat) ;;
   raw_value <- as_string (el 4%nat) ;;
   raw_action <- as_string (el 6%nat) ;;
   Ret (decode_items raw_nonce raw_gasPrice raw_gasLimit raw_to
                     raw_value raw_action sub chainId,
        subAddress))%oc.

(** [decodeTx (raw_tx)].  The element in the position of [v] goes to
    [bigNumberify] as it is; the others are used as texts. *)
Definition decodeTx (raw_tx : bytes) : outcome Decoded.t :=
  (decoded_tx <- Ethers.decode raw_tx ;;
   let el := fun i : nat => destructure decoded_tx !! i in
   let chainId := 1 in
   '(items, subAddress) <- decodeTx_items decoded_tx ;;
   let msgHash := rlphash items in
   let raw_v := el 13%nat in
   v <- bigNumberify_value raw_v ;;
   v <- Ethers.toNumber v ;;
   let v := if 0 <? chainId then v - (chainId * 2 + 8) else v in
   raw_r <- as_string (el 14%nat) ;;
   raw_s <- as_string (el 15%nat) ;;
   senderPubKey <- ecrecover msgHash v (JBuf (Hex.decode (substring2 raw_r)))
                             (JBuf (Hex.decode (substring2 raw_s))) ;;
   from <- publicToAddress (JBuf senderPubKey) ;;
   let from := HexToAOA (Hex.bufferToHex from) in
   raw_nonce <- as_string (el 0%nat) ;;
   nonce <- Ethers.bigNumberify raw_nonce ;;
   nonce <- Ethers.toNumber nonce ;;
   raw_gasPrice <- as_string (el 1%nat) ;;
   gasPrice <- Ethers.bigNumberify raw_gasPrice ;;
   raw_gasLimit <- as_string (el 2%nat) ;;
   gasLimit <- Ethers.bigNumberify raw_gasLimit ;;
   raw_to <- as_string (el 3%nat) ;;
   let to := HexToAOA raw_to in
   raw_value <- as_string (el 4%nat) ;;
   value <- Ethers.bigNumberify raw_value ;;
   v' <- bigNumberify_value raw_v ;;
   v' <- Ethers.toNumber v' ;;
   raw_action <- as_string (el 6%nat) ;;
   Ret {| Decoded.from := from;
          Decoded.nonce := nonce;
          Decoded.gasPrice := gasPrice;
          Decoded.gasLimit := gasLimit;
          Decoded.to := if String.eqb to "0x" then None else Some to;
          Decoded.value := value;
          Decoded.data := el 5%nat;
          Decoded.v := v';
          Decoded.r := raw_r;
          Decoded.s := raw_s;
          Decoded.action := raw_action;
          Decoded.asset := el 9%nat;
          Decoded.subAddress := subAddress |})%oc.

End Decoder.

(** [tx.serialize ()], attached by [defineProperties]. *)
Definition serialize (tx : Transaction) : bytes :=
  RLP.encode (map JBuf (raw tx)).

(** ** The curve secp256k1

    The interface is instantiated with the curve itself, to run the
    methods on concrete records: the field of [2^256 - 2^32 - 977]
    elements, the curve [y^2 = x^3 + 7], points in Jacobian coordinates,
    ECDSA signing with low-s normalisation and public-key recovery.  The
    arithmetic is on [bigZ] so that it evaluates.  One thing departs from
    the binding: the nonce is derived from the key and the digest with
    Keccak-256 where the binding uses the HMAC construction of RFC 6979;
    every nonce gives a valid signature. *)

Module Curve.

Local Open Scope bigZ_scope.

Definition p : bigZ := Eval vm_compute in BigZ.of_Z (2 ^ 256 - 2 ^ 32 - 977)%Z.

Definition n : bigZ := Eval vm_compute in BigZ.of_Z secp256k1n.

Definition Gx : bigZ := Eval vm_compute in BigZ.of_Z
  0x79BE667EF9DCBBAC55A06295CE870B07029BFCDB2DCE28D959F2815B16F81798%Z.

Definition Gy : bigZ := Eval vm_compute in BigZ.of_Z
  0x483ADA7726A3C4655DA4FBFC0E1108A8FD17B448A68554199C47D08FFB10D4B8%Z.

(** [b ^ e mod m] by squaring. *)
Fixpoint pow_mod (m b : bigZ) (e : positive) : bigZ :=
  match e with
  | xH => b mod m
  | xO e' => let h := pow_mod m b e' in (h * h) mod m
  | xI e' => let h := pow_mod m b e' in (((h * h) mod m) * b) mod m
  end.

(** The inverse modulo a prime [m], as the power [m - 2]. *)
Definition inv_mod (m a : bigZ) : bigZ :=
  pow_mod m a (Z.to_pos (BigZ.to_Z m - 2)%Z).

(** A point [(X, Y, Z)] stands for [(X / Z^2, Y / Z^3)]; [Z = 0] is the
    point at infinity. *)
Definition point : Type := (bigZ * bigZ * bigZ)%type.

Definition infinity : point := (1, 1, 0).

Definition G : point := (Gx, Gy, 1).

Definition double (P : point) : point :=
  let '(X, Y, Z) := P in
  if (Z =? 0) || (Y =? 0) then infinity
  else
    let A := (X * X) mod p in
    let B := (Y * Y) mod p in
    let C := (B * B) mod p in
    let D := (2 * ((X + B) * (X + B) - A - C)) mod p in
    let E := (3 * A) mod p in
    let F := (E * E) mod p in
    let X3 := (F - 2 * D) mod p in
    let Y3 := (E * (D - X3) - 8 * C) mod p in
    let Z3 := (2 * Y * Z) mod p in
    (X3, Y3, Z3).

Definition add (P Q : point) : point :=
  let '(X1, Y1, Z1) := P in
  let '(X2, Y2, Z2) := Q in
  if Z1 =? 0 then Q
  else if Z2 =? 0 then P
  else
    let Z1Z1 := (Z1 * Z1) mod p in
    let Z2Z2 := (Z2 * Z2) mod p in
    let U1 := (X1 * Z2Z2) mod p in
    let U2 := (X2 * Z1Z1) mod p in
    let S1 := (Y1 * Z2 * Z2Z2) mod p in
    let S2 := (Y2 * Z1 * Z1Z1) mod p in
    if U1 =? U2 then (if S1 =? S2 then double P else infinity)
    else
      let H := (U2 - U1) mod p in
      let R := (S2 - S1) mod p in
      let HH := (H * H) mod p in
      let HHH := (H * HH) mod p in
      let V := (U1 * HH) mod p in
      let X3 := (R * R - HHH - 2 * V) mod p in
      let Y3 := (R * (V - X3) - S1 * HHH) mod p in
      let Z3 := (Z1 * Z2 * H) mod p in
      (X3, Y3, Z3).

Fixpoint mul_pos (k : positive) (P : point) : point :=
  match k with
  | xH => P
  | xO k' => double (mul_pos k' P)
  | xI k' => add (double (mul_pos k' P)) P
  end.

(** [k * P] for [0 <= k]. *)
Definition mul (k : bigZ) (P : point) : point :=
  match BigZ.to_Z k with
  | Zpos k' => mul_pos k' P
  | _ => infinity
  end.

(** Affine coordinates, unless the point is at infinity. *)
Definition affine (P : point) : option (bigZ * bigZ) :=
  let '(X, Y, Z) := P in
  if Z =? 0 then None
  else
    let zi := inv_mod p Z in
    let zi2 := (zi * zi) mod p in
    Some ((X * zi2) mod p, (Y * zi2 * zi) mod p).

Definition scalar_of_bytes (b : bytes) : bigZ := BigZ.of_Z (Buf.to_Z b).

Definition bytes32 (x : bigZ) : bytes :=
  Buf.setLength 32 (Buf.of_Z (BigZ.to_Z x)).

(** The 64 bytes [x ++ y] of a point. *)
Definition encode_point (P : point) : outcome bytes :=
  match affine P with
  | Some (x, y) => Ret (bytes32 x ++ bytes32 y)
  | None => Throw "point at infinity"
  end.

Definition valid_scalar (d : bigZ) : bool := (0 <? d) && (d <? n).

(** [secp256k1.publicKeyCreate(privateKey, false).slice(1)]; the empty
    buffer for a key that is not a scalar of the curve. *)
Definition publicKeyCreate (privateKey : bytes) : bytes :=
  let d := scalar_of_bytes privateKey in
  if Nat.eqb (length privateKey) 32 && valid_scalar d then
    match encode_point (mul d G) with
    | Ret b => b
    | Throw _ => []
    end
  else [].

(** [secp256k1.sign(msgHash, privateKey)]. *)
Definition sign (msgHash privateKey : bytes) : outcome (bytes * Z) :=
  let d := scalar_of_bytes privateKey in
  if negb (Nat.eqb (length privateKey) 32 && valid_scalar d)
  then Throw "private key invalid"
  else if negb (Nat.eqb (length msgHash) 32)
  then Throw "message length is invalid"
  else
    let e := scalar_of_bytes msgHash mod n in
    let k := scalar_of_bytes (Keccak.keccak256 (privateKey ++ msgHash)) mod n in
    match affine (mul k G) with
    | None => Throw "nonce generation function failed"
    | Some (x, y) =>
        let r := x mod n in
        let s := (inv_mod n k * (e + r * d)) mod n in
        if (r =? 0) || (s =? 0) then Throw "nonce generation function failed"
        else
          let recovery := Z.add (BigZ.to_Z (y mod 2)) (if x <? n then 0%Z else 2%Z) in
          let '(s, recovery) :=
            if BigZ.of_Z N_DIV_2 <? s
            then (n - s, Z.lxor recovery 1)
            else (s, recovery) in
          Ret (bytes32 r ++ bytes32 s, recovery)
    end.

(** [secp256k1.recover(msgHash, signature, recovery)], converted to the
    64 bytes of the uncompressed key. *)
Definition recover (msgHash sg : bytes) (recovery : Z) : outcome bytes :=
  let r := scalar_of_bytes (take 32 sg) in
  let s := scalar_of_bytes (drop 32 sg) in
  if negb (Nat.eqb (length sg) 64) || negb (valid_scalar r) || negb (valid_scalar s)
  then Throw "couldn't parse signature"
  else
    let x := if Z.testbit recovery 1 then r + n else r in
    let y2 := (x * x * x + 7) mod p in
    let y := pow_mod p y2 (Z.to_pos ((BigZ.to_Z p + 1) / 4)%Z) in
    if negb (x <? p) || negb ((y * y) mod p =? y2)
    then Throw "couldn't recover public key from signature"
    else
      let y := if Z.eqb (BigZ.to_Z (y mod 2)) (Z.land recovery 1) then y else p - y in
      let e := scalar_of_bytes msgHash mod n in
      let ri := inv_mod n r in
      let u1 := ((n - e) * ri) mod n in
      let u2 := (s * ri) mod n in
      match encode_point (add (mul u1 G) (mul u2 (x, y, 1))) with
      | Ret b => Ret b
      | Throw _ => Throw "couldn't recover public key from signature"
      end.

#[export] Instance curve : Secp256k1 :=
  {| secp_sign := sign;
     secp_recover := recover;
     secp_publicKeyCreate := publicKeyCreate |}.

End Curve.

(** ** Vocabulary of the statements *)

(** The state components a setter leaves alone. *)
Definition same_caches (tx tx' : Transaction) : Prop :=
  _chainId tx' = _chainId tx /\ _homestead tx' = _homestead tx
  /\ _subAddress tx' = _subAddress tx /\ _from tx' = _from tx
  /\ _senderPubKey tx' = _senderPubKey tx.

(** The class invariant: what the constructor establishes and every
    method keeps.  A record is a [Transaction] that satisfies it. *)
Definition constructed (tx : Transaction) : Prop :=
  length (raw tx) = 16%nat /\ _homestead tx = true /\ _subAddress tx = JUndef.

(** The raw fields after the default values have been installed. *)
Definition default_raw : list bytes :=
  [[]; []; []; []; []; []; []; []; []; []; []; []; []; [Byte.x1b]; []; []].

(** The value the constructor input gives for [v]: the property [v] of
    an object or the fourteenth item of an array; the default of the
    field, 27, when there is none. *)
Definition supplied_v (data : option txdata) : jsval :=
  match data with
  | Some (DataObject props _) => default (JBuf [Byte.x1b]) (props !! "v"%string)
  | Some (DataArray items) => default (JBuf [Byte.x1b]) (items !! 13%nat)
  | None => JBuf [Byte.x1b]
  end.

(** The chain id the caller supplied in the constructor data, if any. *)
Definition supplied_chainId (data : option txdata) : option Z :=
  match data with
  | Some d => data_chainId d
  | None => None
  end.

(** The chain id read off the signature value [v]. *)
Definition derived_chainId (v : Z) : Z :=
  if 35 <=? v then (v - 35) / 2 else 0.

(** Whether [getSenderAddress] answers from a cache, without verifying. *)
Definition sender_cached (tx : Transaction) : bool :=
  match _from tx, _senderPubKey tx with
  | Some _, _ => true
  | None, Some (_ :: _) => true
  | None, _ => false
  end.

(** The message hash [verifySignature] computes for a record. *)
Definition verification_hash (tx : Transaction) : bytes :=
  rlphash (verify_items (set_chainId 1 tx)).

(** Two records that differ at most in their [action] (index 6) and
    [subAddress] (index 11) fields. *)
Definition differ_only_in_action_subAddress (tx1 tx2 : Transaction) : Prop :=
  length (raw tx1) = length (raw tx2)
  /\ (forall i : nat, i <> 6%nat -> i <> 11%nat -> raw tx1 !! i = raw tx2 !! i)
  /\ same_caches tx1 tx2.

(** The sequence [hash(false)] encodes when the chain id is positive:
    the sixteen fields with [v] replaced by the chain id and empty [r]
    and [s]. *)
Definition unsigned_preimage (tx : Transaction) : list jsval :=
  [ get "nonce" tx; get "gasPrice" tx; get "gasLimit" tx; get "to" tx;
    get "value" tx; get "data" tx; get "action" tx; get "vote" tx;
    get "nickname" tx; get "asset" tx; get "assetInfo" tx;
    get "subAddress" tx; get "abi" tx; JNum (_chainId tx); JNum 0; JNum 0 ].

(** The sequence as the specification words it, with the constant 0 in
    the position of [action]. *)
Definition claimed_preimage (tx : Transaction) : list jsval :=
  [ get "nonce" tx; get "gasPrice" tx; get "gasLimit" tx; get "to" tx;
    get "value" tx; get "data" tx; JNum 0; get "vote" tx;
    get "nickname" tx; get "asset" tx; get "assetInfo" tx;
    get "subAddress" tx; get "abi" tx; JNum (_chainId tx); JNum 0; JNum 0 ].

(** The first six fields. *)
Definition legacy_preimage (tx : Transaction) : list jsval :=
  [ get "nonce" tx; get "gasPrice" tx; get "gasLimit" tx; get "to" tx;
    get "value" tx; get "data" tx ].

(** The digest [sign] hands to [ecsign]: [hash(true, chainID)]. *)
Definition signed_digest (chainID : option Z) (tx : Transaction) : bytes :=
  match hash (Some true) chainID tx with
  | (Ret digest, _) => digest
  | (Throw _, _) => []
  end.

(** The contract of the curve at one digest and one private key: signing
    returns a 64-byte signature in the low half of the order with
    recovery id 0 or 1, and recovery from that signature returns the
    64-byte public key of the private key. *)
Definition signs_correctly {curve : Secp256k1} (msgHash privateKey : bytes) : Prop :=
  exists sg recovery,
    secp_sign msgHash privateKey = Ret (sg, recovery)
    /\ length sg = 64%nat
    /\ (recovery = 0 \/ recovery = 1)
    /\ Buf.to_Z (drop 32 sg) <= N_DIV_2
    /\ secp_recover msgHash sg recovery = Ret (secp_publicKeyCreate privateKey)
    /\ length (secp_publicKeyCreate privateKey) = 64%nat.

(** ** Records used as examples *)

Definition example_key : bytes :=
  Hex.decode "e331b6d69882b4cb4ea581d88e0b604039a3de5967688d3dcffdd2270c0fd109".

(** The transaction of the class comment, unsigned. *)
Definition example_data : option txdata :=
  Some (DataObject
          (list_to_map
             [ ("nonce", JStr "0x00");
               ("gasPrice", JStr "0x09184e72a000");
               ("gasLimit", JStr "0x2710");
               ("to", JStr "0x0000000000000000000000000000000000000000");
               ("value", JStr "0x00");
               ("data", JStr "0x7f7465737432000000000000000000000000000000000000000000000000000000600057")
             ]%string)
          None).

Definition example_tx : Transaction := Eval vm_compute in
    match new_Transaction example_data with
    | Ret tx => tx
    | Throw _ => blank
    end.

(** The example signed for chain id 0, and for chain id 1, with the curve. *)
Definition example_signed_chain0 : Transaction := Eval vm_compute in
    (sign (curve := Curve.curve) example_key (Some 0) example_tx).2.


(** A record with an action and the signature value of chain id 1. *)
Definition action_data : option txdata :=
  Some (DataObject
          (list_to_map [ ("action", JStr "0x01"); ("v", JNum 37) ]%string)
          None).

Definition action_tx : Transaction := Eval vm_compute in
    match new_Transaction action_data with
    | Ret tx => tx
    | Throw _ => blank
    end.

(** The example with an action and a sub-address added. *)
Definition example_action_data : option txdata :=
  Some (DataObject
          (list_to_map
             [ ("nonce", JStr "0x00");
               ("gasPrice", JStr "0x09184e72a000");
               ("gasLimit", JStr "0x2710");
               ("to", JStr "0x0000000000000000000000000000000000000000");
               ("value", JStr "0x00");
               ("data", JStr "0x7f7465737432000000000000000000000000000000000000000000000000000000600057");
               ("action", JStr "0x05");
               ("subAddress", JStr "AOA0000000000000000000000000000000000000000sub")
             ]%string)
          None).

Definition example_action_tx : Transaction := Eval vm_compute in
    match new_Transaction example_action_data with
    | Ret tx => tx
    | Throw _ => blank
    end.

(** A record whose [s] is above half the order of the curve. *)
Definition high_s_data : option txdata :=
  Some (DataObject
          (list_to_map
             [ ("r", JStr "0x01");
               ("s", JStr "0x8000000000000000000000000000000000000000000000000000000000000000")
             ]%string)
          None).

Definition high_s_tx : Transaction := Eval vm_compute in
    match new_Transaction high_s_data with
    | Ret tx => tx
    | Throw _ => blank
    end.

(** A contract creation carrying data, signed for chain id 1 with the
    curve and read back from its signed fields. *)
Definition creation_data : option txdata :=
  Some (DataObject
          (list_to_map
             [ ("nonce", JStr "0x00");
               ("gasPrice", JStr "0x09184e72a000");
               ("gasLimit", JStr "0x0186a0");
               ("value", JStr "0x00");
               ("data", JStr "0x600057")
             ]%string)
          None).

Definition creation_signed_data : option txdata := Eval vm_compute in
    match new_Transaction creation_data with
    | Ret tx =>
        Some (DataArray
                (map JBuf (raw (sign (curve := Curve.curve)
                                     example_key (Some 1) tx).2)))
    | Throw _ => None
    end.

Definition creation_signed_tx : Transaction := Eval vm_compute in
    match new_Transaction creation_signed_data with
    | Ret tx => tx
    | Throw _ => blank
    end.

Definition creation_decoded : Decoded.t := Eval vm_compute in
    match decodeTx (curve := Curve.curve) (serialize creation_signed_tx) with
    | Ret d => d
    | Throw _ =>
        {| Decoded.from := ""; Decoded.nonce := 0; Decoded.gasPrice := 0;
           Decoded.gasLimit := 0; Decoded.to := None; Decoded.value := 0;
           Decoded.data := None; Decoded.v := 0; Decoded.r := "";
           Decoded.s := ""; Decoded.action := ""; Decoded.asset := None;
           Decoded.subAddress := "" |}
    end.

(** A plain transfer, signed for chain id 1 and read back from its signed
    fields. *)
Definition transfer_data : option txdata :=
  Some (DataObject
          (list_to_map
             [ ("nonce", JStr "0x07");
               ("gasPrice", JStr "0x09184e72a000");
               ("gasLimit", JStr "0x5208");
               ("to", JStr "0x7e5f4552091a69125d5dfcb7b8c2659029395bdf");
               ("value", JStr "0x0de0b6b3a7640000")
             ]%string)
          None).

Definition transfer_signed_data : option txdata := Eval vm_compute in
    match new_Transaction transfer_data with
    | Ret tx =>
        Some (DataArray
                (map JBuf (raw (sign (curve := Curve.curve)
                                     example_key (Some 1) tx).2)))
    | Throw _ => None
    end.

Definition transfer_signed_tx : Transaction := Eval vm_compute in
    match new_Transaction transfer_signed_data with
    | Ret tx => tx
    | Throw _ => blank
    end.

(** A record without a signature value, with a supplied chain id. *)
Definition supplied_chain_data : option txdata :=
  Some (DataObject ∅ (Some 5)).

Definition supplied_chain_tx : Transaction := Eval vm_compute in
    match new_Transaction supplied_chain_data with
    | Ret tx => tx
    | Throw _ => blank
    end.

(** ** Proof steps used throughout *)

(** Replace the accessor of a property name by its index and field. *)
Ltac eval_property name :=
  let p := eval vm_compute in (property name) in
  change (property name) with p; cbv beta iota.

(** A record with sixteen raw fields, field by field. *)
Ltac destruct_raw tx H :=
  let r := fresh "r" in
  destruct tx as [r ? ? ? ? ?]; cbn [raw _chainId _homestead _subAddress _from _senderPubKey] in *;
  do 16 (destruct r as [|? r]; [discriminate H|]);
  destruct r; [|discriminate H]; clear H.



(** ** The bounds a field descriptor puts on a stored value

    What the setter of a field guarantees of the value it stores: a field
    with [allowLess] holds at most [length] bytes and no leading zero
    byte; another field with a [length] holds exactly that many bytes, or
    none when it allows zero; a field without [length] holds anything. *)
Definition well_formed (field : Field.t) (b : bytes) : Prop :=
  match truthy_length field with
  | Some n =>
      if Field.allowLess field
      then (length b <= n)%nat /\ Buf.stripZeros b = b
      else length b = n \/ (Field.allowZero field = true /\ b = [])
  | None => True
  end.

(** A record whose sixteen raw fields are within the bounds of their
    descriptors. *)
Definition well_formed_record (tx : Transaction) : Prop :=
  constructed tx /\ Forall2 well_formed fields (raw tx).

(** ** [verifyAddress]

    The text is a string of one-byte characters, as everywhere in this
    development. *)

(** [String.prototype.toLowerCase] on a one-byte character: the letters
    [A]-[Z], and the accented capitals of Latin-1 ([U+00D7], the
    multiplication sign, is no letter). *)
Definition toLowerCase_char (c : ascii) : ascii :=
  let n := nat_of_ascii c in
  if ((65 <=? n) && (n <=? 90)
      || (192 <=? n) && (n <=? 222) && negb (n =? 215))%nat
  then ascii_of_nat (n + 32) else c.

Fixpoint toLowerCase (s : string) : string :=
  match s with
  | EmptyString => EmptyString
  | String c s' => String (toLowerCase_char c) (toLowerCase s')
  end.

(** The classes [[0-9a-f]] and [[0-9a-z]]. *)
Definition is_hex_lower (c : ascii) : bool :=
  let n := nat_of_ascii c in
  ((48 <=? n) && (n <=? 57) || (97 <=? n) && (n <=? 102))%nat.

Definition is_alnum_lower (c : ascii) : bool :=
  let n := nat_of_ascii c in
  ((48 <=? n) && (n <=? 57) || (97 <=? n) && (n <=? 122))%nat.

Fixpoint all_chars (p : ascii -> bool) (s : string) : bool :=
  match s with
  | EmptyString => true
  | String c s' => p c && all_chars p s'
  end.

(** [[0-9a-f]{40}[0-9a-z]{0,32}$] matched from the start of [s]: forty
    hexadecimal digits, then at most 32 letters or digits up to the end
    of the text. *)
Definition tail_matches (s : string) : bool :=
  let n := String.length s in
  (40 <=? n)%nat && (n <=? 72)%nat
  && all_chars is_hex_lower (String.substring 0 40 s)
  && all_chars is_alnum_lower (String.substring 40 (n - 40) s).

(** The alternative [0x] of the group is not anchored: it is tried at
    every position of the text. *)
Fixpoint matches_0x_somewhere (s : string) : bool :=
  match s with
  | String "0" (String "x" rest) => tail_matches rest
  | _ => false
  end
  || match s with
     | String _ s' => matches_0x_somewhere s'
     | EmptyString => false
     end.

(** [verifyAddress (address)]:
    [/(^aoa|0x)[0-9a-f]{40}[0-9a-z]{0,32}$/.test(address.toLowerCase())]. *)
Definition verifyAddress (address : string) : bool :=
  let address := toLowerCase address in
  match address with
  | String "a" (String "o" (String "a" rest)) => tail_matches rest
  | _ => false
  end
  || matches_0x_somewhere address.

(** ** More records used as examples *)

(** The plain transfer before it is signed. *)
Definition transfer_tx : Transaction := Eval vm_compute in
    match new_Transaction transfer_data with
    | Ret tx => tx
    | Throw _ => blank
    end.

(** The signed transfer after [getSenderAddress] has answered once. *)
Definition transfer_verified_tx : Transaction := Eval vm_compute in
    (getSenderAddress (curve := Curve.curve) transfer_signed_tx).2.

(** The address of the key of the examples. *)
Definition example_address : bytes :=
  Hex.decode "be862ad9abfe6f22bcb087716c7d89a26051f74c".

(** An object whose [to] has two bytes. *)
Definition short_to_props : gmap string jsval :=
  list_to_map [ ("to", JStr "0x1234") ]%string.

(** The serialization of the signed transfer with the signature value
    wrapped in a list of one element. *)
Definition nested_v_raw_tx : bytes :=
  Hex.decode "f875078609184e72a000825208947e5f4552091a69125d5dfcb7b8c2659029395bdf880de0b6b3a76400008080808080808080c126a04ac04582d40c2ba0ba9a7592e41b9ff5cce26f9b00aa0e8e4330d45f7cc6c496a05e9e06ec77657848ecfeada96302cb9271af1a119a9d1c0b9c994a35daaf5aa7".

(** * Properties *)

(** ** Test vectors for the hash, the encoder and the decoder *)

Example keccak256_empty :
  Hex.encode (Keccak.keccak256 []) =
  "c5d2460186f7233c927e7db2dcc703c0e500b653ca82273b7bfad8045d85a470"%string.
Proof. vm_compute. reflexivity. Qed.

Example keccak256_abc :
  Hex.encode (Keccak.keccak256 (list_byte_of_string "abc")) =
  "4e03657aea45a94fc7d47ba826c8d667c0d1e6e33a64a036ec44f58fa12d6c45"%string.
Proof. vm_compute. reflexivity. Qed.

Example rlp_encode_empty_list :
  Hex.encode (RLP.encode []) = "c0"%string.
Proof. reflexivity. Qed.

Example rlp_encode_dog :
  Hex.encode (RLP.encode [JStr "cat"; JStr "dog"]) = "c88363617483646f67"%string.
Proof. vm_compute. reflexivity. Qed.

Example rlp_encode_1024 :
  Hex.encode (RLP.encode_item (JNum 1024)) = "820400"%string.
Proof. vm_compute. reflexivity. Qed.

Example rlp_encode_long_string :
  Hex.encode (take 3 (RLP.encode_item (JBuf (replicate 56 Byte.x61)))) = "b83861"%string.
Proof. vm_compute. reflexivity. Qed.

Example rlp_decode_dog :
  Ethers.decode (Hex.decode "c88363617483646f67") =
  Ret (Ethers.RArr [Ethers.RStr "0x636174"; Ethers.RStr "0x646f67"]).
Proof. vm_compute. reflexivity. Qed.

Example rlp_decode_nested :
  Ethers.decode (Hex.decode "c7c0c1c0c3c0c1c0") =
  Ret (Ethers.RArr [Ethers.RArr [];
                    Ethers.RArr [Ethers.RArr []];
                    Ethers.RArr [Ethers.RArr []; Ethers.RArr [Ethers.RArr []]]]).
Proof. vm_compute. reflexivity. Qed.

Example rlp_decode_trailing :
  is_ret (Ethers.decode (Hex.decode "c0c0")) = false.
Proof. vm_compute. reflexivity. Qed.

(** The public key and the address of the private key 1, and the address
    of the example key. *)
Example curve_generator :
  Hex.encode (Curve.publicKeyCreate (replicate 31 Byte.x00 ++ [Byte.x01])) =
  ("79be667ef9dcbbac55a06295ce870b07029bfcdb2dce28d959f2815b16f81798"
   +:+ "483ada7726a3c4655da4fbfc0e1108a8fd17b448a68554199c47d08ffb10d4b8")%string.
Proof. vm_compute. reflexivity. Qed.

Example address_of_key_1 :
  privateToAddress (curve := Curve.curve) (replicate 31 Byte.x00 ++ [Byte.x01])
  = Ret (Hex.decode "7e5f4552091a69125d5dfcb7b8c2659029395bdf").
Proof. vm_compute. reflexivity. Qed.

Example address_of_example_key :
  privateToAddress (curve := Curve.curve) example_key
  = Ret (Hex.decode "be862ad9abfe6f22bcb087716c7d89a26051f74c").
Proof. vm_compute. reflexivity. Qed.

(** Recovery inverts signing on a digest. *)
Example curve_sign_recover :
  exists sg recovery,
    Curve.sign (Keccak.keccak256 []) example_key = Ret (sg, recovery)
    /\ Curve.recover (Keccak.keccak256 []) sg recovery
       = Ret (Curve.publicKeyCreate example_key).
Proof.
  eexists. eexists. split; [vm_compute; reflexivity|].
  vm_compute. reflexivity.
Qed.

Example new_Transaction_default :
  new_Transaction None =
  Ret {| raw := [[]; []; []; []; []; []; []; []; []; []; []; []; [];
                 [Byte.x1b]; []; []];
         _chainId := 0; _homestead := true; _subAddress := JUndef;
         _from := None; _senderPubKey := None |}.
Proof. vm_compute. reflexivity. Qed.


(** ** Byte strings *)

Lemma to_Z_cons_zero (b : bytes) : Buf.to_Z (Byte.x00 :: b) = Buf.to_Z b.
Proof. reflexivity. Qed.

Lemma stripZeros_to_Z (b : bytes) : Buf.to_Z (Buf.stripZeros b) = Buf.to_Z b.
Proof.
  induction b as [|x b IH]; [reflexivity|].
  simpl. destruct (decide (x = Byte.x00)) as [->|]; [|reflexivity].
  now rewrite to_Z_cons_zero.
Qed.

Lemma stripZeros_length (b : bytes) :
  (length (Buf.stripZeros b) <= length b)%nat.
Proof.
  induction b as [|x b IH]; simpl; [lia|].
  destruct (decide (x = Byte.x00)); simpl; lia.
Qed.

(** Stripping removes a run of zero bytes from the front. *)
Lemma stripZeros_padding (b : bytes) :
  b = replicate (length b - length (Buf.stripZeros b)) Byte.x00 ++ Buf.stripZeros b.
Proof.
  induction b as [|x b IH]; [reflexivity|].
  simpl. destruct (decide (x = Byte.x00)) as [->|].
  - pose proof (stripZeros_length b).
    replace (S (length b) - length (Buf.stripZeros b))%nat
      with (S (length b - length (Buf.stripZeros b))) by lia.
    simpl. now rewrite <- IH.
  - simpl. now rewrite Nat.sub_diag.
Qed.

(** [setLength] undoes [stripZeros] on a buffer of the full length. *)
Lemma setLength_stripZeros (n : nat) (b : bytes) :
  length b = n -> Buf.setLength n (Buf.stripZeros b) = b.
Proof.
  intros Hn. unfold Buf.setLength.
  pose proof (stripZeros_length b) as Hle.
  destruct (Nat.ltb_spec (length (Buf.stripZeros b)) n).
  - rewrite <- Hn. symmetry. apply stripZeros_padding.
  - replace (length (Buf.stripZeros b) - n)%nat with 0%nat by lia.
    rewrite drop_0.
    rewrite (stripZeros_padding b) at 2.
    now replace (length b - length (Buf.stripZeros b))%nat with 0%nat by lia.
Qed.

(** ** The RLP encoding depends on the items through their buffers *)

Lemma rlp_encode_buffers (a b : list jsval) :
  map RLP.toBuffer a = map RLP.toBuffer b -> RLP.encode a = RLP.encode b.
Proof.
  intros H. unfold RLP.encode, RLP.encode_item.
  assert (map (fun v => RLP.encode_buffer (RLP.toBuffer v)) a
          = map (fun v => RLP.encode_buffer (RLP.toBuffer v)) b) as ->; [|reflexivity].
  rewrite <- !(map_map RLP.toBuffer RLP.encode_buffer). now rewrite H.
Qed.

Lemma rlphash_buffers (a b : list jsval) :
  map RLP.toBuffer a = map RLP.toBuffer b -> rlphash a = rlphash b.
Proof. intros H. unfold rlphash. now rewrite (rlp_encode_buffers a b H). Qed.

(** ** Getters and setters *)

Lemma setter_run (i : nat) (f : Field.t) (v : jsval) (tx : Transaction) :
  setter i f v tx =
  match canonicalize f v with
  | Ret b => (Ret tt, set_raw (array_store i b (raw tx)) tx)
  | Throw e => (Throw e, tx)
  end.
Proof.
  unfold setter, mbind, lift, update. now destruct (canonicalize f v).
Qed.

Lemma array_store_length (i : nat) (v : bytes) (a : list bytes) :
  (i < length a)%nat -> length (array_store i v a) = length a.
Proof.
  intros H. unfold array_store.
  destruct (Nat.ltb_spec i (length a)); [apply length_insert | lia].
Qed.

Lemma array_store_insert (i : nat) (v : bytes) (a : list bytes) :
  (i < length a)%nat -> array_store i v a = <[i:=v]> a.
Proof.
  intros H. unfold array_store.
  destruct (Nat.ltb_spec i (length a)); [reflexivity | lia].
Qed.

Lemma property_in_table (name : string) (i : nat) (f : Field.t) :
  property name = Some (i, f) -> fields !! i = Some f /\ (i < 16)%nat.
Proof.
  unfold property. intros H. apply list_find_Some in H as (H & _ & _).
  split; [exact H|]. apply lookup_lt_Some in H. exact H.
Qed.

Lemma same_caches_refl (tx : Transaction) : same_caches tx tx.
Proof. repeat split. Qed.

Lemma same_caches_trans (a b c : Transaction) :
  same_caches a b -> same_caches b c -> same_caches a c.
Proof. unfold same_caches. intuition congruence. Qed.

Lemma same_caches_set_raw (r : list bytes) (tx : Transaction) :
  same_caches tx (set_raw r tx).
Proof. repeat split. Qed.

(** A setter changes one entry of [raw] and nothing else, or throws and
    changes nothing. *)
Lemma setter_frame (i : nat) (f : Field.t) (v : jsval) (tx : Transaction) :
  (i < length (raw tx))%nat ->
  length (raw (setter i f v tx).2) = length (raw tx)
  /\ same_caches tx (setter i f v tx).2.
Proof.
  intros Hi. rewrite setter_run. destruct (canonicalize f v); simpl.
  - split; [now apply array_store_length | apply same_caches_set_raw].
  - split; [reflexivity | apply same_caches_refl].
Qed.

Lemma set_frame (name : string) (v : jsval) (tx : Transaction) :
  length (raw tx) = 16%nat ->
  length (raw (set name v tx).2) = 16%nat /\ same_caches tx (set name v tx).2.
Proof.
  intros Hlen. unfold set.
  destruct (property name) as [[i f]|] eqn:Hp.
  - apply property_in_table in Hp as [_ Hi].
    destruct (setter_frame i f v tx) as [H1 H2]; [lia|].
    split; [congruence | exact H2].
  - simpl. split; [exact Hlen | apply same_caches_refl].
Qed.

Lemma for_each_invariant {A} (P : Transaction -> Prop) (f : A -> M unit) (l : list A) :
  (forall a tx, a ∈ l -> P tx -> P (f a tx).2) ->
  forall tx, P tx -> P (for_each f l tx).2.
Proof.
  induction l as [|a l IH]; intros Hf tx Htx; [exact Htx|].
  simpl. unfold mbind.
  pose proof (Hf a tx (list_elem_of_here a l) Htx) as Ha.
  destruct (f a tx) as [[[]|e] tx1]; simpl in *; [|exact Ha].
  apply IH; [|exact Ha].
  intros b tx' Hb. apply Hf. now apply list_elem_of_further.
Qed.

Lemma defaults_installed (tx : Transaction) :
  for_each (fun '(i, field) => setter i field (JBuf (Field.default field)))
           (imap pair fields) (set_raw [] tx)
  = (Ret tt, set_raw default_raw tx).
Proof. reflexivity. Qed.

(** Size of [raw] and caches through [defineProperties]. *)
Lemma defineProperties_frame (data : txdata) (tx : Transaction) :
  length (raw (defineProperties data tx).2) = 16%nat
  /\ same_caches tx (defineProperties data tx).2.
Proof.
  unfold defineProperties, mbind at 1. unfold update at 1.
  unfold mbind at 1. rewrite defaults_installed.
  set (P := fun t : Transaction => length (raw t) = 16%nat /\ same_caches tx t).
  assert (P (set_raw default_raw tx)) as H0 by (split; [reflexivity | apply same_caches_set_raw]).
  destruct data as [props c | items].
  - refine (for_each_invariant P _ fields _ _ H0).
    intros f t _ [Hl Hc]. unfold mbind.
    assert (forall (o : option jsval) (n : string) (t : Transaction),
              P t -> P ((match o with Some v => set n v | None => mret tt end) t).2) as Hstep.
    { intros o n t0 [Hl0 Hc0]. destruct o; [|now split].
      destruct (set_frame n j t0 Hl0) as [H1 H2].
      split; [exact H1 | eapply same_caches_trans; eassumption]. }
    pose proof (Hstep (props !! Field.name f) (Field.name f) t (conj Hl Hc)) as H1.
    destruct ((match props !! Field.name f with Some v => set (Field.name f) v | None => mret tt end) t)
      as [[[]|e] t1]; simpl in *; [|exact H1].
    destruct (Field.alias f) as [a|]; [|exact H1].
    now apply Hstep.
  - destruct (Nat.ltb (length fields) (length items)); [exact H0|].
    refine (for_each_invariant P _ (imap pair items) _ _ H0).
    intros [i d] t _ [Hl Hc].
    destruct (fields !! i) as [f|] eqn:Hf; [|now split].
    apply lookup_lt_Some in Hf. change (length fields) with 16%nat in Hf.
    destruct (setter_frame i f (JBuf (EthUtil.toBuffer d)) t) as [H1 H2]; [lia|].
    split; [congruence | eapply same_caches_trans; eassumption].
Qed.

Lemma get_raw (name : string) (tx tx' : Transaction) :
  raw tx = raw tx' -> get name tx = get name tx'.
Proof.
  intros H. unfold get, getter. destruct (property name) as [[i f]|]; [|reflexivity].
  now rewrite H.
Qed.

(** ** The constructor *)

(** What [new Transaction(data)] returns, step by step. *)
Lemma new_Transaction_inv (data : option txdata) (tx : Transaction) :
  new_Transaction data = Ret tx ->
  exists sigV,
    EthUtil.bufferToInt (get "v" tx) = Ret sigV
    /\ _chainId tx =
       first_truthy (if (sigV - 35) / 2 <? 0 then 0 else (sigV - 35) / 2)
                    (supplied_chainId data)
    /\ length (raw tx) = 16%nat /\ _homestead tx = true
    /\ _subAddress tx = JUndef /\ _from tx = None /\ _senderPubKey tx = None.
Proof.
  unfold new_Transaction, constructor.
  set (d := default (DataObject ∅ None) data).
  assert (data_chainId d = supplied_chainId data) as Hd by (now destruct data).
  unfold mbind at 1.
  destruct (defineProperties_frame d blank) as [Hlen Hc].
  destruct (defineProperties d blank) as [[[]|e] tx1]; [|discriminate].
  unfold mbind at 1. unfold this at 1. unfold mbind at 1. unfold lift at 1.
  destruct (EthUtil.bufferToInt (get "v" tx1)) as [sigV|e] eqn:Hv; [|discriminate].
  simpl. intros [= <-]. exists sigV. simpl in *.
  destruct Hc as (_ & _ & _ & Hf & Hk). simpl in Hf, Hk.
  rewrite Hd.
  repeat split; try assumption; reflexivity.
Qed.

Lemma new_Transaction_constructed (data : option txdata) (tx : Transaction) :
  new_Transaction data = Ret tx -> constructed tx.
Proof.
  intros H. apply new_Transaction_inv in H as (v & _ & _ & ? & ? & ? & _).
  now repeat split.
Qed.

Lemma new_Transaction_defined (data : option txdata) (tx : Transaction) :
  new_Transaction data = Ret tx ->
  exists tx1,
    defineProperties (default (DataObject ∅ None) data) blank = (Ret tt, tx1)
    /\ raw tx = raw tx1.
Proof.
  unfold new_Transaction, constructor.
  set (d := default (DataObject ∅ None) data).
  unfold mbind at 1.
  destruct (defineProperties d blank) as [[[]|e] tx1]; [|discriminate].
  unfold mbind at 1. unfold this at 1. unfold mbind at 1. unfold lift at 1.
  destruct (EthUtil.bufferToInt (get "v" tx1)) as [sigV|e]; [|discriminate].
  cbn. intros [= <-]. now exists tx1.
Qed.

(** A setter writes to its own position of [raw] only. *)
Lemma set_other_index (name : string) (i : nat) (f : Field.t) (v : jsval)
      (tx : Transaction) (j : nat) :
  property name = Some (i, f) -> i <> j -> length (raw tx) = 16%nat ->
  raw (set name v tx).2 !! j = raw tx !! j.
Proof.
  intros Hp Hij Hlen. unfold set. rewrite Hp, setter_run.
  apply property_in_table in Hp as [_ Hi].
  destruct (canonicalize f v); cbn [snd raw set_raw]; [|reflexivity].
  rewrite array_store_insert by lia.
  now apply list_lookup_insert_ne.
Qed.

Lemma for_each_app {A} (f : A -> M unit) (a b : list A) (tx : Transaction) :
  for_each f (a ++ b) tx =
  match for_each f a tx with
  | (Ret _, tx') => for_each f b tx'
  | (Throw e, tx') => (Throw e, tx')
  end.
Proof.
  revert tx. induction a as [|x a IH]; intros tx; [reflexivity|].
  cbn [app for_each]. unfold mbind.
  destruct (f x tx) as [[[]|e] tx1]; [apply IH | reflexivity].
Qed.

(** The setter of [v] stores the buffer of any value. *)
Lemma canonicalize_v (f : Field.t) (x : jsval) :
  fields !! 13%nat = Some f -> canonicalize f x = Ret (EthUtil.toBuffer x).
Proof.
  intros [= <-]. unfold canonicalize, truthy_length.
  cbn [Field.allowZero Field.allowLess Field.length].
  now rewrite andb_false_r.
Qed.

(** The step of [defineProperties] for one field of an object. *)
Lemma object_step_keeps_v (props : gmap string jsval) (f : Field.t)
      (r : option bytes) (tx : Transaction) :
  f ∈ take 13 fields ++ drop 14 fields ->
  length (raw tx) = 16%nat /\ raw tx !! 13%nat = r ->
  let tx' :=
    ((match props !! Field.name f with
      | Some v => set (Field.name f) v
      | None => mret tt
      end ;;;
      match Field.alias f with
      | Some a =>
          match props !! a with
          | Some v => set a v
          | None => mret tt
          end
      | None => mret tt
      end)%tx tx).2 in
  length (raw tx') = 16%nat /\ raw tx' !! 13%nat = r.
Proof.
  intros Hf Htx.
  assert (forall name,
            name = Field.name f \/ Field.alias f = Some name ->
            exists i g, property name = Some (i, g) /\ i <> 13%nat) as Hidx.
  { unfold fields in Hf. cbv zeta beta in Hf. cbn [take drop app] in Hf.
    repeat (apply elem_of_cons in Hf as [-> | Hf];
            [intros name [-> | [= <-]];
             eexists; eexists; (split; [vm_compute; reflexivity | discriminate])|]).
    now apply elem_of_nil in Hf. }
  assert (forall (o : option jsval) (name : string) (t : Transaction),
            (name = Field.name f \/ Field.alias f = Some name) ->
            length (raw t) = 16%nat /\ raw t !! 13%nat = r ->
            let t' := ((match o with Some v => set name v | None => mret tt end) t).2 in
            length (raw t') = 16%nat /\ raw t' !! 13%nat = r) as Hstep.
  { intros o name t Hn [Hl Hr]. destruct o as [v|]; [|now split].
    destruct (Hidx name Hn) as (i & g & Hp & Hi). cbv zeta.
    split; [exact (proj1 (set_frame name v t Hl))|].
    now rewrite (set_other_index name i g v t 13%nat Hp Hi Hl). }
  cbv zeta. unfold mbind.
  pose proof (Hstep (props !! Field.name f) (Field.name f) tx (or_introl eq_refl) Htx)
    as H1. cbv zeta in H1.
  destruct ((match props !! Field.name f with
             | Some v => set (Field.name f) v
             | None => mret tt
             end) tx) as [[[]|e] tx1]; cbn [snd] in *; [|exact H1].
  destruct (Field.alias f) as [a|] eqn:Ha; [|exact H1].
  exact (Hstep (props !! a) a tx1 (or_intror eq_refl) H1).
Qed.

(** The fields of an array are stored one after the other, each in its
    own position. *)
Lemma array_items_v (items : list jsval) :
  forall (k : nat) (tx tx' : Transaction),
  length (raw tx) = 16%nat ->
  for_each (fun '(i, d) =>
              match fields !! i with
              | Some field => setter i field (JBuf (EthUtil.toBuffer d))
              | None => mret tt
              end)
           (imap (fun i d => ((k + i)%nat, d)) items) tx = (Ret tt, tx') ->
  raw tx' !! 13%nat =
  match (if Nat.leb k 13 then items !! (13 - k)%nat else None) with
  | Some d => Some (EthUtil.toBuffer d)
  | None => raw tx !! 13%nat
  end.
Proof.
  induction items as [|d items IH]; intros k tx tx' Hlen H.
  - cbn in H. injection H as <-. now destruct (Nat.leb k 13).
  - cbn [imap for_each] in H. unfold mbind at 1 in H.
    rewrite Nat.add_0_r in H.
    rewrite (imap_ext _ (fun i d => ((S k + i)%nat, d))) in H
      by (intros; cbn; f_equal; lia).
    destruct (fields !! k) as [f|] eqn:Hf.
    + apply lookup_lt_Some in Hf as Hk. change (length fields) with 16%nat in Hk.
      rewrite setter_run in H.
      destruct (canonicalize f (JBuf (EthUtil.toBuffer d))) as [b|e] eqn:Hc;
        [|discriminate].
      apply IH in H; [|cbn [raw set_raw]; now rewrite array_store_length by lia].
      rewrite H. cbn [raw set_raw]. rewrite array_store_insert by lia.
      destruct (Nat.eq_dec k 13%nat) as [-> | Hne].
      * rewrite (canonicalize_v f _ Hf) in Hc. injection Hc as <-.
        cbn. rewrite list_lookup_insert_eq by lia. reflexivity.
      * rewrite list_lookup_insert_ne by exact Hne.
        destruct (Nat.leb_spec k 13), (Nat.leb_spec (S k) 13); try lia;
          try reflexivity.
        replace (13 - k)%nat with (S (13 - S k)) by lia. reflexivity.
    + apply lookup_ge_None in Hf. change (length fields) with 16%nat in Hf.
      unfold mret in H. apply IH in H; [|exact Hlen].
      rewrite H.
      destruct (Nat.leb_spec k 13), (Nat.leb_spec (S k) 13); try lia.
      reflexivity.
Qed.

(** The field [v] after [defineProperties]: the buffer of the value
    supplied for it. *)
Lemma defineProperties_v (data : txdata) (tx tx' : Transaction) :
  defineProperties data tx = (Ret tt, tx') ->
  raw tx' !! 13%nat = Some (EthUtil.toBuffer (supplied_v (Some data))).
Proof.
  unfold defineProperties, mbind at 1. unfold update at 1.
  unfold mbind at 1. rewrite defaults_installed.
  set (tx0 := set_raw default_raw tx).
  destruct data as [props c | items]; cbn [supplied_v].
  - change fields with (take 13 fields ++ [ {| Field.name := "v"; Field.alias := None;
                                               Field.length := None;
                                               Field.allowLess := false;
                                               Field.allowZero := true;
                                               Field.default := [Byte.x1b] |} ]
                        ++ drop 14 fields) at 1.
    set (step := fun field : Field.t => _).
    rewrite !for_each_app. intros H.
    set (P := fun (r : option bytes) (t : Transaction) =>
                length (raw t) = 16%nat /\ raw t !! 13%nat = r).
    assert (forall r l t, (forall f, f ∈ l -> f ∈ take 13 fields ++ drop 14 fields) ->
                          P r t -> P r (for_each step l t).2) as Hkeep.
    { intros r l t Hl Ht.
      refine (for_each_invariant (P r) step l _ t Ht).
      intros f t1 Hf Ht1. apply (object_step_keeps_v props f r t1); [now apply Hl | exact Ht1]. }
    pose proof (Hkeep (Some [Byte.x1b]) (take 13 fields) tx0
                  ltac:(intros f Hf; apply elem_of_app; now left)
                  ltac:(split; reflexivity)) as H1.
    destruct (for_each step (take 13 fields) tx0) as [[[]|e] tx1]; [|discriminate].
    cbn [snd] in H1. destruct H1 as [Hl1 Hv1].
    cbn [for_each app] in H. unfold mbind at 1 in H.
    set (vb := EthUtil.toBuffer (default (JBuf [Byte.x1b]) (props !! "v"%string))).
    assert (exists tx2, step {| Field.name := "v"; Field.alias := None;
                                Field.length := None; Field.allowLess := false;
                                Field.allowZero := true;
                                Field.default := [Byte.x1b] |} tx1 = (Ret tt, tx2)
                        /\ P (Some vb) tx2) as (tx2 & Hs & H2).
    { unfold step, vb. cbn [Field.name Field.alias]. unfold mbind.
      destruct (props !! "v"%string) as [x|].
      - unfold set. eval_property "v"%string.
        rewrite setter_run, (canonicalize_v _ x eq_refl).
        eexists. split; [reflexivity|].
        split; cbn [raw set_raw default].
        + now rewrite array_store_length by lia.
        + rewrite array_store_insert by lia.
          now rewrite list_lookup_insert_eq by lia.
      - eexists. split; [reflexivity|]. now split. }
    rewrite Hs in H. unfold mret in H.
    pose proof (Hkeep (Some vb) (drop 14 fields) tx2
                  ltac:(intros f Hf; apply elem_of_app; now right) H2) as H3.
    destruct (for_each step (drop 14 fields) tx2) as [[[]|e] tx3]; [|discriminate].
    injection H as <-. exact (proj2 H3).
  - destruct (Nat.ltb (length fields) (length items)); [discriminate|].
    intros H.
    pose proof (array_items_v items 0 tx0 tx' eq_refl H) as Hv.
    rewrite Hv. cbn [Nat.leb Nat.sub].
    destruct (items !! 13%nat); reflexivity.
Qed.

Lemma supplied_v_default (data : option txdata) :
  supplied_v (Some (default (DataObject ∅ None) data)) = supplied_v data.
Proof. destruct data; reflexivity. Qed.

(** C7.  The signature value [v] of a new record is the value supplied
    for it, 27 when there is none; read as a big-endian integer it is
    below 2^53, and the chain id of the record is the one derived from
    it, [floor((v - 35) / 2)] when [v >= 35] and 0 otherwise; the chain
    id supplied in the data is used exactly when the derived one is 0
    (and 0 when none was supplied). *)
Theorem constructor_chainId (data : option txdata) (tx : Transaction) :
  new_Transaction data = Ret tx ->
  let v := Buf.to_Z (EthUtil.toBuffer (supplied_v data)) in
  get "v" tx = JBuf (EthUtil.toBuffer (supplied_v data))
  /\ v < 2 ^ 53
  /\ getChainId tx =
     if derived_chainId v =? 0
     then default 0 (supplied_chainId data)
     else derived_chainId v.
Proof.
  intros H. cbv zeta.
  destruct (new_Transaction_defined data tx H) as (tx1 & Hdef & Hraw).
  apply defineProperties_v in Hdef. rewrite supplied_v_default in Hdef.
  assert (get "v" tx = JBuf (EthUtil.toBuffer (supplied_v data))) as Hget.
  { unfold get. eval_property "v"%string. unfold getter. now rewrite Hraw, Hdef. }
  apply new_Transaction_inv in H as (v & Hv & Hc & _).
  rewrite Hget in Hv. unfold EthUtil.bufferToInt, EthUtil.toNumber in Hv.
  cbn [EthUtil.toBuffer] in Hv.
  set (z := Buf.to_Z (EthUtil.toBuffer (supplied_v data))) in *.
  destruct (Z.ltb_spec (Z.abs z) (2 ^ 53)) as [Hz|]; [|discriminate].
  injection Hv as <-.
  split; [exact Hget|]. split; [lia|].
  unfold getChainId. rewrite Hc. unfold first_truthy, derived_chainId.
  destruct (Z.leb_spec 35 z) as [Hle|Hlt].
  - destruct (Z.ltb_spec ((z - 35) / 2) 0) as [Hneg|_].
    + exfalso. assert (0 <= (z - 35) / 2) by (apply Z.div_pos; lia). lia.
    + destruct ((z - 35) / 2 =? 0); simpl; [now destruct supplied_chainId | reflexivity].
  - destruct (Z.ltb_spec ((z - 35) / 2) 0) as [_|Hpos].
    + simpl. now destruct supplied_chainId.
    + exfalso. assert ((z - 35) / 2 < 0) by (apply Z.div_lt_upper_bound; lia). lia.
Qed.

(** ** [verifySignature], step by step *)

Section Verification.
Context {curve : Secp256k1}.

Lemma verify_items_raw (tx tx' : Transaction) :
  raw tx = raw tx' -> _subAddress tx = _subAddress tx' ->
  _chainId tx = _chainId tx' -> verify_items tx = verify_items tx'.
Proof.
  intros Hr Hs Hc. unfold verify_items.
  rewrite Hs, Hc.
  now rewrite !(get_raw _ tx tx' Hr).
Qed.

(** The state after [verifySignature]: the chain id is 1, the key cache
    holds the recovered key when one was recovered. *)
Lemma verifySignature_run (tx : Transaction) :
  let tx1 := set_chainId 1 tx in
  verifySignature tx =
  if _homestead tx && (N_DIV_2 <? EthUtil.BN (get "s" tx)) then (Ret false, tx1)
  else
    match EthUtil.bufferToInt (get "v" tx) with
    | Ret v =>
        match ecrecover (rlphash (verify_items tx1)) (v - 10)
                        (get "r" tx) (get "s" tx) with
        | Ret k => (Ret true, set_senderPubKey k tx1)
        | Throw _ => (Ret false, tx1)
        end
    | Throw _ => (Ret false, tx1)
    end.
Proof.
  intros tx1. unfold verifySignature.
  unfold mbind at 1. unfold update at 1. unfold mbind at 1. unfold this at 1.
  fold tx1.
  change (_homestead tx1) with (_homestead tx).
  change (get "s" tx1) with (get "s" tx).
  change (get "v" tx1) with (get "v" tx).
  change (get "r" tx1) with (get "r" tx).
  destruct (_homestead tx && (N_DIV_2 <? EthUtil.BN (get "s" tx))); [reflexivity|].
  unfold try_catch, mbind, lift.
  destruct (EthUtil.bufferToInt (get "v" tx)) as [v|e]; [|reflexivity].
  change (0 <? _chainId tx1) with true.
  change (_chainId tx1 * 2 + 8) with 10.
  cbv iota.
  destruct (ecrecover (rlphash (verify_items tx1)) (v - 10) (get "r" tx) (get "s" tx));
    reflexivity.
Qed.

(** The address step of [getSenderAddress], once a key is cached. *)
Lemma getSenderAddress_run (tx : Transaction) :
  let finish (t : Transaction) :=
    match publicToAddress (match _senderPubKey t with
                           | Some k => JBuf k
                           | None => JUndef
                           end) with
    | Ret a => (Ret a, set_from a t)
    | Throw e => (Throw e, t)
    end in
  getSenderAddress tx =
  match _from tx with
  | Some a => (Ret a, tx)
  | None =>
      if sender_cached tx then finish tx
      else
        match verifySignature tx with
        | (Ret true, tx') => finish tx'
        | (Ret false, tx') => (Throw "Invalid Signature", tx')
        | (Throw e, tx') => (Throw e, tx')
        end
  end.
Proof.
  intros finish. unfold getSenderAddress, sender_cached.
  unfold mbind at 1. unfold this at 1.
  destruct (_from tx) as [a|] eqn:Hfrom; [reflexivity|].
  unfold getSenderPublicKey.
  unfold mbind at 1. unfold mbind at 1. unfold this at 1.
  destruct (_senderPubKey tx) as [[|k0 k]|] eqn:Hk.
  - unfold mbind at 1. unfold mbind at 1.
    destruct (verifySignature tx) as [[[]|e] tx'];
      unfold finish, mbind, mthrow, mret, this, lift, update;
      reflexivity.
  - unfold finish, mbind, mthrow, mret, this, lift, update. rewrite Hk.
    reflexivity.
  - unfold mbind at 1. unfold mbind at 1.
    destruct (verifySignature tx) as [[[]|e] tx'];
      unfold finish, mbind, mthrow, mret, this, lift, update;
      reflexivity.
Qed.

End Verification.

(** ** The setters of [v], [r] and [s] *)

Lemma set_v_run (x : jsval) (tx : Transaction) :
  set "v" x tx
  = (Ret tt, set_raw (array_store 13 (EthUtil.toBuffer x) (raw tx)) tx).
Proof.
  unfold set. eval_property "v"%string. rewrite setter_run.
  unfold canonicalize, truthy_length. cbn [Field.allowZero Field.allowLess Field.length].
  now rewrite andb_false_r.
Qed.

Lemma set_r_run (x : jsval) (tx : Transaction) :
  (length (Buf.stripZeros (EthUtil.toBuffer x)) <= 32)%nat ->
  set "r" x tx
  = (Ret tt, set_raw (array_store 14 (Buf.stripZeros (EthUtil.toBuffer x)) (raw tx)) tx).
Proof.
  intros Hlen. unfold set. eval_property "r"%string. rewrite setter_run.
  unfold canonicalize, truthy_length.
  cbn [Field.allowZero Field.allowLess Field.length Nat.eqb].
  rewrite andb_false_r.
  destruct (Nat.leb_spec (length (Buf.stripZeros (EthUtil.toBuffer x))) 32);
    [reflexivity | lia].
Qed.

Lemma set_s_run (x : jsval) (tx : Transaction) :
  (length (Buf.stripZeros (EthUtil.toBuffer x)) <= 32)%nat ->
  set "s" x tx
  = (Ret tt, set_raw (array_store 15 (Buf.stripZeros (EthUtil.toBuffer x)) (raw tx)) tx).
Proof.
  intros Hlen. unfold set. eval_property "s"%string. rewrite setter_run.
  unfold canonicalize, truthy_length.
  cbn [Field.allowZero Field.allowLess Field.length Nat.eqb].
  rewrite andb_false_r.
  destruct (Nat.leb_spec (length (Buf.stripZeros (EthUtil.toBuffer x))) 32);
    [reflexivity | lia].
Qed.

Lemma set_raw_same (tx : Transaction) : set_raw (raw tx) tx = tx.
Proof. now destruct tx. Qed.

Lemma set_raw_twice (r r' : list bytes) (tx : Transaction) :
  set_raw r (set_raw r' tx) = set_raw r tx.
Proof. reflexivity. Qed.

(** ** [hash] without the signature *)

(** The array hashed when the chain id is positive: [raw] with the chain
    id in [v] and empty [r] and [s]; the record itself is as before. *)
Lemma hash_unsigned_run (chainID : option Z) (tx : Transaction) :
  0 < _chainId tx ->
  hash (Some false) chainID tx =
  (Ret (rlphash (map JBuf
          (array_store 15 [] (array_store 14 []
             (array_store 13 (EthUtil.intToBuffer (_chainId tx)) (raw tx)))))),
   tx).
Proof.
  intros Hpos. unfold hash, mbind, this, mret.
  cbn -[set rlphash Z.ltb array_store EthUtil.intToBuffer update].
  destruct (Z.ltb_spec 0 (_chainId tx)) as [_|]; [|lia].
  rewrite set_v_run.
  rewrite set_r_run by (vm_compute; lia).
  rewrite set_s_run by (vm_compute; lia).
  unfold update.
  cbn [raw set_raw EthUtil.toBuffer]. rewrite !set_raw_twice, set_raw_same.
  reflexivity.
Qed.

Lemma hash_legacy_run (chainID : option Z) (tx : Transaction) :
  _chainId tx <= 0 ->
  hash (Some false) chainID tx
  = (Ret (rlphash (map JBuf (take 6 (raw tx)))), tx).
Proof.
  intros Hpos. unfold hash, mbind, this, mret.
  cbn -[set rlphash Z.ltb array_store EthUtil.intToBuffer update].
  destruct (Z.ltb_spec 0 (_chainId tx)) as [|_]; [lia|].
  reflexivity.
Qed.

(** C5.  With a positive chain id, [hash(false)] always returns, and the
    record after the call is the record before it: the substitution of
    [v], [r] and [s] in the raw fields is reverted, and no step inside the
    substitution can throw. *)
Theorem hash_restores_raw (chainID : option Z) (tx : Transaction) :
  0 < getChainId tx ->
  exists digest,
    hash (Some false) chainID tx = (Ret digest, tx)
    /\ raw (hash (Some false) chainID tx).2 = raw tx.
Proof.
  intros Hpos. eexists. rewrite (hash_unsigned_run chainID tx Hpos).
  split; reflexivity.
Qed.

Lemma unsigned_preimage_buffers (tx : Transaction) :
  length (raw tx) = 16%nat -> 0 < _chainId tx ->
  map RLP.toBuffer
      (map JBuf (array_store 15 [] (array_store 14 []
         (array_store 13 (EthUtil.intToBuffer (_chainId tx)) (raw tx)))))
  = map RLP.toBuffer (unsigned_preimage tx).
Proof.
  intros Hlen Hpos. destruct_raw tx Hlen.
  unfold unsigned_preimage. cbn [map RLP.toBuffer _chainId].
  destruct (Z.eqb_spec _chainId0 0) as [|_]; [lia|].
  generalize (EthUtil.intToBuffer _chainId0). intros cb.
  reflexivity.
Qed.

Lemma legacy_preimage_buffers (tx : Transaction) :
  length (raw tx) = 16%nat ->
  map RLP.toBuffer (map JBuf (take 6 (raw tx)))
  = map RLP.toBuffer (legacy_preimage tx).
Proof. intros Hlen. destruct_raw tx Hlen. reflexivity. Qed.

(** C2, as amended.  The chain id that counts is the one the record
    holds when [hash] is called, the value of [getChainId()].  When it is
    positive, [hash(false)] is the Keccak-256 digest of the RLP encoding
    of the sixteen fields, the record's own [action] in seventh position,
    with that chain id for [v] and 0 for [r] and [s]; when it is 0 (or
    below), it is the digest of the encoding of the first six fields. *)
Theorem hash_unsigned_preimage (chainID : option Z) (tx : Transaction) :
  constructed tx ->
  (0 < getChainId tx ->
   (hash (Some false) chainID tx).1
   = Ret (Keccak.keccak256 (RLP.encode (unsigned_preimage tx))))
  /\ (getChainId tx <= 0 ->
      (hash (Some false) chainID tx).1
      = Ret (Keccak.keccak256 (RLP.encode (legacy_preimage tx)))).
Proof.
  intros (Hlen & _ & _). unfold getChainId. split; intros Hc.
  - rewrite (hash_unsigned_run chainID tx Hc). cbn [fst]. f_equal.
    now apply rlphash_buffers, unsigned_preimage_buffers.
  - rewrite (hash_legacy_run chainID tx) by exact Hc. cbn [fst]. f_equal.
    now apply rlphash_buffers, legacy_preimage_buffers.
Qed.

(** ** Properties of [verifySignature] *)

Lemma N_DIV_2_is_half : N_DIV_2 = secp256k1n / 2.
Proof. reflexivity. Qed.

Section VerificationProperties.
Context {curve : Secp256k1}.


(** What [verifySignature] changes: the chain id, set to 1, and the
    cached public key. *)
Lemma verifySignature_frame (tx : Transaction) :
  raw (verifySignature tx).2 = raw tx
  /\ _chainId (verifySignature tx).2 = 1
  /\ _homestead (verifySignature tx).2 = _homestead tx
  /\ _subAddress (verifySignature tx).2 = _subAddress tx
  /\ _from (verifySignature tx).2 = _from tx.
Proof.
  rewrite verifySignature_run. cbv zeta.
  destruct (_homestead tx && _); [now repeat split|].
  destruct (EthUtil.bufferToInt _); [|now repeat split].
  destruct (ecrecover _ _ _ _); now repeat split.
Qed.

(** C6.  A record whose [s], read as a big-endian integer, exceeds half
    the order of the curve is rejected by [verifySignature], whatever
    the curve would recover from the signature. *)
Theorem high_s_rejected (tx : Transaction) :
  constructed tx ->
  secp256k1n / 2 < Buf.to_Z (EthUtil.toBuffer (get "s" tx)) ->
  (verifySignature tx).1 = Ret false.
Proof.
  intros (_ & Hh & _) Hs. rewrite verifySignature_run. cbv zeta.
  rewrite Hh. rewrite <- N_DIV_2_is_half in Hs.
  unfold EthUtil.BN.
  destruct (Z.ltb_spec N_DIV_2 (Buf.to_Z (EthUtil.toBuffer (get "s" tx))));
    [reflexivity | lia].
Qed.

(** ** [validate] *)



(** The error list [validate] builds. *)
Lemma validate_run (fees : FeeTable) (stringError : option bool) (tx : Transaction) :
  validate fees stringError tx =
  match verifySignature tx with
  | (Ret ok, tx') =>
      match getBaseFee fees tx' with
      | Ret fee =>
          let errors :=
            (if ok then [] else ["Invalid Signature"%string])
            ++ (if EthUtil.BN (get "gasLimit" tx') <? fee
                then ["gas limit is too low. Need at least " +:+ show_Z fee]
                else []) in
          (Ret match stringError with
               | Some true => VString (String.concat " " errors)
               | _ => VBool (Nat.eqb (length errors) 0)
               end, tx')
      | Throw e => (Throw e, tx')
      end
  | (Throw e, tx') => (Throw e, tx')
  end.
Proof.
  unfold validate. unfold mbind at 1.
  destruct (verifySignature tx) as [[ok|e] tx']; [|reflexivity].
  unfold mbind at 1. unfold this at 1. unfold mbind at 1. unfold lift at 1.
  destruct (getBaseFee fees tx') as [fee|e] eqn:Hfee; [|reflexivity].
  cbv zeta.
  destruct (EthUtil.BN (get "gasLimit" tx') <? fee);
    unfold mbind, lift, mret; destruct ok;
    destruct stringError as [[]|]; reflexivity.
Qed.

(** C4, as amended.  [verifySignature], called directly or through
    [validate], leaves the raw fields as they are and sets the chain id
    to 1; the accessor [from] does the same when it has to verify, and
    changes neither when it answers from a cache. *)
Theorem verifySignature_sets_chainId (fees : FeeTable) (tx : Transaction) :
  (raw (verifySignature tx).2 = raw tx
   /\ getChainId (verifySignature tx).2 = 1)
  /\ (forall stringError,
        raw (validate fees stringError tx).2 = raw tx
        /\ getChainId (validate fees stringError tx).2 = 1)
  /\ (raw (getSenderAddress tx).2 = raw tx
      /\ getChainId (getSenderAddress tx).2
         = if sender_cached tx then getChainId tx else 1).
Proof.
  unfold getChainId.
  pose proof (verifySignature_frame tx) as (Hr & Hc & _).
  split; [now split|]. split.
  - intros se. rewrite validate_run.
    destruct (verifySignature tx) as [[ok|e] tx']; cbn [snd] in *; [|now split].
    destruct (getBaseFee fees tx'); now split.
  - rewrite getSenderAddress_run. cbv zeta. unfold sender_cached.
    destruct (_from tx) as [a|]; [now split|].
    destruct (_senderPubKey tx) as [[|k0 k]|].
    + destruct (verifySignature tx) as [[[]|e] tx']; cbn [snd] in *;
        try (now split).
      destruct (publicToAddress _); now split.
    + destruct (publicToAddress _); now split.
    + destruct (verifySignature tx) as [[[]|e] tx']; cbn [snd] in *;
        try (now split).
      destruct (publicToAddress _); now split.
Qed.



(** ** The verification pre-image ignores [action] and [subAddress] *)

Lemma get_agree (name : string) (i : nat) (f : Field.t) (tx1 tx2 : Transaction) :
  property name = Some (i, f) -> raw tx1 !! i = raw tx2 !! i ->
  get name tx1 = get name tx2.
Proof. intros Hp Hi. unfold get, getter. now rewrite Hp, Hi. Qed.

Lemma verification_hash_agree (tx1 tx2 : Transaction) :
  differ_only_in_action_subAddress tx1 tx2 ->
  verify_items (set_chainId 1 tx1) = verify_items (set_chainId 1 tx2).
Proof.
  intros (_ & Hraw & _ & _ & Hs & _).
  unfold verify_items. cbn [_subAddress _chainId set_chainId]. rewrite Hs.
  repeat match goal with
  | |- context [get ?n (set_chainId 1 tx1)] =>
      rewrite (get_agree n _ _ (set_chainId 1 tx1) (set_chainId 1 tx2) eq_refl)
        by (apply Hraw; discriminate)
  end.
  reflexivity.
Qed.

Lemma verifySignature_agree (tx1 tx2 : Transaction) :
  differ_only_in_action_subAddress tx1 tx2 ->
  (verifySignature tx1).1 = (verifySignature tx2).1
  /\ _senderPubKey (verifySignature tx1).2 = _senderPubKey (verifySignature tx2).2.
Proof.
  intros Hd. pose proof (verification_hash_agree tx1 tx2 Hd) as Hitems.
  destruct Hd as (_ & Hraw & _ & Hh & _ & _ & Hk).
  rewrite !verifySignature_run. cbv zeta. rewrite Hitems, Hh.
  rewrite (get_agree "s" _ _ tx1 tx2 eq_refl) by (apply Hraw; discriminate).
  rewrite (get_agree "v" _ _ tx1 tx2 eq_refl) by (apply Hraw; discriminate).
  rewrite (get_agree "r" _ _ tx1 tx2 eq_refl) by (apply Hraw; discriminate).
  destruct (_homestead tx1 && _); [now split|].
  destruct (EthUtil.bufferToInt _); [|now split].
  destruct (ecrecover _ _ _ _); now split.
Qed.

(** C10.  The pre-image of [verifySignature] has the constant 0 in the
    position of [action] and [this._subAddress], which the constructor
    leaves undefined, in the position of [subAddress]; two records that
    differ only in these two fields have the same verification hash,
    the same result of [verifySignature], the same recovered key and
    the same sender address. *)
Theorem verification_ignores_action_subAddress (tx1 tx2 : Transaction) :
  differ_only_in_action_subAddress tx1 tx2 ->
  (verify_items tx1 !! 6%nat = Some (JNum 0)
   /\ verify_items tx1 !! 11%nat = Some (_subAddress tx1)
   /\ (forall data, new_Transaction data = Ret tx1 -> _subAddress tx1 = JUndef))
  /\ verification_hash tx1 = verification_hash tx2
  /\ (verifySignature tx1).1 = (verifySignature tx2).1
  /\ _senderPubKey (verifySignature tx1).2 = _senderPubKey (verifySignature tx2).2
  /\ (getSenderAddress tx1).1 = (getSenderAddress tx2).1.
Proof.
  intros Hd.
  pose proof (verifySignature_agree tx1 tx2 Hd) as [Hres Hkey].
  split; [|split; [|split; [|split]]]; try assumption.
  - repeat split. intros data Hnew.
    now apply new_Transaction_inv in Hnew as (_ & _ & _ & _ & _ & ? & _).
  - unfold verification_hash. now rewrite (verification_hash_agree tx1 tx2 Hd).
  - destruct Hd as (_ & _ & _ & _ & _ & Hf & Hk).
    rewrite !getSenderAddress_run. cbv zeta. unfold sender_cached.
    rewrite Hf, Hk.
    destruct (_from tx1) as [a|]; [reflexivity|].
    assert (forall t t' : Transaction,
              _senderPubKey t = _senderPubKey t' ->
              (match publicToAddress (match _senderPubKey t with
                                      | Some k => JBuf k | None => JUndef end) with
               | Ret a => (Ret a, set_from a t)
               | Throw e => (Throw e, t)
               end).1
              = (match publicToAddress (match _senderPubKey t' with
                                        | Some k => JBuf k | None => JUndef end) with
                 | Ret a => (Ret a, set_from a t')
                 | Throw e => (Throw e, t')
                 end).1) as Hfinish.
    { intros t t' ->. destruct (publicToAddress _); reflexivity. }
    destruct (_senderPubKey tx1) as [[|k0 k]|].
    + destruct (verifySignature tx1) as [[[]|e1] t1];
        destruct (verifySignature tx2) as [[[]|e2] t2];
        cbn [fst snd] in *; try discriminate; try congruence;
        now apply Hfinish.
    + destruct (publicToAddress _); reflexivity.
    + destruct (verifySignature tx1) as [[[]|e1] t1];
        destruct (verifySignature tx2) as [[[]|e2] t2];
        cbn [fst snd] in *; try discriminate; try congruence;
        now apply Hfinish.
Qed.

End VerificationProperties.

(** ** Keccak-256 returns 32 bytes *)

Lemma keccak_round_length (st : list Z) (rc : Z) :
  length (Keccak.round st rc) = 25%nat.
Proof.
  unfold Keccak.round, Keccak.iota, Keccak.chi.
  change Keccak.coords with
    (let c := Keccak.coords in c).
  cbv zeta.
  destruct (map _ Keccak.coords) as [|a l] eqn:E.
  - apply (f_equal length) in E. rewrite length_map in E. discriminate E.
  - apply (f_equal length) in E. rewrite length_map in E. cbn in *. lia.
Qed.

Lemma keccak_permute_length (st : list Z) :
  length st = 25%nat -> length (Keccak.permute st) = 25%nat.
Proof.
  unfold Keccak.permute. generalize Keccak.round_constants. intros rcs.
  revert st. induction rcs as [|rc rcs IH]; intros st H; [exact H|].
  cbn [fold_left]. apply IH, keccak_round_length.
Qed.

Lemma keccak_absorb_length (n : nat) (st : list Z) (msg : bytes) :
  length st = 25%nat -> length (Keccak.absorb n st msg) = 25%nat.
Proof.
  revert st msg. induction n as [|n IH]; intros st msg H; [exact H|].
  cbn [Keccak.absorb]. apply IH, keccak_permute_length.
  unfold Keccak.xor_block. now rewrite length_map, length_imap.
Qed.

Lemma keccak256_length (msg : bytes) : length (Keccak.keccak256 msg) = 32%nat.
Proof.
  unfold Keccak.keccak256. cbv zeta.
  pose proof (keccak_absorb_length
                (length (Keccak.pad msg) / Keccak.rate)
                (replicate 25 0) (Keccak.pad msg) eq_refl) as H.
  destruct (Keccak.absorb _ _ _) as [|a [|b [|c [|d st]]]]; try discriminate H.
  reflexivity.
Qed.

(** ** Signing *)

(** [hash(true, chainID)] with a chain id: [v] is overwritten with the
    chain id, and the whole of [raw] is hashed. *)
Lemma hash_signed_run (c : Z) (tx : Transaction) :
  c <> 0 ->
  hash (Some true) (Some c) tx =
  let tx' := set_raw (array_store 13 (EthUtil.intToBuffer c) (raw tx)) tx in
  (Ret (rlphash (map JBuf (raw tx'))), tx').
Proof.
  intros Hc. unfold hash, mbind, this, mret.
  cbn -[set rlphash Z.eqb array_store EthUtil.intToBuffer update].
  destruct (Z.eqb_spec c 0) as [|_]; [contradiction|].
  cbn [negb]. rewrite set_v_run. reflexivity.
Qed.

Lemma take_drop_32 (sg : bytes) :
  length sg = 64%nat -> take 32 sg ++ take 32 (drop 32 sg) = sg.
Proof.
  intros H. rewrite (take_ge (drop 32 sg)) by (rewrite length_drop; lia).
  apply take_drop.
Qed.

Section SignThenVerify.
Context {curve : Secp256k1}.

Lemma stripZeros_take_length (n : nat) (b : bytes) :
  (length (Buf.stripZeros (take n b)) <= n)%nat.
Proof.
  pose proof (stripZeros_length (take n b)). rewrite length_take in H. lia.
Qed.

(** What [sign] stores, given the signature the curve returns. *)
Lemma sign_run (c : Z) (privateKey : bytes) (tx : Transaction)
      (sg : bytes) (recovery : Z) :
  0 < c ->
  secp_sign (signed_digest (Some c) tx) privateKey = Ret (sg, recovery) ->
  sign privateKey (Some c) tx =
  (Ret tt,
   set_raw
     (array_store 13 (EthUtil.intToBuffer (recovery + 27 + (c * 2 + 8)))
        (array_store 15 (Buf.stripZeros (take 32 (drop 32 sg)))
           (array_store 14 (Buf.stripZeros (take 32 sg))
              (array_store 13 (EthUtil.intToBuffer c) (raw tx)))))
     tx).
Proof.
  intros Hc Hsign. unfold signed_digest in Hsign.
  rewrite (hash_signed_run c tx) in Hsign by lia. cbv zeta in Hsign.
  unfold sign. unfold mbind at 1.
  rewrite (hash_signed_run c tx) by lia. cbv zeta.
  unfold mbind at 1. unfold lift at 1. unfold ecsign. rewrite Hsign.
  cbn [obind sig_r sig_s sig_v]. change (default 0 (Some c)) with c.
  destruct (Z.ltb_spec 0 c) as [_|]; [|lia].
  unfold mbind at 1. rewrite set_r_run by apply stripZeros_take_length.
  unfold mbind at 1. rewrite set_s_run by apply stripZeros_take_length.
  rewrite set_v_run. cbn [raw set_raw EthUtil.toBuffer].
  now rewrite !set_raw_twice.
Qed.

(** [hash(true, 0)] leaves [v] alone: a chain id of 0 is falsy. *)
Lemma hash_signed_chain0_run (tx : Transaction) :
  hash (Some true) (Some 0) tx = (Ret (rlphash (map JBuf (raw tx))), tx).
Proof. reflexivity. Qed.

Lemma sign_chain0_run (privateKey : bytes) (tx : Transaction)
      (sg : bytes) (recovery : Z) :
  secp_sign (signed_digest (Some 0) tx) privateKey = Ret (sg, recovery) ->
  sign privateKey (Some 0) tx =
  (Ret tt,
   set_raw
     (array_store 13 (EthUtil.intToBuffer (recovery + 27))
        (array_store 15 (Buf.stripZeros (take 32 (drop 32 sg)))
           (array_store 14 (Buf.stripZeros (take 32 sg)) (raw tx))))
     tx).
Proof.
  intros Hsign. unfold signed_digest in Hsign.
  rewrite hash_signed_chain0_run in Hsign.
  unfold sign. unfold mbind at 1. rewrite hash_signed_chain0_run.
  unfold mbind at 1. unfold lift at 1. unfold ecsign. rewrite Hsign.
  cbn [obind sig_r sig_s sig_v]. change (default 0 (Some 0)) with 0.
  cbn [Z.ltb Z.compare].
  unfold mbind at 1. rewrite set_r_run by apply stripZeros_take_length.
  unfold mbind at 1. rewrite set_s_run by apply stripZeros_take_length.
  rewrite set_v_run. cbn [raw set_raw EthUtil.toBuffer].
  now rewrite !set_raw_twice.
Qed.

(** Whatever the curve, a record signed for chain id 0 is rejected: the
    recovery id [verifySignature] computes is 10 below the one [sign]
    stored. *)
Lemma sign_chain0_rejected (privateKey : bytes) (tx : Transaction)
      (sg : bytes) (recovery : Z) :
  length (raw tx) = 16%nat ->
  secp_sign (signed_digest (Some 0) tx) privateKey = Ret (sg, recovery) ->
  0 <= recovery <= 3 ->
  (verifySignature (sign privateKey (Some 0) tx).2).1 = Ret false.
Proof.
  intros Hlen Hsign Hrec.
  rewrite (sign_chain0_run privateKey tx sg recovery Hsign). cbn [snd].
  set (rb := Buf.stripZeros (take 32 sg)).
  set (sb := Buf.stripZeros (take 32 (drop 32 sg))).
  set (vb := EthUtil.intToBuffer (recovery + 27)).
  assert (EthUtil.bufferToInt (JBuf vb) = Ret (recovery + 27)) as Fv.
  { unfold vb.
    assert (recovery = 0 \/ recovery = 1 \/ recovery = 2 \/ recovery = 3)
      as [-> | [-> | [-> | ->]]] by lia; reflexivity. }
  clearbody rb sb vb. clear Hsign.
  destruct_raw tx Hlen.
  rewrite verifySignature_run. cbv zeta.
  match goal with
  | |- context [get "v" ?t] => change (get "v" t) with (JBuf vb)
  end.
  destruct (_ && _); [reflexivity|].
  rewrite Fv. unfold ecrecover.
  replace (recovery + 27 - 10 - 27) with (recovery - 10) by lia.
  destruct (Z.eqb_spec (recovery - 10) 0); [lia|].
  destruct (Z.eqb_spec (recovery - 10) 1); [lia|].
  reflexivity.
Qed.

(** C1, as amended.  For a new record with empty [action], [subAddress],
    [r] and [s], and a private key with which the curve signs the
    record's digest correctly, [sign(privateKey, 1)] followed by
    [verifySignature()] returns [true], and [getSenderAddress()] then
    returns the 20-byte address of the key's public key. *)
Theorem sign_then_verify (data : option txdata) (privateKey : bytes)
        (tx : Transaction) :
  new_Transaction data = Ret tx ->
  get "action" tx = JBuf [] ->
  get "subAddress" tx = JBuf [] ->
  get "r" tx = JBuf [] ->
  get "s" tx = JBuf [] ->
  signs_correctly (signed_digest (Some 1) tx) privateKey ->
  exists tx1 tx2 tx3 address,
    sign privateKey (Some 1) tx = (Ret tt, tx1)
    /\ verifySignature tx1 = (Ret true, tx2)
    /\ getSenderAddress tx2 = (Ret address, tx3)
    /\ privateToAddress privateKey = Ret address
    /\ length address = 20%nat.
Proof.
  intros Hnew Ha Hsub Hr Hs Hsig.
  apply new_Transaction_inv in Hnew
    as (_ & _ & _ & Hlen & Hh & Hsa & Hfrom & Hkey).
  destruct_raw tx Hlen. subst.
  vm_compute in Ha. vm_compute in Hsub. vm_compute in Hr. vm_compute in Hs.
  injection Ha as ->. injection Hsub as ->. injection Hr as ->. injection Hs as ->.
  match type of Hsig with signs_correctly (signed_digest _ ?t) _ => set (tx := t) in * end.
  destruct Hsig as (sg & recovery & Hsign & Hsg & Hrec & Hlow & Hrecover & Hpub).
  pose proof (sign_run 1 privateKey tx sg recovery ltac:(lia) Hsign) as Hsigned.
  unfold signed_digest in Hrecover.
  rewrite (hash_signed_run 1 tx) in Hrecover by discriminate.
  cbv zeta iota beta in Hrecover. clear Hsign.
  (* the three stored values and what is known of them *)
  set (rb := Buf.stripZeros (take 32 sg)) in *.
  set (sb := Buf.stripZeros (take 32 (drop 32 sg))) in *.
  set (vb := EthUtil.intToBuffer (recovery + 27 + (1 * 2 + 8))) in *.
  assert (Buf.to_Z sb <= N_DIV_2) as Fs.
  { unfold sb. rewrite stripZeros_to_Z.
    rewrite take_ge by (rewrite length_drop; lia). exact Hlow. }
  assert (Buf.setLength 32 rb ++ Buf.setLength 32 sb = sg) as Fsg.
  { unfold rb, sb.
    rewrite !setLength_stripZeros
      by (rewrite length_take, ?length_drop; lia).
    now apply take_drop_32. }
  assert (EthUtil.bufferToInt (JBuf vb) = Ret (recovery + 37)) as Fv.
  { unfold vb. destruct Hrec as [-> | ->]; reflexivity. }
  clearbody rb sb vb. subst tx.
  cbn -[EthUtil.intToBuffer] in Hsigned, Hrecover.
  match type of Hsigned with _ = (_, ?t) => set (tx1 := t) in * end.
  match type of Hrecover with secp_recover ?d _ _ = _ => set (digest := d) in * end.
  assert (rlphash (verify_items (set_chainId 1 tx1)) = digest) as Fh.
  { apply rlphash_buffers. reflexivity. }
  set (pub := secp_publicKeyCreate privateKey) in *.
  assert (verifySignature tx1
          = (Ret true, set_senderPubKey pub (set_chainId 1 tx1))) as Hverified.
  { rewrite verifySignature_run. cbv zeta.
    change (get "s" tx1) with (JBuf sb).
    change (get "r" tx1) with (JBuf rb).
    change (get "v" tx1) with (JBuf vb).
    change (_homestead tx1) with true.
    unfold EthUtil.BN. cbn [EthUtil.toBuffer andb].
    destruct (Z.ltb_spec N_DIV_2 (Buf.to_Z sb)) as [|_]; [lia|].
    rewrite Fv, Fh. unfold ecrecover. cbn [EthUtil.toBuffer]. rewrite Fsg.
    replace (recovery + 37 - 10 - 27) with recovery by lia.
    rewrite Hrecover.
    destruct Hrec as [-> | ->]; reflexivity. }
  set (address := Buf.last_n 20 (Keccak.keccak256 pub)).
  assert (publicToAddress (JBuf pub) = Ret address) as Haddr.
  { unfold publicToAddress. cbn [EthUtil.toBuffer]. rewrite Hpub. reflexivity. }
  exists tx1, (set_senderPubKey pub (set_chainId 1 tx1)),
    (set_from address (set_senderPubKey pub (set_chainId 1 tx1))), address.
  split; [exact Hsigned|]. split; [exact Hverified|].
  split; [|split].
  - rewrite getSenderAddress_run. cbv zeta.
    unfold sender_cached.
    cbn [_from _senderPubKey set_senderPubKey set_chainId tx1 set_raw].
    destruct pub as [|p0 pub']; [discriminate Hpub|].
    now rewrite Haddr.
  - exact Haddr.
  - unfold address, Buf.last_n. rewrite length_drop, keccak256_length. reflexivity.
Qed.

End SignThenVerify.

(** ** The class invariant is kept by every method *)

Lemma mbind_keeps {A B} (P : Transaction -> Prop) (m : M A) (k : A -> M B)
      (tx : Transaction) :
  P tx ->
  (forall t, P t -> P (m t).2) ->
  (forall a t, P t -> P (k a t).2) ->
  P (mbind m k tx).2.
Proof.
  intros Htx Hm Hk. unfold mbind. specialize (Hm tx Htx).
  destruct (m tx) as [[a|e] t]; cbn [snd] in *; [now apply Hk | exact Hm].
Qed.

Lemma set_keeps_constructed (name : string) (v : jsval) (tx : Transaction) :
  constructed tx -> constructed (set name v tx).2.
Proof.
  intros (Hlen & Hh & Hs).
  destruct (set_frame name v tx Hlen) as (Hlen' & _ & Hh' & Hs' & _).
  repeat split; congruence.
Qed.

(** [hash] with the signature included: [v] is overwritten when a chain
    id is given, and the whole of [raw] is hashed. *)
Lemma hash_with_signature_run (chainID : option Z) (tx : Transaction) :
  hash (Some true) chainID tx =
  let tx' := if negb (default 0 chainID =? 0)
             then set_raw (array_store 13 (EthUtil.intToBuffer (default 0 chainID))
                                       (raw tx)) tx
             else tx in
  (Ret (rlphash (map JBuf (raw tx'))), tx').
Proof.
  unfold hash, mbind, this, mret.
  cbn -[set rlphash Z.eqb array_store EthUtil.intToBuffer update].
  destruct (default 0 chainID =? 0); cbn [negb]; [reflexivity|].
  rewrite set_v_run. reflexivity.
Qed.

Lemma hash_keeps_constructed (includeSignature : option bool)
      (chainID : option Z) (tx : Transaction) :
  constructed tx -> constructed (hash includeSignature chainID tx).2.
Proof.
  intros Hc.
  assert (constructed (hash (Some true) chainID tx).2) as Htrue.
  { rewrite hash_with_signature_run. cbv zeta. cbn [snd].
    destruct (negb _); [|exact Hc].
    pose proof (set_keeps_constructed "v" (JNum (default 0 chainID)) tx Hc) as H.
    now rewrite set_v_run in H. }
  destruct includeSignature as [[]|]; [exact Htrue | | exact Htrue].
  destruct (Z.ltb_spec 0 (_chainId tx)).
  - now rewrite hash_unsigned_run.
  - now rewrite hash_legacy_run by lia.
Qed.

Section Invariant.
Context {curve : Secp256k1}.

Lemma verifySignature_keeps_constructed (tx : Transaction) :
  constructed tx -> constructed (verifySignature tx).2.
Proof.
  intros (Hlen & Hh & Hs).
  pose proof (verifySignature_frame tx) as (Hr & _ & Hh' & Hs' & _).
  repeat split; congruence.
Qed.

Lemma sign_keeps_constructed (privateKey : bytes) (chainID : option Z)
      (tx : Transaction) :
  constructed tx -> constructed (sign privateKey chainID tx).2.
Proof.
  intros Hc. unfold sign.
  apply mbind_keeps; [exact Hc | intros; now apply hash_keeps_constructed |].
  intros msgHash t Ht.
  apply mbind_keeps; [exact Ht | now intros |].
  intros sig t1 Ht1.
  apply mbind_keeps; [exact Ht1 | intros; now apply set_keeps_constructed |].
  intros _ t2 Ht2.
  apply mbind_keeps; [exact Ht2 | intros; now apply set_keeps_constructed |].
  intros _ t3 Ht3. now apply set_keeps_constructed.
Qed.

Lemma getSenderAddress_keeps_constructed (tx : Transaction) :
  constructed tx -> constructed (getSenderAddress tx).2.
Proof.
  intros Hc. rewrite getSenderAddress_run. cbv zeta.
  pose proof (verifySignature_keeps_constructed tx Hc) as Hv.
  destruct (_from tx); [exact Hc|].
  destruct (sender_cached tx).
  - destruct (publicToAddress _); exact Hc.
  - destruct (verifySignature tx) as [[[]|e] t]; cbn [snd] in *; try exact Hv.
    destruct (publicToAddress _); exact Hv.
Qed.

Lemma validate_keeps_constructed (fees : FeeTable) (stringError : option bool)
      (tx : Transaction) :
  constructed tx -> constructed (validate fees stringError tx).2.
Proof.
  intros Hc. rewrite validate_run.
  pose proof (verifySignature_keeps_constructed tx Hc) as Hv.
  destruct (verifySignature tx) as [[ok|e] t]; cbn [snd] in *; [|exact Hv].
  destruct (getBaseFee fees t); exact Hv.
Qed.

End Invariant.

(** ** The decoder *)

Lemma obind_ret {A B} (o : outcome A) (k : A -> outcome B) (b : B) :
  obind o k = Ret b -> exists a, o = Ret a /\ k a = Ret b.
Proof. destruct o as [a|e]; [|discriminate]. intros H. now exists a. Qed.

Lemma HexToAOA_other_first (a : ascii) (s : string) :
  a <> "0"%char -> HexToAOA (String a s) = String a s.
Proof.
  intros H. destruct a as [[] [] [] [] [] [] [] []]; try reflexivity.
  now elim H.
Qed.

Lemma HexToAOA_other_second (b : ascii) (s : string) :
  b <> "x"%char -> HexToAOA (String "0" (String b s)) = String "0" (String b s).
Proof.
  intros H. destruct b as [[] [] [] [] [] [] [] []]; try reflexivity.
  now elim H.
Qed.

(** After the prefix rewrite no address text is the bare [0x]. *)
Lemma HexToAOA_never_0x (s : string) : String.eqb (HexToAOA s) "0x" = false.
Proof.
  apply String.eqb_neq.
  destruct s as [|a s]; [discriminate|].
  destruct (Ascii.ascii_dec a "0") as [->|Ha].
  - destruct s as [|b s]; [discriminate|].
    destruct (Ascii.ascii_dec b "x") as [->|Hb].
    + discriminate.
    + rewrite HexToAOA_other_second by exact Hb. congruence.
  - rewrite HexToAOA_other_first by exact Ha. congruence.
Qed.

Section DecoderProperties.
Context {curve : Secp256k1}.

(** Whatever [decodeTx] returns has a [to] property. *)
Lemma decodeTx_to_present (raw_tx : bytes) (d : Decoded.t) :
  decodeTx raw_tx = Ret d -> exists t, Decoded.to d = Some t.
Proof.
  unfold decodeTx. intros H.
  repeat match type of H with
         | obind _ _ = Ret _ =>
             apply obind_ret in H as (? & _ & H)
         | match ?x with (_, _) => _ end = Ret _ =>
             destruct x
         end.
  injection H as <-. cbn [Decoded.to].
  rewrite HexToAOA_never_0x. now eexists.
Qed.

End DecoderProperties.

(** On a plain transfer (no data, action or sub-address) the decoder
    agrees with the record: same sender, the recipient is kept. *)
Example decodeTx_plain_transfer :
  exists address d,
    (verifySignature (curve := Curve.curve) transfer_signed_tx).1 = Ret true
    /\ (getSenderAddress (curve := Curve.curve) transfer_signed_tx).1 = Ret address
    /\ decodeTx (curve := Curve.curve) (serialize transfer_signed_tx) = Ret d
    /\ Decoded.from d = HexToAOA (Hex.bufferToHex address)
    /\ Decoded.from d = "AOAbe862ad9abfe6f22bcb087716c7d89a26051f74c"%string
    /\ Decoded.to d = Some "AOA7e5f4552091a69125d5dfcb7b8c2659029395bdf"%string
    /\ Decoded.nonce d = 7
    /\ Decoded.value d = 1000000000000000000.
Proof.
  eexists. eexists.
  split; [vm_compute; reflexivity|].
  split; [vm_compute; reflexivity|].
  split; [vm_compute; reflexivity|].
  repeat split; vm_compute; reflexivity.
Qed.

(** C3.  A contract creation carrying data, signed for chain id 1: the
    record verifies and its sender is the address of
    the key, but [decodeTx] on its serialization hashes another pre-image
    (the data is left out) and reports another sender. *)
Theorem decodeTx_sender_differs :
  (exists tx,
     new_Transaction creation_data = Ret tx
     /\ creation_signed_data
        = Some (DataArray
                  (map JBuf (raw (sign (curve := Curve.curve)
                                       example_key (Some 1) tx).2))))
  /\ new_Transaction creation_signed_data = Ret creation_signed_tx
  /\ getChainId creation_signed_tx = 1
  /\ (verifySignature (curve := Curve.curve) creation_signed_tx).1 = Ret true
  /\ decodeTx (curve := Curve.curve) (serialize creation_signed_tx)
     = Ret creation_decoded
  /\ (exists address,
        (getSenderAddress (curve := Curve.curve) creation_signed_tx).1
        = Ret address
        /\ privateToAddress (curve := Curve.curve) example_key = Ret address
        /\ Decoded.from creation_decoded <> HexToAOA (Hex.bufferToHex address))
  /\ (exists decoded items sub,
        Ethers.decode (serialize creation_signed_tx) = Ret decoded
        /\ decodeTx_items decoded = Ret (items, sub)
        /\ RLP.encode items
           <> RLP.encode (verify_items (set_chainId 1 creation_signed_tx))
        /\ rlphash items <> verification_hash creation_signed_tx).
Proof.
  split; [eexists; split; [vm_compute; reflexivity|]; vm_compute; reflexivity|].
  split; [vm_compute; reflexivity|].
  split; [reflexivity|].
  split; [vm_compute; reflexivity|].
  split; [vm_compute; reflexivity|].
  split.
  - eexists. split; [vm_compute; reflexivity|].
    split; [vm_compute; reflexivity|].
    vm_compute. discriminate.
  - eexists. eexists. eexists.
    split; [vm_compute; reflexivity|].
    split; [vm_compute; reflexivity|].
    split; vm_compute; discriminate.
Qed.

(** C9.  The same serialization has an empty [to] (the record is a
    contract creation), and the object [decodeTx] returns still has the
    property [to], holding the bare prefix. *)
Theorem decodeTx_keeps_empty_to :
  toCreationAddress creation_signed_tx = Ret true
  /\ (exists decoded,
        Ethers.decode (serialize creation_signed_tx) = Ret decoded
        /\ destructure decoded !! 3%nat = Some (Ethers.RStr "0x"))
  /\ decodeTx (curve := Curve.curve) (serialize creation_signed_tx)
     = Ret creation_decoded
  /\ Decoded.to creation_decoded = Some "AOA"%string.
Proof.
  split; [vm_compute; reflexivity|].
  split; [eexists; split; [vm_compute; reflexivity|]; vm_compute; reflexivity|].
  split; [vm_compute; reflexivity|].
  reflexivity.
Qed.

(** ** The statements of the specification that the code does not meet *)

(** C1 as stated fails for chain id 0: the example, signed for chain id
    0, is rejected by [verifySignature]. *)
Lemma sign_chain0_not_verified :
  new_Transaction example_data = Ret example_tx
  /\ sign (curve := Curve.curve) example_key (Some 0) example_tx
     = (Ret tt, example_signed_chain0)
  /\ (verifySignature (curve := Curve.curve) example_signed_chain0).1
     = Ret false.
Proof. repeat split; vm_compute; reflexivity. Qed.

(** C2 as stated fails for a record with an action: the digest of
    [hash(false)] is not the digest of the sequence with 0 in the position
    of [action]. *)
Lemma hash_action_not_zero :
  new_Transaction action_data = Ret action_tx
  /\ 0 < getChainId action_tx
  /\ (hash (Some false) None action_tx).1
     <> Ret (Keccak.keccak256 (RLP.encode (claimed_preimage action_tx))).
Proof.
  split; [vm_compute; reflexivity|]. split; [reflexivity|].
  vm_compute. discriminate.
Qed.

(** The chain id derived from [v] is not the one [hash] looks at: a
    record built without [v] and with the chain id 5, and the example
    after [verifySignature], have the derived chain id 0, and their
    [hash(false)] is the digest of the sixteen fields, not of the first
    six. *)
Lemma hash_derived_zero_sixteen_fields :
  (new_Transaction supplied_chain_data = Ret supplied_chain_tx
   /\ EthUtil.bufferToInt (get "v" supplied_chain_tx) = Ret 27
   /\ derived_chainId 27 = 0
   /\ getChainId supplied_chain_tx = 5
   /\ (hash (Some false) None supplied_chain_tx).1
      = Ret (Keccak.keccak256 (RLP.encode (unsigned_preimage supplied_chain_tx)))
   /\ (hash (Some false) None supplied_chain_tx).1
      <> Ret (Keccak.keccak256 (RLP.encode (legacy_preimage supplied_chain_tx))))
  /\ (let tx := (verifySignature (curve := Curve.curve) example_tx).2 in
      EthUtil.bufferToInt (get "v" tx) = Ret 27
      /\ getChainId tx = 1
      /\ (hash (Some false) None tx).1
         = Ret (Keccak.keccak256 (RLP.encode (unsigned_preimage tx)))
      /\ (hash (Some false) None tx).1
         <> Ret (Keccak.keccak256 (RLP.encode (legacy_preimage tx)))).
Proof.
  split.
  - split; [vm_compute; reflexivity|]. split; [reflexivity|].
    split; [reflexivity|]. split; [reflexivity|].
    split; [vm_compute; reflexivity | vm_compute; discriminate].
  - cbv zeta. split; [vm_compute; reflexivity|]. split; [vm_compute; reflexivity|].
    split; [vm_compute; reflexivity | vm_compute; discriminate].
Qed.

(** C4 as stated fails for a record without a chain id: the chain id is 0
    at construction and 1 after [verifySignature]. *)
Lemma verifySignature_changes_chainId :
  new_Transaction example_data = Ret example_tx
  /\ getChainId example_tx = 0
  /\ getChainId (verifySignature (curve := Curve.curve) example_tx).2
     <> getChainId example_tx.
Proof.
  split; [vm_compute; reflexivity|]. split; [reflexivity|].
  vm_compute. discriminate.
Qed.

(** With an action, the record signed for chain id 1 still verifies, but
    the sender [getSenderAddress] recovers is not the address of the key:
    the action is signed over and then left out of the verification
    pre-image. *)
Lemma sign_with_action_other_sender :
  exists tx1 tx2 address,
    sign (curve := Curve.curve) example_key (Some 1) example_action_tx
    = (Ret tt, tx1)
    /\ verifySignature (curve := Curve.curve) tx1 = (Ret true, tx2)
    /\ (getSenderAddress (curve := Curve.curve) tx2).1 = Ret address
    /\ privateToAddress (curve := Curve.curve) example_key <> Ret address.
Proof.
  eexists. eexists. eexists.
  split; [vm_compute; reflexivity|].
  split; [vm_compute; reflexivity|].
  split; [vm_compute; reflexivity|].
  vm_compute. discriminate.
Qed.

(** ** The theorems at concrete records *)

(** [sign_then_verify] on the example of the class comment. *)
Lemma sign_then_verify_witness :
  new_Transaction example_data = Ret example_tx
  /\ get "action" example_tx = JBuf []
  /\ get "subAddress" example_tx = JBuf []
  /\ get "r" example_tx = JBuf []
  /\ get "s" example_tx = JBuf []
  /\ signs_correctly (curve := Curve.curve)
       (signed_digest (Some 1) example_tx) example_key
  /\ exists tx1 tx2 tx3 address,
       sign (curve := Curve.curve) example_key (Some 1) example_tx
       = (Ret tt, tx1)
       /\ verifySignature (curve := Curve.curve) tx1 = (Ret true, tx2)
       /\ getSenderAddress (curve := Curve.curve) tx2 = (Ret address, tx3)
       /\ privateToAddress (curve := Curve.curve) example_key = Ret address
       /\ length address = 20%nat.
Proof.
  assert (signs_correctly (curve := Curve.curve)
            (signed_digest (Some 1) example_tx) example_key) as Hsig.
  { unfold signs_correctly. eexists. eexists.
    split; [vm_compute; reflexivity|].
    split; [reflexivity|]. split; [left; reflexivity|].
    split; [vm_compute; discriminate|].
    split; vm_compute; reflexivity. }
  split; [vm_compute; reflexivity|].
  split; [reflexivity|]. split; [reflexivity|].
  split; [reflexivity|]. split; [reflexivity|].
  split; [exact Hsig|].
  apply (sign_then_verify (curve := Curve.curve)
           example_data example_key example_tx);
    try reflexivity; exact Hsig.
Defined.

(** [hash_unsigned_preimage] on a record of chain id 1 and on the example,
    of chain id 0. *)
Lemma hash_unsigned_preimage_witness :
  (constructed action_tx
   /\ 0 < getChainId action_tx
   /\ (hash (Some false) None action_tx).1
      = Ret (Keccak.keccak256 (RLP.encode (unsigned_preimage action_tx))))
  /\ (constructed example_tx
      /\ getChainId example_tx <= 0
      /\ (hash (Some false) None example_tx).1
         = Ret (Keccak.keccak256 (RLP.encode (legacy_preimage example_tx)))).
Proof.
  split.
  - split; [repeat split|]. split; [reflexivity|].
    apply (hash_unsigned_preimage None action_tx); [repeat split | reflexivity].
  - split; [repeat split|]. split; [cbn; lia|].
    apply (hash_unsigned_preimage None example_tx); [repeat split | cbn; lia].
Defined.

(** [hash_restores_raw] on a record of chain id 1. *)
Lemma hash_restores_raw_witness :
  0 < getChainId action_tx
  /\ exists digest,
       hash (Some false) None action_tx = (Ret digest, action_tx)
       /\ raw (hash (Some false) None action_tx).2 = raw action_tx.
Proof.
  split; [reflexivity|].
  apply (hash_restores_raw None action_tx). reflexivity.
Defined.

(** [high_s_rejected] on a record whose [s] is [2^255]. *)
Lemma high_s_rejected_witness :
  constructed high_s_tx
  /\ secp256k1n / 2 < Buf.to_Z (EthUtil.toBuffer (get "s" high_s_tx))
  /\ (verifySignature (curve := Curve.curve) high_s_tx).1 = Ret false.
Proof.
  split; [repeat split|]. split; [vm_compute; reflexivity|].
  apply (high_s_rejected (curve := Curve.curve) high_s_tx);
    [repeat split | vm_compute; reflexivity].
Defined.

(** [constructor_chainId] on data with [v = 37], chain id 1, and on data
    without [v] and with the chain id 5. *)
Lemma constructor_chainId_witness :
  (new_Transaction action_data = Ret action_tx
   /\ get "v" action_tx = JBuf [Byte.x25]
   /\ 37 < 2 ^ 53
   /\ getChainId action_tx = 1)
  /\ (new_Transaction supplied_chain_data = Ret supplied_chain_tx
      /\ get "v" supplied_chain_tx = JBuf [Byte.x1b]
      /\ 27 < 2 ^ 53
      /\ getChainId supplied_chain_tx = 5).
Proof.
  split.
  - split; [vm_compute; reflexivity|].
    apply (constructor_chainId action_data action_tx). vm_compute; reflexivity.
  - split; [vm_compute; reflexivity|].
    apply (constructor_chainId supplied_chain_data supplied_chain_tx).
    vm_compute; reflexivity.
Defined.


(** [verification_ignores_action_subAddress] on the example with and
    without an action and a sub-address. *)
Lemma verification_ignores_action_subAddress_witness :
  differ_only_in_action_subAddress example_tx example_action_tx
  /\ verification_hash example_tx = verification_hash example_action_tx
  /\ (verifySignature (curve := Curve.curve) example_tx).1
     = (verifySignature (curve := Curve.curve) example_action_tx).1.
Proof.
  assert (differ_only_in_action_subAddress example_tx example_action_tx) as Hd.
  { split; [reflexivity|]. split; [|repeat split].
    intros i H6 H11.
    do 16 (destruct i as [|i];
           [try reflexivity; try (now elim H6); now elim H11|]).
    reflexivity. }
  split; [exact Hd|].
  pose proof (verification_ignores_action_subAddress
                (curve := Curve.curve) example_tx example_action_tx Hd)
    as (_ & Hh & Hv & _).
  split; [exact Hh | exact Hv].
Defined.


(** * Further properties of the module *)

(** ** Bytes, hexadecimal text and integers *)

Lemma byte_to_Z_range (x : byte) : 0 <= Buf.byte_to_Z x < 256.
Proof.
  unfold Buf.byte_to_Z. pose proof (Byte.to_N_bounded x). lia.
Qed.

Lemma byte_of_to_Z (x : byte) : Buf.byte_of_Z (Buf.byte_to_Z x) = x.
Proof.
  unfold Buf.byte_of_Z. pose proof (byte_to_Z_range x) as H.
  rewrite Z.mod_small by lia. unfold Buf.byte_to_Z.
  rewrite N2Z.id. now rewrite Byte.of_to_N.
Qed.

Lemma byte_to_of_Z (z : Z) : Buf.byte_to_Z (Buf.byte_of_Z z) = z mod 256.
Proof.
  unfold Buf.byte_of_Z, Buf.byte_to_Z.
  pose proof (Z.mod_pos_bound z 256 ltac:(lia)) as H.
  destruct (Byte.of_N (Z.to_N (z mod 256))) as [b|] eqn:E.
  - apply Byte.to_of_N in E. rewrite E. lia.
  - apply Byte.of_N_None_iff in E. lia.
Qed.

Lemma byte_to_Z_inj (x y : byte) : Buf.byte_to_Z x = Buf.byte_to_Z y -> x = y.
Proof.
  intros H. rewrite <- (byte_of_to_Z x), <- (byte_of_to_Z y). now rewrite H.
Qed.

Lemma hex_value_digit (n : Z) : 0 <= n < 16 -> Hex.value (Hex.digit n) = Some n.
Proof.
  intros H. rewrite <- (Z2Nat.id n) by lia.
  assert (Z.to_nat n < 16)%nat as Hk by lia.
  generalize dependent (Z.to_nat n). clear. intros k Hk.
  do 16 (destruct k as [|k]; [reflexivity|]). lia.
Qed.

Lemma hex_decode_encode (b : bytes) : Hex.decode (Hex.encode b) = b.
Proof.
  induction b as [|x b IH]; [reflexivity|].
  cbn [Hex.encode Hex.decode]. pose proof (byte_to_Z_range x) as Hx.
  rewrite !hex_value_digit
    by (split; [apply Z.div_pos || apply Z.mod_pos_bound | apply Z.div_lt_upper_bound || apply Z.mod_pos_bound]; lia).
  rewrite IH. f_equal.
  rewrite <- (byte_of_to_Z x) at 3. f_equal.
  pose proof (Z.div_mod (Buf.byte_to_Z x) 16 ltac:(lia)). lia.
Qed.

Lemma to_Z_app (a b : bytes) :
  Buf.to_Z (a ++ b) = fold_left (fun acc x => acc * 256 + Buf.byte_to_Z x) b (Buf.to_Z a).
Proof. unfold Buf.to_Z. now rewrite fold_left_app. Qed.

(** The text of [Hex.encode] is the number [Buf.to_Z] reads. *)
Lemma number_from_encode (b : bytes) (a : Z) :
  Hex.number_from a (Hex.encode b)
  = Some (fold_left (fun acc x => acc * 256 + Buf.byte_to_Z x) b a).
Proof.
  revert a. induction b as [|x b IH]; intros a; [reflexivity|].
  cbn [Hex.encode Hex.number_from fold_left].
  pose proof (byte_to_Z_range x) as Hx.
  rewrite !hex_value_digit
    by (split; [apply Z.div_pos || apply Z.mod_pos_bound | apply Z.div_lt_upper_bound || apply Z.mod_pos_bound]; lia).
  rewrite IH. do 2 f_equal.
  pose proof (Z.div_mod (Buf.byte_to_Z x) 16 ltac:(lia)). lia.
Qed.

Lemma number_from_shift (s : string) (a b w : Z) :
  Hex.number_from a s = Some w ->
  Hex.number_from b s = Some (w + (b - a) * 16 ^ Z.of_nat (String.length s)).
Proof.
  revert a b w. induction s as [|c s IH]; intros a b w H.
  - cbn in *. injection H as <-. f_equal. lia.
  - cbn [Hex.number_from String.length] in *.
    destruct (Hex.value c) as [d|]; [|discriminate].
    rewrite (IH _ (16 * b + d) _ H). f_equal.
    rewrite Nat2Z.inj_succ, Z.pow_succ_r by lia. lia.
Qed.

Lemma hex_digits_value (fuel : nat) (n : Z) (acc : string) (va : Z) :
  0 <= n < 2 ^ Z.of_nat fuel ->
  Hex.number_from 0 acc = Some va ->
  Hex.number_from 0 (EthUtil.hex_digits fuel n acc)
  = Some (n * 16 ^ Z.of_nat (String.length acc) + va).
Proof.
  revert n acc va. induction fuel as [|fuel IH]; intros n acc va Hn Hacc.
  - cbn in *. assert (n = 0) as -> by lia. now rewrite Hacc.
  - cbn [EthUtil.hex_digits]. destruct (Z.leb_spec n 0) as [H0|Hpos].
    + assert (n = 0) as -> by lia. now rewrite Hacc.
    + rewrite Nat2Z.inj_succ, Z.pow_succ_r in Hn by lia.
      pose proof (Z.mod_pos_bound n 16 ltac:(lia)) as Hm.
      pose proof (Z.div_mod n 16 ltac:(lia)) as Hdm.
      erewrite IH.
      * f_equal. cbn [String.length].
        rewrite Nat2Z.inj_succ, Z.pow_succ_r by lia.
        instantiate (1 := va + (n mod 16) * 16 ^ Z.of_nat (String.length acc)).
        nia.
      * split; [apply Z.div_pos; lia|].
        apply Z.div_lt_upper_bound; lia.
      * cbn [Hex.number_from]. rewrite hex_value_digit by lia.
        rewrite (number_from_shift acc 0 (16 * 0 + n mod 16) va Hacc).
        f_equal. lia.
Qed.

Lemma toString16_value (n : Z) :
  0 <= n -> Hex.number_from 0 (EthUtil.toString16 n) = Some n.
Proof.
  intros Hn. unfold EthUtil.toString16.
  destruct (Z.eqb_spec n 0) as [->|Hne]; [reflexivity|].
  destruct (Z.ltb_spec n 0); [lia|].
  rewrite (hex_digits_value _ n "" 0); [f_equal; cbn; lia | | reflexivity].
  pose proof (Z.log2_spec n ltac:(lia)) as [_ Hl].
  pose proof (Z.log2_nonneg n).
  rewrite Z2Nat.id by lia. replace (Z.log2 n + 1) with (Z.succ (Z.log2 n)) by lia.
  lia.
Qed.

Lemma padToEven_even (s : string) : Nat.even (String.length (Hex.padToEven s)) = true.
Proof.
  unfold Hex.padToEven. destruct (Nat.even (String.length s)) eqn:E; [exact E|].
  cbn [String.length]. rewrite Nat.even_succ. rewrite <- Nat.negb_even, E. reflexivity.
Qed.

Lemma padToEven_value (s : string) (a : Z) :
  Hex.number_from 0 (Hex.padToEven s) = Hex.number_from 0 s.
Proof.
  unfold Hex.padToEven. destruct (Nat.even (String.length s)); reflexivity.
Qed.

(** Decoding hexadecimal text of even length reads its number. *)
Lemma decode_value (k : nat) :
  forall (s : string) (a w : Z),
    String.length s = (2 * k)%nat ->
    Hex.number_from a s = Some w ->
    fold_left (fun acc x => acc * 256 + Buf.byte_to_Z x) (Hex.decode s) a = w
    /\ length (Hex.decode s) = k.
Proof.
  induction k as [|k IH]; intros s a w Hlen Hnum.
  - destruct s; [|discriminate]. cbn in *. split; congruence.
  - destruct s as [|c1 [|c2 s]]; cbn [String.length] in Hlen; try lia. cbn [Hex.number_from] in Hnum.
    cbn [Hex.decode].
    destruct (Hex.value c1) as [h|] eqn:E1; [|discriminate].
    destruct (Hex.value c2) as [l|] eqn:E2; [|discriminate].
    assert (0 <= h < 16 /\ 0 <= l < 16) as [Hh Hl].
    { unfold Hex.value in E1, E2.
      repeat match goal with
             | H : (if ?c then _ else _) = Some _ |- _ =>
                 destruct c eqn:?; [injection H as <-|]
             | H : None = Some _ |- _ => discriminate H
             end; lia. }
    cbn [fold_left length]. rewrite byte_to_of_Z, Z.mod_small by lia.
    destruct (IH s (a * 256 + (16 * h + l)) w ltac:(lia)) as [Hv Hl'].
    { rewrite <- Hnum. f_equal. lia. }
    split; [exact Hv | now rewrite Hl'].
Qed.

Lemma even_length_half (s : string) :
  Nat.even (String.length s) = true ->
  String.length s = (2 * (String.length s / 2))%nat.
Proof.
  intros H. apply Nat.even_spec in H as [k Hk]. rewrite Hk.
  now rewrite Nat.mul_comm, Nat.div_mul, Nat.mul_comm by lia.
Qed.

(** [intToBuffer] writes the big-endian digits of a non-negative number. *)
Lemma to_Z_intToBuffer (n : Z) : 0 <= n -> Buf.to_Z (EthUtil.intToBuffer n) = n.
Proof.
  intros Hn. unfold EthUtil.intToBuffer, Buf.to_Z.
  pose proof (padToEven_even (EthUtil.toString16 n)) as He.
  apply (decode_value _ _ 0 n (even_length_half _ He)).
  rewrite padToEven_value by exact 0. now apply toString16_value.
Qed.

(** A number that fits 53 bits survives [this.v = n] followed by
    [bufferToInt(this.v)]. *)
Lemma bufferToInt_intToBuffer (n : Z) :
  0 <= n < 2 ^ 53 ->
  EthUtil.bufferToInt (JBuf (EthUtil.intToBuffer n)) = Ret n.
Proof.
  intros Hn. unfold EthUtil.bufferToInt. cbn [EthUtil.toBuffer].
  rewrite to_Z_intToBuffer by lia. unfold EthUtil.toNumber.
  rewrite Z.abs_eq by lia.
  destruct (Z.ltb_spec n (2 ^ 53)); [reflexivity | lia].
Qed.

(** ** The length prefix of the RLP encoder *)

Lemma hex_digits_length_ge (fuel : nat) (n : Z) (acc : string) :
  (String.length acc <= String.length (EthUtil.hex_digits fuel n acc))%nat.
Proof.
  revert n acc. induction fuel as [|fuel IH]; intros n acc; cbn; [lia|].
  destruct (n <=? 0); [lia|].
  specialize (IH (n / 16) (String (Hex.digit (n mod 16)) acc)).
  cbn [String.length] in IH. lia.
Qed.

Lemma hex_digits_length_le (k fuel : nat) :
  forall (n : Z) (acc : string),
    0 <= n < 16 ^ Z.of_nat k ->
    (String.length (EthUtil.hex_digits fuel n acc) <= String.length acc + k)%nat.
Proof.
  revert k. induction fuel as [|fuel IH]; intros k n acc Hn; cbn; [lia|].
  destruct (Z.leb_spec n 0); [lia|].
  destruct k as [|k]; [cbn in Hn; lia|].
  rewrite Nat2Z.inj_succ, Z.pow_succ_r in Hn by lia.
  specialize (IH k (n / 16) (String (Hex.digit (n mod 16)) acc)).
  cbn [String.length] in IH.
  assert (0 <= n / 16 < 16 ^ Z.of_nat k) as Hd.
  { split; [apply Z.div_pos; lia | apply Z.div_lt_upper_bound; lia]. }
  specialize (IH Hd). lia.
Qed.

Lemma toString16_length (n : Z) :
  0 < n < 2 ^ 64 ->
  (1 <= String.length (EthUtil.toString16 n) <= 16)%nat.
Proof.
  intros Hn. unfold EthUtil.toString16.
  destruct (Z.eqb_spec n 0); [lia|]. destruct (Z.ltb_spec n 0); [lia|].
  split.
  - pose proof (Z.log2_nonneg n).
    destruct (Z.to_nat (Z.log2 n + 1)) as [|fuel] eqn:E; [lia|].
    cbn [EthUtil.hex_digits]. destruct (Z.leb_spec n 0); [lia|].
    pose proof (hex_digits_length_ge fuel (n / 16) (String (Hex.digit (n mod 16)) "")) as H'.
    cbn [String.length] in H'. lia.
  - pose proof (hex_digits_length_le 16 (Z.to_nat (Z.log2 n + 1)) n "") as H'.
    cbn [String.length] in H'. apply H'. change (16 ^ Z.of_nat 16) with (2 ^ 64). lia.
Qed.

Lemma padToEven_length (s : string) :
  (1 <= String.length s <= 16)%nat ->
  exists k : nat, String.length (Hex.padToEven s) = (2 * k)%nat /\ (1 <= k <= 8)%nat.
Proof.
  intros Hs. pose proof (padToEven_even s) as He.
  apply even_length_half in He.
  exists (String.length (Hex.padToEven s) / 2)%nat. split; [exact He|].
  unfold Hex.padToEven in *. destruct (Nat.even (String.length s)) eqn:E.
  - lia.
  - cbn [String.length] in *.
    assert (String.length s <> 16%nat).
    { intros H16. rewrite H16 in E. discriminate E. }
    lia.
Qed.

Lemma decode_encode_app (b : bytes) (s : string) :
  Hex.decode (Hex.encode b +:+ s) = b ++ Hex.decode s.
Proof.
  induction b as [|x b IH]; [reflexivity|].
  cbn [Hex.encode app].
  match goal with
  | |- context [String ?c1 (String ?c2 ?t) +:+ ?s'] =>
      change (String c1 (String c2 t) +:+ s') with (String c1 (String c2 (t +:+ s')))
  end.
  cbn [Hex.decode].
  pose proof (byte_to_Z_range x) as Hx.
  rewrite !hex_value_digit
    by (split; [apply Z.div_pos || apply Z.mod_pos_bound | apply Z.div_lt_upper_bound || apply Z.mod_pos_bound]; lia).
  rewrite IH. f_equal.
  rewrite <- (byte_of_to_Z x) at 3. f_equal.
  pose proof (Z.div_mod (Buf.byte_to_Z x) 16 ltac:(lia)). lia.
Qed.

Lemma first_byte_text (k : nat) (offset : Z) :
  (1 <= k <= 8)%nat -> offset = 128 \/ offset = 192 ->
  Hex.padToEven (EthUtil.toString16 (offset + 55 + Z.of_nat k))
  = Hex.encode [Buf.byte_of_Z (offset + 55 + Z.of_nat k)].
Proof.
  intros Hk [-> | ->];
    do 9 (destruct k as [|k]; [try lia; reflexivity|]); lia.
Qed.

(** The prefix of a short item or list is one byte; the prefix of a long
    one is a byte that counts the bytes of the length, then the length. *)
Lemma encodeLength_short (len : nat) (offset : Z) :
  (len < 56)%nat ->
  RLP.encodeLength len offset = [Buf.byte_of_Z (Z.of_nat len + offset)].
Proof.
  intros H. unfold RLP.encodeLength.
  destruct (Nat.ltb_spec len 56); [reflexivity | lia].
Qed.

Lemma encodeLength_long (len : nat) (offset : Z) :
  (56 <= len)%nat -> Z.of_nat len < 2 ^ 64 ->
  offset = 128 \/ offset = 192 ->
  exists (k : nat) (L : bytes),
    RLP.encodeLength len offset = Buf.byte_of_Z (offset + 55 + Z.of_nat k) :: L
    /\ length L = k /\ (1 <= k <= 8)%nat /\ Buf.to_Z L = Z.of_nat len.
Proof.
  intros Hlen Hbound Hoff. unfold RLP.encodeLength.
  destruct (Nat.ltb_spec len 56); [lia|].
  set (hexLength := Hex.padToEven (EthUtil.toString16 (Z.of_nat len))).
  destruct (padToEven_length (EthUtil.toString16 (Z.of_nat len)))
    as (k & Hk & Hk8); [apply toString16_length; lia|].
  fold hexLength in Hk.
  assert (Z.of_nat (String.length hexLength) / 2 = Z.of_nat k) as ->.
  { rewrite Hk, Nat2Z.inj_mul, Z.mul_comm. now apply Z.div_mul. }
  rewrite (first_byte_text k offset Hk8 Hoff).
  rewrite decode_encode_app. cbn [app].
  exists k, (Hex.decode hexLength).
  destruct (decode_value k hexLength 0 (Z.of_nat len) Hk) as [Hv Hl].
  { unfold hexLength. rewrite padToEven_value by exact 0.
    apply toString16_value. lia. }
  repeat split; try assumption; lia.
Qed.

(** ** The decoder of [ethers] reads back what the encoder of [rlp] wrote *)

Lemma byte_to_of_Z_small (z : Z) :
  0 <= z < 256 -> Buf.byte_to_Z (Buf.byte_of_Z z) = z.
Proof. intros H. rewrite byte_to_of_Z. now apply Z.mod_small. Qed.

Lemma decode_step (fuel : nat) (b0 : byte) (rest : bytes) :
  Ethers._decode (S fuel) (b0 :: rest) =
  let n := Buf.byte_to_Z b0 in
  if 0xf8 <=? n then
    let lengthLength := Z.to_nat (n - 0xf7) in
    if Nat.ltb (length rest) lengthLength then Throw "too short"
    else
      let len := Z.to_nat (Buf.to_Z (take lengthLength rest)) in
      if Nat.ltb (length rest) (lengthLength + len) then Throw "to short"
      else
        (items <- Ethers._decodeChildren fuel (drop lengthLength rest) len ;;
         Ret (Ethers.RArr items, 1 + lengthLength + len)%nat)%oc
  else if 0xc0 <=? n then
    let len := Z.to_nat (n - 0xc0) in
    if Nat.ltb (length rest) len then Throw "invalid rlp data"
    else
      (items <- Ethers._decodeChildren fuel rest len ;;
       Ret (Ethers.RArr items, 1 + len)%nat)%oc
  else if 0xb8 <=? n then
    let lengthLength := Z.to_nat (n - 0xb7) in
    if Nat.ltb (length rest) lengthLength then Throw "invalid rlp data"
    else
      let len := Z.to_nat (Buf.to_Z (take lengthLength rest)) in
      if Nat.ltb (length rest) (lengthLength + len)
      then Throw "invalid rlp data"
      else Ret (Ethers.RStr (Ethers.hexlify (take len (drop lengthLength rest))),
                1 + lengthLength + len)%nat
  else if 0x80 <=? n then
    let len := Z.to_nat (n - 0x80) in
    if Nat.ltb (length rest) len then Throw "invalid rlp data"
    else Ret (Ethers.RStr (Ethers.hexlify (take len rest)), 1 + len)%nat
  else Ret (Ethers.RStr (Ethers.hexlify [b0]), 1%nat).
Proof. reflexivity. Qed.

Lemma decodeChildren_done (fuel : nat) (data : bytes) :
  Ethers._decodeChildren fuel data 0 = Ret [].
Proof. destruct fuel; reflexivity. Qed.

Lemma decodeChildren_step (fuel : nat) (data : bytes) (remaining : nat) :
  Ethers._decodeChildren (S fuel) data (S remaining) =
  ('(v, consumed) <- Ethers._decode fuel data ;;
   if Nat.ltb (S remaining) consumed then Throw "invalid rlp"
   else
     rest <- Ethers._decodeChildren fuel (drop consumed data) (S remaining - consumed) ;;
     Ret (v :: rest))%oc.
Proof. reflexivity. Qed.

(** An item behind its length prefix. *)
Lemma decode_prefixed (fuel : nat) (b rest : bytes) :
  Z.of_nat (length b) < 2 ^ 64 ->
  Ethers._decode (S fuel) (RLP.encodeLength (length b) 128 ++ b ++ rest)
  = Ret (Ethers.RStr (Ethers.hexlify b),
         length (RLP.encodeLength (length b) 128 ++ b)).
Proof.
  intros Hb. destruct (Nat.lt_ge_cases (length b) 56) as [Hs | Hl].
  - rewrite encodeLength_short by exact Hs. cbn [app].
    rewrite decode_step. cbv zeta.
    rewrite byte_to_of_Z_small by lia.
    destruct (Z.leb_spec 0xf8 (Z.of_nat (length b) + 128)); [lia|].
    destruct (Z.leb_spec 0xc0 (Z.of_nat (length b) + 128)); [lia|].
    destruct (Z.leb_spec 0xb8 (Z.of_nat (length b) + 128)); [lia|].
    destruct (Z.leb_spec 0x80 (Z.of_nat (length b) + 128)); [|lia].
    replace (Z.to_nat (Z.of_nat (length b) + 128 - 128)) with (length b) by lia.
    destruct (Nat.ltb_spec (length (b ++ rest)) (length b));
      [rewrite length_app in *; lia|].
    rewrite take_app_length. reflexivity.
  - destruct (encodeLength_long (length b) 128 Hl Hb (or_introl eq_refl))
      as (k & L & -> & HL & Hk & Hv).
    cbn [app]. rewrite decode_step. cbv zeta.
    rewrite byte_to_of_Z_small by lia.
    destruct (Z.leb_spec 0xf8 (128 + 55 + Z.of_nat k)); [lia|].
    destruct (Z.leb_spec 0xc0 (128 + 55 + Z.of_nat k)); [lia|].
    destruct (Z.leb_spec 0xb8 (128 + 55 + Z.of_nat k)); [|lia].
    replace (Z.to_nat (128 + 55 + Z.of_nat k - 183)) with k by lia.
    rewrite (take_app_length' L (b ++ rest) k) by now symmetry.
    rewrite (drop_app_length' L (b ++ rest) k) by now symmetry.
    rewrite Hv, Nat2Z.id.
    destruct (Nat.ltb_spec (length (L ++ b ++ rest)) k);
      [rewrite !length_app in *; lia|].
    destruct (Nat.ltb_spec (length (L ++ b ++ rest)) (k + length b));
      [rewrite !length_app in *; lia|].
    rewrite take_app_length. cbn [length]. rewrite length_app, HL.
    reflexivity.
Qed.

(** One byte string read back, with the bytes it took. *)
Lemma decode_encode_buffer (fuel : nat) (b rest : bytes) :
  Z.of_nat (length b) < 2 ^ 64 ->
  Ethers._decode (S fuel) (RLP.encode_buffer b ++ rest)
  = Ret (Ethers.RStr (Ethers.hexlify b), length (RLP.encode_buffer b)).
Proof.
  intros Hb. unfold RLP.encode_buffer.
  destruct b as [|x [|y b]].
  - apply (decode_prefixed fuel [] rest Hb).
  - destruct (Z.ltb_spec (Buf.byte_to_Z x) 128) as [Hx | Hx].
    + cbn [app]. rewrite decode_step. cbv zeta.
      pose proof (byte_to_Z_range x).
      destruct (Z.leb_spec 0xf8 (Buf.byte_to_Z x)); [lia|].
      destruct (Z.leb_spec 0xc0 (Buf.byte_to_Z x)); [lia|].
      destruct (Z.leb_spec 0xb8 (Buf.byte_to_Z x)); [lia|].
      destruct (Z.leb_spec 0x80 (Buf.byte_to_Z x)); [lia|].
      reflexivity.
    + rewrite <- app_assoc. apply (decode_prefixed fuel [x] rest Hb).
  - rewrite <- app_assoc. apply (decode_prefixed fuel (x :: y :: b) rest Hb).
Qed.

Lemma encodeLength_nonempty (n : nat) (off : Z) :
  Z.of_nat n < 2 ^ 64 -> off = 128 \/ off = 192 ->
  (1 <= length (RLP.encodeLength n off))%nat.
Proof.
  intros Hn Hoff. destruct (Nat.lt_ge_cases n 56) as [Hs | Hl].
  - rewrite encodeLength_short by exact Hs. cbn. lia.
  - destruct (encodeLength_long n off Hl Hn Hoff) as (k & L & -> & _).
    cbn. lia.
Qed.

Lemma encode_buffer_nonempty (b : bytes) :
  Z.of_nat (length b) < 2 ^ 64 -> (1 <= length (RLP.encode_buffer b))%nat.
Proof.
  intros Hb. unfold RLP.encode_buffer.
  destruct b as [|x [|y b]].
  - rewrite length_app. cbn [length]. 
    pose proof (encodeLength_nonempty 0 128 Hb (or_introl eq_refl)). lia.
  - destruct (_ <? _); [cbn; lia|]. rewrite length_app. cbn [length]. lia.
  - rewrite length_app. cbn [length]. lia.
Qed.

Lemma encode_buffer_length_ge (b : bytes) :
  (length b <= length (RLP.encode_buffer b))%nat.
Proof.
  unfold RLP.encode_buffer. destruct b as [|x [|y b]].
  - cbn. lia.
  - destruct (_ <? _); [cbn; lia|]. rewrite length_app. cbn. lia.
  - rewrite length_app. lia.
Qed.

Lemma decodeChildren_more (fuel : nat) (data : bytes) (remaining : nat) :
  remaining <> 0%nat ->
  Ethers._decodeChildren (S fuel) data remaining =
  ('(v, consumed) <- Ethers._decode fuel data ;;
   if Nat.ltb remaining consumed then Throw "invalid rlp"
   else
     rest <- Ethers._decodeChildren fuel (drop consumed data) (remaining - consumed) ;;
     Ret (v :: rest))%oc.
Proof. destruct remaining; [congruence | reflexivity]. Qed.

Lemma payload_bounds (items : list bytes) :
  Z.of_nat (length (concat (map RLP.encode_buffer items))) < 2 ^ 64 ->
  Forall (fun b => Z.of_nat (length b) < 2 ^ 64) items /\
  (length items <= length (concat (map RLP.encode_buffer items)))%nat.
Proof.
  induction items as [|b items IH]; intros H.
  - split; [constructor | cbn; lia].
  - cbn [map concat] in *. rewrite length_app in *.
    pose proof (encode_buffer_length_ge b) as Hge.
    assert (Hb : Z.of_nat (length b) < 2 ^ 64) by lia.
    pose proof (encode_buffer_nonempty b Hb).
    destruct IH as [IH1 IH2]; [lia|].
    split; [constructor; assumption | cbn [length]; lia].
Qed.

(** The items of a list are read back one after the other. *)
Lemma decodeChildren_encode (items : list bytes) :
  forall (fuel : nat) (rest : bytes),
  Forall (fun b => Z.of_nat (length b) < 2 ^ 64) items ->
  (length items + 1 <= fuel)%nat ->
  Ethers._decodeChildren fuel (concat (map RLP.encode_buffer items) ++ rest)
    (length (concat (map RLP.encode_buffer items)))
  = Ret (map (fun b => Ethers.RStr (Ethers.hexlify b)) items).
Proof.
  induction items as [|b items IH]; intros fuel rest Hall Hfuel.
  - apply decodeChildren_done.
  - inversion Hall as [|? ? Hb Hall']; subst.
    cbn [map concat length] in *.
    destruct fuel as [|[|fuel]]; [lia | lia |].
    pose proof (encode_buffer_nonempty b Hb) as Hne.
    rewrite decodeChildren_more by (rewrite length_app; lia).
    rewrite <- app_assoc, decode_encode_buffer by exact Hb.
    cbn [obind]. rewrite length_app.
    destruct (Nat.ltb_spec (length (RLP.encode_buffer b) +
                            length (concat (map RLP.encode_buffer items)))
                           (length (RLP.encode_buffer b))); [lia|].
    rewrite drop_app_length.
    replace (length (RLP.encode_buffer b) +
             length (concat (map RLP.encode_buffer items)) -
             length (RLP.encode_buffer b))%nat
      with (length (concat (map RLP.encode_buffer items))) by lia.
    rewrite IH by (assumption || lia). reflexivity.
Qed.

Lemma decodeChildren_encode_all (items : list bytes) (fuel : nat) :
  Forall (fun b => Z.of_nat (length b) < 2 ^ 64) items ->
  (length items + 1 <= fuel)%nat ->
  Ethers._decodeChildren fuel (concat (map RLP.encode_buffer items))
    (length (concat (map RLP.encode_buffer items)))
  = Ret (map (fun b => Ethers.RStr (Ethers.hexlify b)) items).
Proof.
  intros Hall Hfuel.
  pose proof (decodeChildren_encode items fuel [] Hall Hfuel) as H.
  rewrite app_nil_r in H. exact H.
Qed.

Lemma map_encode_item_buffers (items : list bytes) :
  map RLP.encode_item (map JBuf items) = map RLP.encode_buffer items.
Proof. rewrite map_map. reflexivity. Qed.

(** A list of byte strings, encoded and decoded again. *)
Lemma decode_encode_buffers (items : list bytes) :
  Z.of_nat (length (RLP.encode (map JBuf items))) < 2 ^ 64 ->
  Ethers.decode (RLP.encode (map JBuf items))
  = Ret (Ethers.RArr (map (fun b => Ethers.RStr (Ethers.hexlify b)) items)).
Proof.
  unfold RLP.encode. cbv zeta. rewrite map_encode_item_buffers.
  set (buf := concat (map RLP.encode_buffer items)).
  intros Hlen. rewrite length_app in Hlen.
  assert (Hbuf : Z.of_nat (length buf) < 2 ^ 64) by lia.
  destruct (payload_bounds items Hbuf) as [Hall Hcount]. fold buf in Hcount.
  unfold Ethers.decode.
  destruct (Nat.lt_ge_cases (length buf) 56) as [Hs | Hl].
  - rewrite encodeLength_short by exact Hs. cbn [app length].
    replace (2 * S (length buf) + 2)%nat with (S (2 * length buf + 3)) by lia.
    rewrite decode_step. cbv zeta.
    rewrite byte_to_of_Z_small by lia.
    destruct (Z.leb_spec 0xf8 (Z.of_nat (length buf) + 192)); [lia|].
    destruct (Z.leb_spec 0xc0 (Z.of_nat (length buf) + 192)); [|lia].
    replace (Z.to_nat (Z.of_nat (length buf) + 192 - 192)) with (length buf) by lia.
    rewrite Nat.ltb_irrefl.
    rewrite (decodeChildren_encode_all items _ Hall) by (fold buf; lia).
    cbn [obind]. rewrite Nat.eqb_refl. reflexivity.
  - destruct (encodeLength_long (length buf) 192 Hl Hbuf (or_intror eq_refl))
      as (k & L & -> & HL & Hk & Hv).
    cbn [app length]. rewrite length_app.
    replace (2 * S (length L + length buf) + 2)%nat
      with (S (2 * (length L + length buf) + 3)) by lia.
    rewrite decode_step. cbv zeta.
    rewrite byte_to_of_Z_small by lia.
    destruct (Z.leb_spec 0xf8 (192 + 55 + Z.of_nat k)); [|lia].
    replace (Z.to_nat (192 + 55 + Z.of_nat k - 247)) with k by lia.
    rewrite (take_app_length' L buf k) by now symmetry.
    rewrite (drop_app_length' L buf k) by now symmetry.
    rewrite Hv, Nat2Z.id, length_app, HL.
    destruct (Nat.ltb_spec (k + length buf) k); [lia|].
    rewrite Nat.ltb_irrefl.
    rewrite (decodeChildren_encode_all items _ Hall) by (fold buf; lia).
    cbn [obind]. 
    cbn [Nat.add]. rewrite Nat.eqb_refl. reflexivity.
Qed.

(** X1.  [RLP.decode], the first step of [decodeTx], reads back what
    [serialize] wrote: for a record whose serialization is shorter than
    2^64 bytes it returns the list of the raw fields, each as its
    hexadecimal text, in order. *)
Theorem serialize_decode (tx : Transaction) :
  Z.of_nat (length (serialize tx)) < 2 ^ 64 ->
  Ethers.decode (serialize tx)
  = Ret (Ethers.RArr (map (fun b => Ethers.RStr (Ethers.hexlify b)) (raw tx))).
Proof. apply decode_encode_buffers. Qed.

(** ** The two spellings of an address *)

Lemma HexToAOA_cases (s : string) :
  (exists rest, s = String "0" (String "x" rest) /\ HexToAOA s = "AOA" +:+ rest)
  \/ (HexToAOA s = s /\ Hex.isHexPrefixed s = false).
Proof.
  destruct s as [|c1 s]; [right; split; reflexivity|].
  destruct (ascii_dec c1 "0") as [-> | H1].
  - destruct s as [|c2 s]; [right; split; reflexivity|].
    destruct (ascii_dec c2 "x") as [-> | H2].
    + left. exists s. split; reflexivity.
    + right. destruct c2 as [[] [] [] [] [] [] [] []];
        try (split; reflexivity). congruence.
  - right. destruct c1 as [[] [] [] [] [] [] [] []];
      try (split; reflexivity). congruence.
Qed.

Lemma AOAtoHex_cases (s : string) :
  (exists rest, s = String "A" (String "O" (String "A" rest))
                /\ AOAtoHex s = "0x" +:+ rest)
  \/ (AOAtoHex s = s /\ String.prefix "AOA" s = false).
Proof.
  destruct s as [|c1 s]; [right; split; reflexivity|].
  destruct (ascii_dec c1 "A") as [-> | H1].
  - destruct s as [|c2 s]; [right; split; reflexivity|].
    destruct (ascii_dec c2 "O") as [-> | H2].
    + destruct s as [|c3 s]; [right; split; reflexivity|].
      destruct (ascii_dec c3 "A") as [-> | H3].
      * left. exists s. split; reflexivity.
      * right. destruct c3 as [[] [] [] [] [] [] [] []];
          try (split; reflexivity). congruence.
    + right. destruct c2 as [[] [] [] [] [] [] [] []];
        try (split; reflexivity). congruence.
  - right. destruct c1 as [[] [] [] [] [] [] [] []];
      try (split; reflexivity). congruence.
Qed.

(** X2.  [AOAtoHex] undoes [HexToAOA] on every text that does not itself
    begin with [AOA], and not on the others. *)
Theorem AOAtoHex_HexToAOA (s : string) :
  AOAtoHex (HexToAOA s) = s <-> String.prefix "AOA" s = false.
Proof.
  destruct (HexToAOA_cases s) as [(rest & -> & ->) | [-> Hp]].
  - split; reflexivity.
  - destruct (AOAtoHex_cases s) as [(rest & -> & ->) | [-> Hq]].
    + cbn. destruct rest; split; discriminate.
    + split; [intros _; exact Hq | reflexivity].
Qed.

(** X3.  [HexToAOA] undoes [AOAtoHex] on every text that does not itself
    begin with [0x], and not on the others. *)
Theorem HexToAOA_AOAtoHex (s : string) :
  HexToAOA (AOAtoHex s) = s <-> Hex.isHexPrefixed s = false.
Proof.
  destruct (AOAtoHex_cases s) as [(rest & -> & ->) | [-> Hp]].
  - split; reflexivity.
  - destruct (HexToAOA_cases s) as [(rest & -> & ->) | [-> Hq]].
    + cbn. split; discriminate.
    + split; [intros _; exact Hq | reflexivity].
Qed.

(** ** [hexToString] *)

Lemma fromCharCode_digits (h l : Z) :
  0 <= h < 16 -> 0 <= l < 16 ->
  fromCharCode (Hex.digit h) (Some (Hex.digit l))
  = ascii_of_nat (Z.to_nat (16 * h + l)).
Proof.
  intros Hh Hl. unfold fromCharCode. now rewrite !hex_value_digit.
Qed.

Lemma hexToString_encode (b : bytes) :
  hexToString (Hex.encode b)
  = string_of_list_ascii
      (map (fun x => ascii_of_nat (Z.to_nat (Buf.byte_to_Z x))) b).
Proof.
  induction b as [|x b IH]; [reflexivity|].
  cbn [Hex.encode hexToString map string_of_list_ascii].
  pose proof (byte_to_Z_range x) as Hx.
  rewrite fromCharCode_digits
    by (split; [apply Z.div_pos || apply Z.mod_pos_bound
               | apply Z.div_lt_upper_bound || apply Z.mod_pos_bound]; lia).
  rewrite IH. do 3 f_equal.
  pose proof (Z.div_mod (Buf.byte_to_Z x) 16 ltac:(lia)). lia.
Qed.

(** X4.  On the text [hexlify] gives for a byte string, [hexToString]
    returns one character per byte, the character whose code is the
    byte, behind one leading character of code 0: the pair [0x] of the
    prefix is converted like the pairs of digits, and is not a number. *)
Theorem hexToString_hexlify (b : bytes) :
  hexToString (Ethers.hexlify b)
  = String Ascii.zero
      (string_of_list_ascii
         (map (fun x => ascii_of_nat (Z.to_nat (Buf.byte_to_Z x))) b)).
Proof.
  unfold Ethers.hexlify.
  change ("0x" +:+ Hex.encode b) with (String "0" (String "x" (Hex.encode b))).
  cbn [hexToString]. rewrite hexToString_encode. reflexivity.
Qed.

(** ** What [verifySignature] accepts, and what it leaves behind *)

Section VerificationExtras.
Context {curve : Secp256k1}.

(** X5.  [verifySignature] returns [true] only for a record whose [v]
    is 37 or 38 (the values [sign] stores for chain id 1) and, in a
    homestead record, whose [s] is at most half the curve order; the
    record then holds the recovered key, chain id 1 and the same raw
    fields. *)
Theorem verifySignature_true_only (tx tx' : Transaction) :
  verifySignature tx = (Ret true, tx') ->
  exists v k,
    EthUtil.bufferToInt (get "v" tx) = Ret v
    /\ (v = 37 \/ v = 38)
    /\ (_homestead tx = true -> EthUtil.BN (get "s" tx) <= N_DIV_2)
    /\ ecrecover (rlphash (verify_items (set_chainId 1 tx))) (v - 10)
                 (get "r" tx) (get "s" tx) = Ret k
    /\ tx' = set_senderPubKey k (set_chainId 1 tx).
Proof.
  rewrite verifySignature_run. cbv zeta.
  destruct (_homestead tx && (N_DIV_2 <? EthUtil.BN (get "s" tx))) eqn:Hs;
    [discriminate|].
  destruct (EthUtil.bufferToInt (get "v" tx)) as [v|e]; [|discriminate].
  destruct (ecrecover _ (v - 10) _ _) as [k|e] eqn:Hk; [|discriminate].
  intros [= <-]. exists v, k.
  split; [reflexivity|]. split; [|split; [|split; [exact Hk | reflexivity]]].
  - unfold ecrecover in Hk. cbv zeta in Hk.
    destruct (Z.eqb_spec (v - 10 - 27) 0); [left; lia|].
    destruct (Z.eqb_spec (v - 10 - 27) 1); [right; lia|].
    discriminate Hk.
  - intros Hh. rewrite Hh in Hs. cbn [andb] in Hs.
    destruct (Z.ltb_spec N_DIV_2 (EthUtil.BN (get "s" tx))); [discriminate | lia].
Qed.

(** X6.  A second [verifySignature] changes nothing: it returns what the
    first call returned and leaves the record as the first call left
    it. *)
Theorem verifySignature_again (tx : Transaction) :
  verifySignature (verifySignature tx).2 = verifySignature tx.
Proof.
  rewrite (verifySignature_run tx). cbv zeta.
  destruct (_homestead tx && (N_DIV_2 <? EthUtil.BN (get "s" tx))) eqn:Hs.
  { cbn [snd]. rewrite verifySignature_run. cbv zeta.
    change (_homestead (set_chainId 1 tx)) with (_homestead tx).
    change (get "s" (set_chainId 1 tx)) with (get "s" tx).
    now rewrite Hs. }
  destruct (EthUtil.bufferToInt (get "v" tx)) as [v|e] eqn:Hv.
  2:{ cbn [snd]. rewrite verifySignature_run. cbv zeta.
      change (_homestead (set_chainId 1 tx)) with (_homestead tx).
      change (get "s" (set_chainId 1 tx)) with (get "s" tx).
      change (get "v" (set_chainId 1 tx)) with (get "v" tx).
      now rewrite Hs, Hv. }
  destruct (ecrecover _ (v - 10) _ _) as [k|e] eqn:Hk.
  - cbn [snd]. rewrite verifySignature_run. cbv zeta.
    set (t := set_senderPubKey k (set_chainId 1 tx)).
    change (_homestead t) with (_homestead tx).
    change (get "s" t) with (get "s" tx).
    change (get "v" t) with (get "v" tx).
    change (get "r" t) with (get "r" tx).
    change (verify_items (set_chainId 1 t)) with (verify_items (set_chainId 1 tx)).
    now rewrite Hs, Hv, Hk.
  - cbn [snd]. rewrite verifySignature_run. cbv zeta.
    set (t := set_chainId 1 tx).
    change (_homestead t) with (_homestead tx).
    change (get "s" t) with (get "s" tx).
    change (get "v" t) with (get "v" tx).
    change (get "r" t) with (get "r" tx).
    change (verify_items (set_chainId 1 t)) with (verify_items (set_chainId 1 tx)).
    now rewrite Hs, Hv, Hk.
Qed.

Lemma publicToAddress_length (k : jsval) (a : bytes) :
  publicToAddress k = Ret a -> length a = 20%nat.
Proof.
  unfold publicToAddress, assert. cbv zeta.
  destruct (Nat.eqb _ 64); [|discriminate].
  cbn [obind]. intros [= <-].
  unfold Buf.last_n. rewrite length_drop, keccak256_length. reflexivity.
Qed.

(** X7.  The address [getSenderAddress] returns is cached: the next call
    returns the same address and changes nothing.  An address that was
    recovered, not read from the cache, has 20 bytes. *)
Theorem getSenderAddress_cached (tx tx' : Transaction) (a : bytes) :
  getSenderAddress tx = (Ret a, tx') ->
  getSenderAddress tx' = (Ret a, tx')
  /\ (_from tx = None -> length a = 20%nat).
Proof.
  intros H.
  assert (_from tx' = Some a /\ (_from tx = None -> length a = 20%nat)) as [Hf Hl].
  { rewrite getSenderAddress_run in H. cbv zeta in H.
    destruct (_from tx) as [a0|] eqn:Hfrom.
    - injection H as -> ->. split; [exact Hfrom | discriminate].
    - destruct (sender_cached tx).
      + destruct (publicToAddress _) as [a1|e] eqn:Ha; [|discriminate].
        injection H as -> <-. split; [reflexivity|].
        intros _. exact (publicToAddress_length _ _ Ha).
      + destruct (verifySignature tx) as [[[]|e] t]; try discriminate.
        destruct (publicToAddress _) as [a1|e] eqn:Ha; [|discriminate].
        injection H as -> <-. split; [reflexivity|].
        intros _. exact (publicToAddress_length _ _ Ha). }
  split; [|exact Hl].
  rewrite getSenderAddress_run. cbv zeta. now rewrite Hf.
Qed.

End VerificationExtras.

(** ** Fees *)

Lemma data_fee_fold (zero nonzero : Z) (data : bytes) (acc : Z) :
  fold_left (fun cost x => if decide (x = Byte.x00) then cost + zero
                           else cost + nonzero) data acc
  = acc + zero * Z.of_nat (length (filter (fun x => x = Byte.x00) data))
        + nonzero * Z.of_nat (length (filter (fun x => x <> Byte.x00) data)).
Proof.
  revert acc. induction data as [|x data IH]; intros acc; [cbn; lia|].
  cbn [fold_left]. rewrite IH.
  destruct (decide (x = Byte.x00)) as [Hx | Hx].
  - rewrite (filter_cons_True (fun x => x = Byte.x00)) by exact Hx.
    rewrite (filter_cons_False (fun x => x <> Byte.x00))
      by (intros Hn; now apply Hn).
    cbn [length]. lia.
  - rewrite (filter_cons_False (fun x => x = Byte.x00)) by exact Hx.
    rewrite (filter_cons_True (fun x => x <> Byte.x00)) by exact Hx.
    cbn [length]. lia.
Qed.

(** X8.  The base fee of a record is the fee of [txGas], plus the fee of
    [txDataZeroGas] for each zero byte of [data] and of
    [txDataNonZeroGas] for each other byte, plus the fee of [txCreation]
    exactly when [to] is empty. *)
Theorem getBaseFee_formula (fees : FeeTable) (tx : Transaction) (data to : bytes) :
  constructed tx ->
  get "data" tx = JBuf data ->
  get "to" tx = JBuf to ->
  getBaseFee fees tx
  = Ret (txDataZeroGas fees * Z.of_nat (length (filter (fun x => x = Byte.x00) data))
         + txDataNonZeroGas fees * Z.of_nat (length (filter (fun x => x <> Byte.x00) data))
         + txGas fees
         + if bool_decide (to = []) then txCreation fees else 0).
Proof.
  intros (Hlen & Hh & _) Hdata Hto.
  unfold getBaseFee, getDataFee, toCreationAddress. rewrite Hh, Hto.
  destruct_raw tx Hlen.
  vm_compute in Hdata. vm_compute in Hto.
  injection Hdata as ->. injection Hto as ->.
  cbn [raw lookup list_lookup obind].
  rewrite data_fee_fold.
  destruct to as [|x to].
  - rewrite bool_decide_eq_true_2 by reflexivity.
    cbn [Hex.encode String.eqb]. f_equal; lia.
  - rewrite bool_decide_eq_false_2 by discriminate.
    cbn [Hex.encode String.eqb]. f_equal; lia.
Qed.

(** ** The raw fields stay within the bounds of their descriptors *)

Lemma stripZeros_idem (b : bytes) :
  Buf.stripZeros (Buf.stripZeros b) = Buf.stripZeros b.
Proof.
  induction b as [|x b IH]; [reflexivity|].
  cbn [Buf.stripZeros]. destruct (decide (x = Byte.x00)) as [Hx|Hx]; [exact IH|].
  cbn [Buf.stripZeros]. now destruct (decide (x = Byte.x00)).
Qed.

(** What a setter stores is within the bounds of its field. *)
Lemma canonicalize_well_formed (f : Field.t) (v : jsval) (b : bytes) :
  canonicalize f v = Ret b -> well_formed f b.
Proof.
  unfold canonicalize, well_formed, assert. cbv zeta.
  set (v1 := if _ && _ then [] else EthUtil.toBuffer v).
  destruct (truthy_length f) as [n|]; [|now destruct (Field.allowLess f)].
  destruct (Field.allowLess f).
  - destruct (Nat.leb_spec (length (Buf.stripZeros v1)) n); [|discriminate].
    cbn [obind]. intros [= <-]. split; [assumption | apply stripZeros_idem].
  - destruct (Field.allowZero f); cbn [andb negb].
    + destruct (Nat.eqb_spec (length v1) 0) as [H0|H0]; cbn [negb].
      * intros [= <-]. right. split; [reflexivity|]. now destruct v1.
      * destruct (Nat.eqb_spec n (length v1)); [|discriminate].
        cbn [obind]. intros [= <-]. now left.
    + destruct (Nat.eqb_spec n (length v1)); [|discriminate].
      cbn [obind]. intros [= <-]. now left.
Qed.

Lemma encode_is_00 (b : bytes) :
  String.eqb (Hex.encode b) "00" = true -> b = [Byte.x00].
Proof.
  intros H. apply String.eqb_eq in H.
  rewrite <- (hex_decode_encode b), H. reflexivity.
Qed.

(** A value within the bounds of a field of the table is stored as it
    is. *)
Lemma well_formed_canonical (f : Field.t) (b : bytes) :
  f ∈ fields -> well_formed f b -> canonicalize f (JBuf b) = Ret b.
Proof.
  intros Hf Hb.
  assert (Field.allowZero f = true \/
          (Field.allowLess f = true /\ exists n, truthy_length f = Some n)) as Hshape.
  { unfold fields in Hf. cbv zeta beta in Hf.
    repeat (apply elem_of_cons in Hf as [-> | Hf];
            [first [left; reflexivity | right; split; [reflexivity | eexists; reflexivity]]|]).
    now apply elem_of_nil in Hf. }
  unfold canonicalize, well_formed, assert in *. cbv zeta.
  cbn [EthUtil.toBuffer].
  assert ((if String.eqb (Hex.encode b) "00" && negb (Field.allowZero f)
           then [] else b) = b) as ->.
  { destruct (String.eqb (Hex.encode b) "00") eqn:H00; [|reflexivity].
    destruct Hshape as [-> | (Hl & n & Hn)]; [reflexivity|].
    apply encode_is_00 in H00. subst b.
    rewrite Hn, Hl in Hb. destruct Hb as [_ Hb]. discriminate Hb. }
  destruct (truthy_length f) as [n|]; [|now destruct (Field.allowLess f)].
  destruct (Field.allowLess f).
  - destruct Hb as [Hlen ->].
    destruct (Nat.leb_spec (length b) n); [reflexivity | lia].
  - destruct Hb as [Hlen | [-> ->]]; [|reflexivity].
    rewrite <- Hlen, Nat.eqb_refl.
    now destruct (negb _).
Qed.

Lemma default_raw_well_formed : Forall2 well_formed fields default_raw.
Proof.
  unfold fields, default_raw. cbv zeta beta.
  repeat (constructor;
          [unfold well_formed; cbn;
           first [exact I | split; [lia | reflexivity] | right; split; reflexivity]|]).
  constructor.
Qed.

Lemma setter_keeps_well_formed (i : nat) (f : Field.t) (v : jsval) (tx : Transaction) :
  fields !! i = Some f ->
  Forall2 well_formed fields (raw tx) ->
  Forall2 well_formed fields (raw (setter i f v tx).2).
Proof.
  intros Hi Hwf. rewrite setter_run.
  destruct (canonicalize f v) as [b|e] eqn:Hc; [|exact Hwf].
  cbn [snd raw set_raw].
  pose proof (Forall2_length _ _ _ Hwf) as Hlen.
  apply lookup_lt_Some in Hi as Hlt.
  rewrite array_store_insert by lia.
  rewrite <- (list_insert_id fields i f Hi).
  apply Forall2_insert; [exact Hwf|].
  now apply canonicalize_well_formed with v.
Qed.

Lemma set_keeps_well_formed (name : string) (v : jsval) (tx : Transaction) :
  Forall2 well_formed fields (raw tx) ->
  Forall2 well_formed fields (raw (set name v tx).2).
Proof.
  intros Hwf. unfold set.
  destruct (property name) as [[i f]|] eqn:Hp; [|exact Hwf].
  apply property_in_table in Hp as [Hi _].
  now apply setter_keeps_well_formed.
Qed.

Lemma defineProperties_well_formed (data : txdata) (tx : Transaction) :
  Forall2 well_formed fields (raw (defineProperties data tx).2).
Proof.
  unfold defineProperties, mbind at 1. unfold update at 1.
  unfold mbind at 1. rewrite defaults_installed.
  set (P := fun t : Transaction => Forall2 well_formed fields (raw t)).
  assert (P (set_raw default_raw tx)) as H0 by exact default_raw_well_formed.
  destruct data as [props c | items].
  - refine (for_each_invariant P _ fields _ _ H0).
    intros f t _ Ht. unfold mbind.
    assert (forall (o : option jsval) (n : string) (t : Transaction),
              P t -> P ((match o with Some v => set n v | None => mret tt end) t).2) as Hstep.
    { intros o n t0 Ht0. destruct o; [|exact Ht0].
      now apply set_keeps_well_formed. }
    pose proof (Hstep (props !! Field.name f) (Field.name f) t Ht) as H1.
    destruct ((match props !! Field.name f with Some v => set (Field.name f) v | None => mret tt end) t)
      as [[[]|e] t1]; cbn [snd] in *; [|exact H1].
    destruct (Field.alias f) as [a|]; [|exact H1].
    now apply Hstep.
  - destruct (Nat.ltb (length fields) (length items)); [exact H0|].
    refine (for_each_invariant P _ (imap pair items) _ _ H0).
    intros [i d] t _ Ht.
    destruct (fields !! i) as [f|] eqn:Hf; [|exact Ht].
    now apply setter_keeps_well_formed.
Qed.

Lemma new_Transaction_raw (data : option txdata) (tx : Transaction) :
  new_Transaction data = Ret tx ->
  raw tx = raw (defineProperties (default (DataObject ∅ None) data) blank).2.
Proof.
  unfold new_Transaction, constructor.
  set (d := default (DataObject ∅ None) data).
  unfold mbind at 1.
  destruct (defineProperties d blank) as [[[]|e] tx1]; [|discriminate].
  unfold mbind at 1. unfold this at 1. unfold mbind at 1. unfold lift at 1.
  destruct (EthUtil.bufferToInt (get "v" tx1)) as [sigV|e] eqn:Hv; [|discriminate].
  cbn. intros [= <-]. reflexivity.
Qed.

Lemma new_Transaction_bounds (data : option txdata) (tx : Transaction) :
  new_Transaction data = Ret tx -> well_formed_record tx.
Proof.
  intros H. split; [now apply new_Transaction_constructed with data|].
  rewrite (new_Transaction_raw data tx H).
  apply defineProperties_well_formed.
Qed.

(** X9.  Every raw field of a new record is within the bounds of its
    descriptor: [nonce], [gasPrice], [gasLimit], [value], [r] and [s]
    have at most 32 bytes and [action] at most 2, none with a leading
    zero byte; [to] and [asset] are empty or have exactly 20 bytes. *)
Theorem new_Transaction_well_formed (data : option txdata) (tx : Transaction) :
  new_Transaction data = Ret tx -> well_formed_record tx.
Proof.
  intros H. split.
  - apply new_Transaction_inv in H as (v & _ & _ & ? & ? & ? & _).
    now repeat split.
  - rewrite (new_Transaction_raw data tx H).
    apply defineProperties_well_formed.
Qed.

Lemma well_formed_record_set (name : string) (v : jsval) (tx : Transaction) :
  well_formed_record tx -> well_formed_record (set name v tx).2.
Proof.
  intros [Hc Hwf]. split;
    [now apply set_keeps_constructed | now apply set_keeps_well_formed].
Qed.

Lemma well_formed_record_hash (includeSignature : option bool)
      (chainID : option Z) (tx : Transaction) :
  well_formed_record tx ->
  well_formed_record (hash includeSignature chainID tx).2.
Proof.
  intros Hw.
  assert (well_formed_record (hash (Some true) chainID tx).2) as Htrue.
  { rewrite hash_with_signature_run. cbv zeta. cbn [snd].
    destruct (negb _); [|exact Hw].
    pose proof (well_formed_record_set "v" (JNum (default 0 chainID)) tx Hw) as H.
    now rewrite set_v_run in H. }
  destruct includeSignature as [[]|]; [exact Htrue | | exact Htrue].
  destruct (Z.ltb_spec 0 (_chainId tx)).
  - now rewrite hash_unsigned_run.
  - now rewrite hash_legacy_run by lia.
Qed.

Section InvariantExtras.
Context {curve : Secp256k1}.

Lemma well_formed_record_verifySignature (tx : Transaction) :
  well_formed_record tx -> well_formed_record (verifySignature tx).2.
Proof.
  intros [Hc Hwf]. split; [now apply verifySignature_keeps_constructed|].
  now rewrite (proj1 (verifySignature_frame tx)).
Qed.

(** X10.  Every method keeps a record within the bounds of its field
    descriptors, with sixteen raw fields: [sign], [hash],
    [verifySignature], [getSenderAddress] and [validate], whether they
    return or throw. *)
Theorem methods_keep_well_formed (fees : FeeTable) (privateKey : bytes)
        (chainID : option Z) (includeSignature stringError : option bool)
        (tx : Transaction) :
  well_formed_record tx ->
  well_formed_record (sign privateKey chainID tx).2
  /\ well_formed_record (hash includeSignature chainID tx).2
  /\ well_formed_record (verifySignature tx).2
  /\ well_formed_record (getSenderAddress tx).2
  /\ well_formed_record (validate fees stringError tx).2.
Proof.
  intros Hw.
  pose proof (well_formed_record_verifySignature tx Hw) as Hv.
  split; [|split; [|split; [|split]]].
  - unfold sign.
    apply mbind_keeps; [exact Hw | intros; now apply well_formed_record_hash |].
    intros msgHash t Ht.
    apply mbind_keeps; [exact Ht | now intros |].
    intros sig t1 Ht1.
    apply mbind_keeps; [exact Ht1 | intros; now apply well_formed_record_set |].
    intros _ t2 Ht2.
    apply mbind_keeps; [exact Ht2 | intros; now apply well_formed_record_set |].
    intros _ t3 Ht3. now apply well_formed_record_set.
  - now apply well_formed_record_hash.
  - exact Hv.
  - rewrite getSenderAddress_run. cbv zeta.
    destruct (_from tx); [exact Hw|].
    destruct (sender_cached tx).
    + destruct (publicToAddress _); exact Hw.
    + destruct (verifySignature tx) as [[[]|e] t]; cbn [snd] in *; try exact Hv.
      destruct (publicToAddress _); exact Hv.
  - rewrite validate_run.
    destruct (verifySignature tx) as [[ok|e] t]; cbn [snd] in *; [|exact Hv].
    destruct (getBaseFee fees t); exact Hv.
Qed.

End InvariantExtras.

(** X11.  Assigning a field of a record within its bounds the value the
    field has changes nothing, under the name of the field or under its
    alias. *)
Theorem set_get_same (name : string) (i : nat) (f : Field.t) (tx : Transaction) :
  property name = Some (i, f) ->
  well_formed_record tx -> set name (get name tx) tx = (Ret tt, tx).
Proof.
  intros Hp [(Hlen & _) Hwf]. unfold set, get. rewrite Hp.
  apply property_in_table in Hp as [Hi Hlt].
  destruct (lookup_lt_is_Some_2 (raw tx) i ltac:(lia)) as [b Hb].
  unfold getter. rewrite Hb, setter_run.
  rewrite well_formed_canonical.
  - rewrite array_store_insert by lia.
    now rewrite (list_insert_id _ _ _ Hb), set_raw_same.
  - now apply list_elem_of_lookup_2 with i.
  - exact (Forall2_lookup_lr _ _ _ _ _ _ Hwf Hi Hb).
Qed.

(** ** The constructor on an array of fields *)

Lemma for_each_array_canonical (items : list bytes) :
  forall (k : nat) (t : Transaction),
  length (raw t) = 16%nat ->
  Forall2 well_formed (drop k fields) items ->
  for_each (fun '(i, d) =>
              match fields !! i with
              | Some field => setter i field (JBuf (EthUtil.toBuffer d))
              | None => mret tt
              end)
           (imap (fun i d => ((k + i)%nat, d)) (map JBuf items)) t
  = (Ret tt, set_raw (take k (raw t) ++ items) t).
Proof.
  induction items as [|b items IH]; intros k t Hlen Hwf.
  - apply Forall2_nil_inv_r in Hwf.
    assert (16 <= k)%nat as Hk.
    { destruct (Nat.le_gt_cases 16 k) as [|Hlt]; [assumption|].
      apply (f_equal length) in Hwf. rewrite length_drop in Hwf.
      change (length fields) with 16%nat in Hwf. cbn in Hwf. lia. }
    cbn [map imap for_each]. unfold mret.
    rewrite take_ge by lia. now rewrite app_nil_r, set_raw_same.
  - apply Forall2_cons_inv_r in Hwf as (f & fs & Hf & Hfs & Hdrop).
    assert (fields !! k = Some f /\ drop (S k) fields = fs) as [Hk Hrest].
    { assert (fields !! k = Some f) as Hk.
      { rewrite <- (Nat.add_0_r k), <- lookup_drop, Hdrop. reflexivity. }
      split; [exact Hk|].
      rewrite (drop_S _ _ _ Hk) in Hdrop. congruence. }
    apply lookup_lt_Some in Hk as Hlt. change (length fields) with 16%nat in Hlt.
    cbn [map imap for_each]. unfold mbind at 1.
    rewrite Nat.add_0_r, Hk. cbn [EthUtil.toBuffer]. rewrite setter_run.
    rewrite well_formed_canonical
      by (assumption || now apply list_elem_of_lookup_2 with k).
    rewrite array_store_insert by lia.
    rewrite (imap_ext _ (fun i d => ((S k + i)%nat, d)))
      by (intros; cbn; f_equal; lia).
    rewrite IH; cbn [raw set_raw].
    + rewrite set_raw_twice. f_equal.
      rewrite (take_S_r _ _ b) by (apply list_lookup_insert_eq; lia).
      rewrite take_insert_ge by lia. now rewrite <- app_assoc.
    + rewrite length_insert. exact Hlen.
    + now rewrite Hrest.
Qed.

Lemma first_truthy_derived (v : Z) :
  first_truthy (if (v - 35) / 2 <? 0 then 0 else (v - 35) / 2) None
  = derived_chainId v.
Proof.
  unfold first_truthy, derived_chainId.
  destruct (Z.leb_spec 35 v) as [Hle|Hlt].
  - destruct (Z.ltb_spec ((v - 35) / 2) 0) as [Hneg|_].
    + exfalso. assert (0 <= (v - 35) / 2) by (apply Z.div_pos; lia). lia.
    + destruct (Z.eqb_spec ((v - 35) / 2) 0) as [->|]; reflexivity.
  - destruct (Z.ltb_spec ((v - 35) / 2) 0) as [_|Hpos]; [reflexivity|].
    exfalso. assert ((v - 35) / 2 < 0) by (apply Z.div_lt_upper_bound; lia). lia.
Qed.

(** X12.  A record built from the array of the raw fields of a record
    within its bounds has the same raw fields; its chain id is the one
    derived from [v], and it caches no sender. *)
Theorem new_Transaction_from_raw (tx : Transaction) (v : Z) :
  well_formed_record tx ->
  EthUtil.bufferToInt (get "v" tx) = Ret v ->
  new_Transaction (Some (DataArray (map JBuf (raw tx))))
  = Ret {| raw := raw tx; _chainId := derived_chainId v; _homestead := true;
           _subAddress := JUndef; _from := None; _senderPubKey := None |}.
Proof.
  intros [(Hlen & _) Hwf] Hv.
  unfold new_Transaction, constructor. cbv zeta.
  change (default (DataObject ∅ None) (Some (DataArray (map JBuf (raw tx)))))
    with (DataArray (map JBuf (raw tx))).
  unfold mbind at 1.
  assert (defineProperties (DataArray (map JBuf (raw tx))) blank
          = (Ret tt, set_raw (raw tx) blank)) as ->.
  { unfold defineProperties, mbind at 1. unfold update at 1.
    unfold mbind at 1. rewrite defaults_installed.
    rewrite length_map, Hlen. change (Nat.ltb (length fields) 16) with false.
    cbv iota.
    pose proof (for_each_array_canonical (raw tx) 0 (set_raw default_raw blank)
                  eq_refl Hwf) as Hfe.
    change (imap _ (map JBuf (raw tx))) with (imap pair (map JBuf (raw tx))) in Hfe.
    rewrite Hfe. reflexivity. }
  unfold mbind at 1. unfold this at 1. unfold mbind at 1. unfold lift at 1.
  rewrite (get_raw "v" (set_raw (raw tx) blank) tx eq_refl), Hv.
  cbn. now rewrite first_truthy_derived.
Qed.

(** X13.  An array of more than sixteen items is rejected by the
    constructor, with the message of [defineProperties]. *)
Theorem new_Transaction_too_many_fields (items : list jsval) :
  (16 < length items)%nat ->
  new_Transaction (Some (DataArray items))
  = Throw "wrong number of fields in data".
Proof.
  intros H. unfold new_Transaction, constructor. cbv zeta.
  change (default (DataObject ∅ None) (Some (DataArray items)))
    with (DataArray items).
  unfold mbind at 1.
  unfold defineProperties, mbind at 1. unfold update at 1.
  unfold mbind at 1. rewrite defaults_installed.
  change (length fields) with 16%nat.
  destruct (Nat.ltb_spec 16 (length items)); [reflexivity | lia].
Qed.

Lemma for_each_throws {A} (f : A -> M unit) (l : list A) (a : A) :
  a ∈ l ->
  (forall t, exists e, (f a t).1 = Throw e) ->
  forall t, exists e, (for_each f l t).1 = Throw e.
Proof.
  intros Ha Hf. induction l as [|a0 l IH]; intros t.
  - now apply elem_of_nil in Ha.
  - cbn [for_each]. unfold mbind.
    apply elem_of_cons in Ha as [<- | Ha].
    + destruct (Hf t) as [e He]. destruct (f a t) as [[[]|e'] t1];
        cbn [fst] in *; [discriminate | now exists e'].
    + destruct (f a0 t) as [[[]|e'] t1]; [now apply IH | now exists e'].
Qed.

Lemma property_of_name (f : Field.t) :
  f ∈ fields -> exists i, property (Field.name f) = Some (i, f).
Proof.
  intros Hf. unfold fields in Hf. cbv zeta beta in Hf.
  repeat (apply elem_of_cons in Hf as [-> | Hf]; [eexists; vm_compute; reflexivity|]).
  now apply elem_of_nil in Hf.
Qed.

(** X14.  The constructor throws when the object it is given holds, under
    the name of a field, a value that the setter of the field rejects:
    one longer than the field allows, or, for [to] and [asset], of a
    length other than 0 and 20. *)
Theorem new_Transaction_rejects (props : gmap string jsval) (chainId : option Z)
        (i : nat) (f : Field.t) (v : jsval) (msg : string) :
  fields !! i = Some f ->
  props !! Field.name f = Some v ->
  canonicalize f v = Throw msg ->
  exists e, new_Transaction (Some (DataObject props chainId)) = Throw e.
Proof.
  intros Hi Hv Hc. apply list_elem_of_lookup_2 in Hi as Hf.
  unfold new_Transaction, constructor. cbv zeta.
  change (default (DataObject ∅ None) (Some (DataObject props chainId)))
    with (DataObject props chainId).
  unfold mbind at 1.
  assert (exists e, (defineProperties (DataObject props chainId) blank).1 = Throw e)
    as [e He].
  { unfold defineProperties, mbind at 1. unfold update at 1.
    unfold mbind at 1. rewrite defaults_installed.
    refine (for_each_throws _ fields f Hf _ _).
    intros t. unfold mbind at 1. rewrite Hv. unfold set.
    destruct (property_of_name f Hf) as [j ->].
    rewrite setter_run, Hc. now exists msg. }
  destruct (defineProperties (DataObject props chainId) blank) as [[[]|e'] t];
    cbn [fst] in He; [discriminate|].
  now exists e'.
Qed.

(** ** What [sign] touches *)

Section SignExtras.
Context {curve : Secp256k1}.

Lemma set_signature_field_frame (name : string) (i : nat) (f : Field.t)
      (v : jsval) (tx0 tx : Transaction) :
  property name = Some (i, f) -> (13 <= i)%nat ->
  length (raw tx) = 16%nat /\ take 13 (raw tx) = take 13 (raw tx0)
  /\ same_caches tx0 tx ->
  length (raw (set name v tx).2) = 16%nat
  /\ take 13 (raw (set name v tx).2) = take 13 (raw tx0)
  /\ same_caches tx0 (set name v tx).2.
Proof.
  intros Hp Hi (Hlen & Htake & Hc).
  destruct (set_frame name v tx Hlen) as [Hlen' Hc'].
  split; [exact Hlen'|]. split; [|eapply same_caches_trans; eassumption].
  unfold set. rewrite Hp, setter_run.
  destruct (canonicalize f v); cbn [snd raw set_raw]; [|exact Htake].
  apply property_in_table in Hp as [_ Hlt].
  rewrite array_store_insert by lia.
  now rewrite take_insert_ge by lia.
Qed.

Lemma sign_frame (privateKey : bytes) (chainID : option Z) (tx : Transaction) :
  length (raw tx) = 16%nat ->
  length (raw (sign privateKey chainID tx).2) = 16%nat
  /\ take 13 (raw (sign privateKey chainID tx).2) = take 13 (raw tx)
  /\ same_caches tx (sign privateKey chainID tx).2.
Proof.
  intros Hlen.
  set (P := fun t : Transaction =>
              length (raw t) = 16%nat /\ take 13 (raw t) = take 13 (raw tx)
              /\ same_caches tx t).
  assert (P tx) as H0 by (repeat split; assumption).
  assert (forall name i f v t, property name = Some (i, f) -> (13 <= i)%nat ->
                               P t -> P (set name v t).2) as Hset.
  { intros name i f v t Hp Hi Ht.
    exact (set_signature_field_frame name i f v tx t Hp Hi Ht). }
  change (P (sign privateKey chainID tx).2). unfold sign.
  apply mbind_keeps; [exact H0 | |].
  { intros t Ht. rewrite hash_with_signature_run. cbv zeta. cbn [snd].
    destruct (negb _); [|exact Ht].
    pose proof (Hset "v"%string 13%nat _ (JNum (default 0 chainID)) t
                  eq_refl (le_n _) Ht) as H.
    now rewrite set_v_run in H. }
  intros msgHash t Ht.
  apply mbind_keeps; [exact Ht | now intros |].
  intros sig t1 Ht1.
  apply mbind_keeps; [exact Ht1 | |].
  { intros t2 Ht2. refine (Hset "r"%string 14%nat _ _ t2 eq_refl _ Ht2). lia. }
  intros _ t2 Ht2.
  apply mbind_keeps; [exact Ht2 | |].
  { intros t3 Ht3. refine (Hset "s"%string 15%nat _ _ t3 eq_refl _ Ht3). lia. }
  intros _ t3 Ht3.
  refine (Hset "v"%string 13%nat _ _ t3 eq_refl _ Ht3). lia.
Qed.

(** X15.  [sign] writes to [v], [r] and [s] only: the other thirteen raw
    fields, the chain id and the cached sender and public key are as
    before, whether it returns or throws. *)
Theorem sign_touches_signature_only (privateKey : bytes) (chainID : option Z)
        (tx : Transaction) :
  constructed tx ->
  take 13 (raw (sign privateKey chainID tx).2) = take 13 (raw tx)
  /\ length (raw (sign privateKey chainID tx).2) = 16%nat
  /\ same_caches tx (sign privateKey chainID tx).2.
Proof.
  intros (Hlen & _).
  destruct (sign_frame privateKey chainID tx Hlen) as (H1 & H2 & H3).
  split; [exact H2 | split; [exact H1 | exact H3]].
Qed.

(** X16.  [sign] does not clear the cached sender: on a record that has
    answered [getSenderAddress] once, the call after a new [sign], with
    whatever key, still returns the address cached before. *)
Theorem sign_keeps_cached_sender (privateKey : bytes) (chainID : option Z)
        (tx : Transaction) (a : bytes) :
  constructed tx ->
  _from tx = Some a ->
  (getSenderAddress (sign privateKey chainID tx).2).1 = Ret a.
Proof.
  intros (Hlen & _) Hfrom.
  destruct (sign_frame privateKey chainID tx Hlen) as (_ & _ & Hc).
  destruct Hc as (_ & _ & _ & Hf & _).
  rewrite getSenderAddress_run. cbv zeta. now rewrite Hf, Hfrom.
Qed.

Lemma lookup_take13 (i : nat) (a b : list bytes) :
  (i < 13)%nat -> take 13 a = take 13 b -> a !! i = b !! i.
Proof.
  intros Hi H.
  pose proof (lookup_take a i 13) as Ha. pose proof (lookup_take b i 13) as Hb.
  destruct (decide (i < 13)%nat); [|lia].
  now rewrite <- Ha, <- Hb, H.
Qed.

(** X25.  Signing changes no cost: [getBaseFee], [getUpfrontCost] and
    [toCreationAddress] give after [sign], returned or thrown, what they
    gave before. *)
Theorem sign_keeps_costs (fees : FeeTable) (privateKey : bytes)
        (chainID : option Z) (tx : Transaction) :
  constructed tx ->
  getBaseFee fees (sign privateKey chainID tx).2 = getBaseFee fees tx
  /\ getUpfrontCost (sign privateKey chainID tx).2 = getUpfrontCost tx
  /\ toCreationAddress (sign privateKey chainID tx).2 = toCreationAddress tx.
Proof.
  intros (Hlen & _).
  destruct (sign_frame privateKey chainID tx Hlen) as (_ & Htake & Hc).
  destruct Hc as (_ & Hh & _).
  set (tx' := (sign privateKey chainID tx).2) in *.
  assert (forall name i f, property name = Some (i, f) -> (i < 13)%nat ->
                           get name tx' = get name tx) as Hget.
  { intros name i f Hp Hi. unfold get, getter. rewrite Hp.
    now rewrite (lookup_take13 i _ _ Hi Htake). }
  assert (toCreationAddress tx' = toCreationAddress tx) as Hto.
  { unfold toCreationAddress.
    now rewrite (Hget "to"%string 3%nat _ eq_refl ltac:(lia)). }
  split; [|split; [|exact Hto]].
  - unfold getBaseFee, getDataFee.
    now rewrite (lookup_take13 5 _ _ ltac:(lia) Htake), Hh, Hto.
  - unfold getUpfrontCost.
    rewrite (Hget "gasLimit"%string 2%nat _ eq_refl ltac:(lia)).
    rewrite (Hget "gasPrice"%string 1%nat _ eq_refl ltac:(lia)).
    now rewrite (Hget "value"%string 4%nat _ eq_refl ltac:(lia)).
Qed.

(** X17.  When the curve refuses to sign (an invalid private key),
    [sign] with a chain id other than 0 throws and yet has changed the
    record: [v] holds the chain id, written by [hash] before the
    signature was attempted. *)
Theorem sign_failure_overwrites_v (privateKey : bytes) (c : Z)
        (tx : Transaction) (msg : string) :
  c <> 0 ->
  secp_sign (signed_digest (Some c) tx) privateKey = Throw msg ->
  sign privateKey (Some c) tx
  = (Throw msg,
     set_raw (array_store 13 (EthUtil.intToBuffer c) (raw tx)) tx).
Proof.
  intros Hc Hsign. unfold signed_digest in Hsign.
  rewrite (hash_signed_run c tx Hc) in Hsign. cbv zeta in Hsign.
  unfold sign. unfold mbind at 1.
  rewrite (hash_signed_run c tx Hc). cbv zeta.
  unfold mbind at 1. unfold lift at 1. unfold ecsign. rewrite Hsign.
  reflexivity.
Qed.

End SignExtras.

(** ** The decoder on a serialized record *)

Lemma substring_all (s : string) : String.substring 0 (String.length s) s = s.
Proof. induction s as [|c s IH]; [reflexivity|]. cbn. now rewrite IH. Qed.

Lemma substring2_hexlify (b : bytes) :
  substring2 (Ethers.hexlify b) = Hex.encode b.
Proof.
  unfold substring2, Ethers.hexlify.
  change ("0x" +:+ Hex.encode b) with (String "0" (String "x" (Hex.encode b))).
  cbn [String.length String.substring Nat.sub].
  rewrite Nat.sub_0_r. apply substring_all.
Qed.

Lemma decode_substring2_hexlify (b : bytes) :
  Hex.decode (substring2 (Ethers.hexlify b)) = b.
Proof. rewrite substring2_hexlify. apply hex_decode_encode. Qed.

(** [bigNumberify] reads the text of a byte string as its big-endian
    value. *)
Lemma bigNumberify_hexlify (b : bytes) :
  Ethers.bigNumberify (Ethers.hexlify b) = Ret (Buf.to_Z b).
Proof.
  unfold Ethers.bigNumberify, Ethers.hexlify.
  change ("0x" +:+ Hex.encode b) with (String "0" (String "x" (Hex.encode b))).
  cbn [Hex.isHexString Hex.stripHexPrefix].
  rewrite number_from_encode.
  rewrite bool_decide_eq_true_2 by (now eexists).
  reflexivity.
Qed.

Section DecoderExtras.
Context {curve : Secp256k1}.

Lemma decodeTx_serialize_run (tx : Transaction)
      (nonce gasPrice gasLimit to value data action vote nickname asset
       assetInfo abi v r s : bytes) :
  raw tx = [nonce; gasPrice; gasLimit; to; value; data; action; vote;
            nickname; asset; assetInfo; []; abi; v; r; s] ->
  Z.of_nat (length (serialize tx)) < 2 ^ 64 ->
  decodeTx (serialize tx) =
  (v1 <- Ethers.toNumber (Buf.to_Z v) ;;
   pub <- ecrecover
            (rlphash [JBuf nonce; JBuf gasPrice; JBuf gasLimit; JBuf to;
                      JBuf value; JBuf []; JBuf action; JBuf []; JBuf [];
                      JBuf []; JBuf []; JStr "0x"; JBuf []; JNum 1; JNum 0;
                      JNum 0])
            (v1 - 10) (JBuf r) (JBuf s) ;;
   from <- publicToAddress (JBuf pub) ;;
   nonce1 <- Ethers.toNumber (Buf.to_Z nonce) ;;
   v2 <- Ethers.toNumber (Buf.to_Z v) ;;
   Ret {| Decoded.from := HexToAOA (Hex.bufferToHex from);
          Decoded.nonce := nonce1;
          Decoded.gasPrice := Buf.to_Z gasPrice;
          Decoded.gasLimit := Buf.to_Z gasLimit;
          Decoded.to := Some ("AOA" +:+ Hex.encode to);
          Decoded.value := Buf.to_Z value;
          Decoded.data := Some (Ethers.RStr (Ethers.hexlify data));
          Decoded.v := v2;
          Decoded.r := Ethers.hexlify r;
          Decoded.s := Ethers.hexlify s;
          Decoded.action := Ethers.hexlify action;
          Decoded.asset := Some (Ethers.RStr (Ethers.hexlify asset));
          Decoded.subAddress := String Ascii.zero EmptyString |})%oc.
Proof.
  intros Hraw Hlen. unfold decodeTx.
  rewrite (decode_encode_buffers (raw tx) Hlen : Ethers.decode (serialize tx) = _).
  rewrite Hraw.
  cbv zeta.
  cbn [obind map destructure lookup list_lookup as_string decodeTx_items
       bigNumberify_value].
  change (hexToString (Ethers.hexlify [])) with (String Ascii.zero EmptyString).
  change (index 0 "AOA" (String Ascii.zero EmptyString)) with (@None nat).
  cbv iota.
  change (String.eqb (String Ascii.zero EmptyString) (String Ascii.zero EmptyString))
    with true.
  cbv iota.
  rewrite !bigNumberify_hexlify, !decode_substring2_hexlify.
  cbn [obind]. unfold decode_items.
  rewrite !decode_substring2_hexlify.
  rewrite HexToAOA_never_0x.
  change (HexToAOA (Ethers.hexlify to)) with ("AOA" +:+ Hex.encode to).
  change (0 <? 1) with true. cbv iota.
  change (1 * 2 + 8) with 10.
  reflexivity.
Qed.

Lemma toNumber_ret (z n : Z) :
  Ethers.toNumber z = Ret n -> n = z /\ Z.abs z < 2 ^ 53.
Proof.
  unfold Ethers.toNumber. destruct (Z.ltb_spec (Z.abs z) (2 ^ 53)); [|discriminate].
  intros [= <-]. now split.
Qed.

Lemma ecrecover_ret (msgHash : bytes) (v : Z) (r s : jsval) (pub : bytes) :
  ecrecover msgHash v r s = Ret pub -> v = 27 \/ v = 28.
Proof.
  unfold ecrecover. cbv zeta.
  destruct (Z.eqb_spec (v - 27) 0); [left; lia|].
  destruct (Z.eqb_spec (v - 27) 1); [right; lia|].
  discriminate.
Qed.

(** X18.  What [decodeTx] returns on the serialization of a record with
    an empty [subAddress]: the numbers are the big-endian values of
    [nonce], [gasPrice], [gasLimit], [value] and [v]; [r], [s] and
    [action] are the hexadecimal texts of the fields, [data] and [asset]
    too; [to] is the text of the field behind [AOA]; the sub-address is
    the one-character text of code 0.  It returns only if [v] is 37 or
    38 and the nonce is below 2^53. *)
Theorem decodeTx_serialize (tx : Transaction)
        (nonce gasPrice gasLimit to value data action vote nickname asset
         assetInfo abi v r s : bytes) (d : Decoded.t) :
  raw tx = [nonce; gasPrice; gasLimit; to; value; data; action; vote;
            nickname; asset; assetInfo; []; abi; v; r; s] ->
  Z.of_nat (length (serialize tx)) < 2 ^ 64 ->
  decodeTx (serialize tx) = Ret d ->
  Decoded.nonce d = Buf.to_Z nonce
  /\ Decoded.gasPrice d = Buf.to_Z gasPrice
  /\ Decoded.gasLimit d = Buf.to_Z gasLimit
  /\ Decoded.to d = Some ("AOA" +:+ Hex.encode to)
  /\ Decoded.value d = Buf.to_Z value
  /\ Decoded.data d = Some (Ethers.RStr (Ethers.hexlify data))
  /\ Decoded.v d = Buf.to_Z v
  /\ Decoded.r d = Ethers.hexlify r
  /\ Decoded.s d = Ethers.hexlify s
  /\ Decoded.action d = Ethers.hexlify action
  /\ Decoded.asset d = Some (Ethers.RStr (Ethers.hexlify asset))
  /\ Decoded.subAddress d = String Ascii.zero EmptyString
  /\ (Buf.to_Z v = 37 \/ Buf.to_Z v = 38)
  /\ Buf.to_Z nonce < 2 ^ 53.
Proof.
  intros Hraw Hlen H.
  rewrite (decodeTx_serialize_run tx _ _ _ _ _ _ _ _ _ _ _ _ _ _ _ Hraw Hlen) in H.
  apply obind_ret in H as (v1 & Hv1 & H).
  apply obind_ret in H as (pub & Hpub & H).
  apply obind_ret in H as (from & Hfrom & H).
  apply obind_ret in H as (nonce1 & Hnonce & H).
  apply obind_ret in H as (v2 & Hv2 & H).
  apply toNumber_ret in Hv1 as [-> _].
  apply toNumber_ret in Hv2 as [-> _].
  apply toNumber_ret in Hnonce as [-> Hn].
  apply ecrecover_ret in Hpub.
  injection H as <-. cbn.
  repeat (split; [reflexivity|]).
  split; lia.
Qed.

(** X19.  Whatever the bytes given to [decodeTx], an object it returns
    has [v] equal to 37 or 38, and its [from] is [AOA] followed by the 40
    hexadecimal digits of a 20-byte address. *)
Theorem decodeTx_v_and_from (raw_tx : bytes) (d : Decoded.t) :
  decodeTx raw_tx = Ret d ->
  (Decoded.v d = 37 \/ Decoded.v d = 38)
  /\ exists address,
       length address = 20%nat
       /\ Decoded.from d = "AOA" +:+ Hex.encode address.
Proof.
  unfold decodeTx. cbv zeta. intros H.
  apply obind_ret in H as (decoded & _ & H).
  apply obind_ret in H as ([items subAddress] & _ & H).
  apply obind_ret in H as (v0 & Hv0 & H).
  apply obind_ret in H as (v1 & Hv1 & H).
  apply obind_ret in H as (raw_r & _ & H).
  apply obind_ret in H as (raw_s & _ & H).
  apply obind_ret in H as (pub & Hpub & H).
  apply obind_ret in H as (from & Hfrom & H).
  do 10 (apply obind_ret in H as (? & _ & H)).
  apply obind_ret in H as (v0' & Hv0' & H).
  apply obind_ret in H as (v1' & Hv1' & H).
  apply obind_ret in H as (raw_action & _ & H).
  injection H as <-. cbn [Decoded.v Decoded.from].
  assert (v1' = v1) as -> by congruence.
  apply ecrecover_ret in Hpub.
  change (0 <? 1) with true in Hpub. cbv iota in Hpub.
  split; [lia|].
  exists from. split; [exact (publicToAddress_length _ _ Hfrom) | reflexivity].
Qed.

(** A list in the position of [v] is read by [bigNumberify] as the bytes
    of the number: the decoder returns on it as on the plain
    serialization. *)
Example decodeTx_nested_v :
  exists d,
    Ethers.decode nested_v_raw_tx
    = Ret (Ethers.RArr
             (map (fun b => Ethers.RStr (Ethers.hexlify b))
                  (take 13 (raw transfer_signed_tx))
              ++ [Ethers.RArr [Ethers.RStr "0x26"]]
              ++ map (fun b => Ethers.RStr (Ethers.hexlify b))
                     (drop 14 (raw transfer_signed_tx))))
    /\ decodeTx (curve := Curve.curve) nested_v_raw_tx = Ret d
    /\ Decoded.v d = 38
    /\ Decoded.from d = "AOAbe862ad9abfe6f22bcb087716c7d89a26051f74c"%string.
Proof.
  eexists.
  split; [vm_compute; reflexivity|].
  split; [vm_compute; reflexivity|].
  split; reflexivity.
Qed.

Lemma to_Z_nonneg (b : bytes) : 0 <= Buf.to_Z b.
Proof.
  unfold Buf.to_Z.
  assert (forall acc, 0 <= acc ->
            0 <= fold_left (fun acc x => acc * 256 + Buf.byte_to_Z x) b acc) as H.
  { induction b as [|x b IH]; intros acc Hacc; [exact Hacc|].
    cbn [fold_left]. apply IH. pose proof (byte_to_Z_range x). lia. }
  apply H. lia.
Qed.

(** X20.  [decodeTx] finds the signer of a plain record: for a record
    whose [data], [vote], [nickname], [asset], [assetInfo], [subAddress],
    [abi], [r] and [s] are empty and whose nonce is below 2^53, signed
    with [sign(privateKey, 1)] by a key with which the curve signs the
    digest correctly, [decodeTx] on the serialization returns, and its
    [from] is the address of the key, spelled with [AOA].  The [action]
    of the record may be anything. *)
Theorem decodeTx_after_sign (privateKey : bytes) (tx : Transaction)
        (nonce gasPrice gasLimit to value action v : bytes) :
  raw tx = [nonce; gasPrice; gasLimit; to; value; []; action; []; []; [];
            []; []; []; v; []; []] ->
  Buf.to_Z nonce < 2 ^ 53 ->
  signs_correctly (signed_digest (Some 1) tx) privateKey ->
  Z.of_nat (length (serialize (sign privateKey (Some 1) tx).2)) < 2 ^ 64 ->
  exists address d,
    privateToAddress privateKey = Ret address
    /\ decodeTx (serialize (sign privateKey (Some 1) tx).2) = Ret d
    /\ Decoded.from d = HexToAOA (Hex.bufferToHex address).
Proof.
  intros Hraw Hnonce Hsig Hlen.
  destruct Hsig as (sg & recovery & Hsign & Hsg & Hrec & Hlow & Hrecover & Hpub).
  pose proof (sign_run 1 privateKey tx sg recovery ltac:(lia) Hsign) as Hsigned.
  unfold signed_digest in Hrecover.
  rewrite (hash_signed_run 1 tx) in Hrecover by discriminate.
  cbv zeta iota beta in Hrecover. clear Hsign.
  rewrite Hsigned in Hlen |- *. cbn [snd] in Hlen |- *.
  set (rb := Buf.stripZeros (take 32 sg)) in *.
  set (sb := Buf.stripZeros (take 32 (drop 32 sg))) in *.
  set (vb := EthUtil.intToBuffer (recovery + 27 + (1 * 2 + 8))) in *.
  assert (Buf.setLength 32 rb ++ Buf.setLength 32 sb = sg) as Fsg.
  { unfold rb, sb.
    rewrite !setLength_stripZeros
      by (rewrite length_take, ?length_drop; lia).
    now apply take_drop_32. }
  assert (Buf.to_Z vb = recovery + 37) as Fv.
  { unfold vb. destruct Hrec as [-> | ->]; reflexivity. }
  clearbody rb sb vb. clear Hsigned.
  rewrite Hraw in Hlen, Hrecover |- *.
  cbn -[EthUtil.intToBuffer] in Hrecover.
  match goal with
  | |- context [serialize ?t] => set (tx1 := t) in *
  end.
  assert (raw tx1 = [nonce; gasPrice; gasLimit; to; value; []; action; [];
                     []; []; []; []; []; vb; rb; sb]) as Hraw1 by reflexivity.
  rewrite (decodeTx_serialize_run tx1 _ _ _ _ _ _ _ _ _ _ _ _ _ _ _ Hraw1 Hlen).
  set (pub := secp_publicKeyCreate privateKey) in *.
  set (address := Buf.last_n 20 (Keccak.keccak256 pub)).
  assert (publicToAddress (JBuf pub) = Ret address) as Haddr.
  { unfold publicToAddress. cbn [EthUtil.toBuffer]. rewrite Hpub. reflexivity. }
  exists address. eexists.
  split; [exact Haddr|].
  unfold Ethers.toNumber. rewrite Fv.
  pose proof (to_Z_nonneg nonce) as Hn0.
  destruct (Z.ltb_spec (Z.abs (recovery + 37)) (2 ^ 53)) as [_|Hbad];
    [|exfalso; lia].
  destruct (Z.ltb_spec (Z.abs (Buf.to_Z nonce)) (2 ^ 53)) as [_|Hbad];
    [|exfalso; lia].
  cbn [obind].
  match goal with
  | |- context [ecrecover ?h _ _ _] =>
      assert (ecrecover h (recovery + 37 - 10) (JBuf rb) (JBuf sb) = Ret pub)
        as ->
  end.
  { unfold ecrecover. cbn [EthUtil.toBuffer]. rewrite Fsg.
    replace (recovery + 37 - 10 - 27) with recovery by lia.
    match type of Hrecover with
    | secp_recover ?d _ _ = _ =>
        match goal with
        | |- context [secp_recover ?d' _ _] =>
            replace d' with d by (apply rlphash_buffers; reflexivity)
        end
    end.
    rewrite Hrecover. destruct Hrec as [-> | ->]; reflexivity. }
  cbn [obind]. rewrite Haddr. cbn [obind].
  split; reflexivity.
Qed.

End DecoderExtras.

(** ** [verifyAddress] *)

Lemma toLowerCase_digit (n : Z) :
  0 <= n < 16 ->
  toLowerCase_char (Hex.digit n) = Hex.digit n /\ is_hex_lower (Hex.digit n) = true.
Proof.
  intros H. rewrite <- (Z2Nat.id n) by lia.
  assert (Z.to_nat n < 16)%nat as Hk by lia.
  generalize dependent (Z.to_nat n). clear. intros k Hk.
  do 16 (destruct k as [|k]; [split; reflexivity|]). lia.
Qed.

Lemma encode_lower (b : bytes) :
  toLowerCase (Hex.encode b) = Hex.encode b
  /\ all_chars is_hex_lower (Hex.encode b) = true
  /\ String.length (Hex.encode b) = (2 * length b)%nat.
Proof.
  induction b as [|x b (IH1 & IH2 & IH3)]; [repeat split|].
  cbn [Hex.encode toLowerCase all_chars String.length length].
  pose proof (byte_to_Z_range x) as Hx.
  destruct (toLowerCase_digit (Buf.byte_to_Z x / 16)) as [-> ->];
    [split; [apply Z.div_pos | apply Z.div_lt_upper_bound]; lia|].
  destruct (toLowerCase_digit (Buf.byte_to_Z x mod 16)) as [-> ->];
    [apply Z.mod_pos_bound; lia|].
  rewrite IH1, IH2, IH3. repeat split. lia.
Qed.

Lemma substring_none (n : nat) (s : string) : String.substring n 0 s = EmptyString.
Proof.
  revert n. induction s as [|c s IH]; intros [|n]; try reflexivity.
  cbn. apply IH.
Qed.

Lemma tail_matches_address (a : bytes) :
  length a = 20%nat -> tail_matches (Hex.encode a) = true.
Proof.
  intros Ha. destruct (encode_lower a) as (_ & Hall & Hlen).
  unfold tail_matches. cbv zeta. rewrite Hlen, Ha.
  change (2 * 20)%nat with 40%nat. change (40 - 40)%nat with 0%nat.
  rewrite substring_none.
  assert (String.substring 0 40 (Hex.encode a) = Hex.encode a) as ->.
  { rewrite <- (substring_all (Hex.encode a)) at 2. now rewrite Hlen, Ha. }
  rewrite Hall. reflexivity.
Qed.

Lemma toLowerCase_app (s t : string) :
  toLowerCase (s +:+ t) = toLowerCase s +:+ toLowerCase t.
Proof.
  induction s as [|c s IH]; [reflexivity|].
  change (String c s +:+ t) with (String c (s +:+ t)).
  cbn [toLowerCase]. now rewrite IH.
Qed.

Lemma toLowerCase_length (s : string) :
  String.length (toLowerCase s) = String.length s.
Proof. induction s as [|c s IH]; [reflexivity|]. cbn. now rewrite IH. Qed.

Lemma matches_0x_suffix (s t : string) :
  matches_0x_somewhere t = true -> matches_0x_somewhere (s +:+ t) = true.
Proof.
  intros H. induction s as [|c s IH]; [exact H|].
  change (String c s +:+ t) with (String c (s +:+ t)).
  cbn [matches_0x_somewhere]. rewrite IH. apply orb_true_r.
Qed.

Lemma tail_matches_short (s : string) :
  (String.length s < 40)%nat -> tail_matches s = false.
Proof.
  intros H. unfold tail_matches. cbv zeta.
  destruct (Nat.leb_spec 40 (String.length s)); [lia | reflexivity].
Qed.

Lemma matches_0x_short (s : string) :
  (String.length s < 42)%nat -> matches_0x_somewhere s = false.
Proof.
  induction s as [|c s IH]; intros H; [reflexivity|].
  cbn [matches_0x_somewhere]. cbn [String.length] in H.
  rewrite IH by lia. rewrite orb_false_r.
  destruct c as [[] [] [] [] [] [] [] []]; try reflexivity.
  destruct s as [|c2 s]; [reflexivity|].
  destruct c2 as [[] [] [] [] [] [] [] []]; try reflexivity.
  apply tail_matches_short. cbn [String.length] in H. lia.
Qed.

(** X21.  [verifyAddress] accepts the text of every 20-byte address in
    both spellings, behind [AOA] and behind [0x]; and, the alternative
    [0x] not being anchored, it accepts the [0x] spelling behind any
    text whatever. *)
Theorem verifyAddress_accepts (a : bytes) (junk : string) :
  length a = 20%nat ->
  verifyAddress (HexToAOA (Hex.bufferToHex a)) = true
  /\ verifyAddress (junk +:+ Hex.bufferToHex a) = true.
Proof.
  intros Ha. destruct (encode_lower a) as (Hlow & _ & _).
  pose proof (tail_matches_address a Ha) as Ht.
  split.
  - change (HexToAOA (Hex.bufferToHex a)) with ("AOA" +:+ Hex.encode a).
    unfold verifyAddress. cbv zeta.
    rewrite toLowerCase_app, Hlow.
    change (toLowerCase "AOA" +:+ Hex.encode a)
      with (String "a" (String "o" (String "a" (Hex.encode a)))).
    cbv iota beta. now rewrite Ht.
  - unfold verifyAddress. cbv zeta.
    rewrite toLowerCase_app.
    rewrite (matches_0x_suffix (toLowerCase junk)); [apply orb_true_r|].
    unfold Hex.bufferToHex. rewrite toLowerCase_app, Hlow.
    change (toLowerCase "0x" +:+ Hex.encode a)
      with (String "0" (String "x" (Hex.encode a))).
    cbn [matches_0x_somewhere]. now rewrite Ht.
Qed.

(** X22.  [verifyAddress] rejects every text of fewer than 42
    characters. *)
Theorem verifyAddress_rejects_short (s : string) :
  (String.length s < 42)%nat -> verifyAddress s = false.
Proof.
  intros H. unfold verifyAddress. cbv zeta.
  rewrite matches_0x_short by (rewrite toLowerCase_length; lia).
  rewrite orb_false_r.
  pose proof (toLowerCase_length s) as Hl.
  destruct (toLowerCase s) as [|c1 [|c2 [|c3 rest]]].
  - reflexivity.
  - destruct c1 as [[] [] [] [] [] [] [] []]; reflexivity.
  - destruct c1 as [[] [] [] [] [] [] [] []]; try reflexivity.
    destruct c2 as [[] [] [] [] [] [] [] []]; reflexivity.
  - cbn [String.length] in Hl.
    destruct c1 as [[] [] [] [] [] [] [] []]; try reflexivity.
    destruct c2 as [[] [] [] [] [] [] [] []]; try reflexivity.
    destruct c3 as [[] [] [] [] [] [] [] []]; try reflexivity.
    apply tail_matches_short. lia.
Qed.

(** ** [hash] and [serialize] *)

Lemma array_store_twice (i : nat) (v : bytes) (a : list bytes) :
  (i < length a)%nat -> array_store i v (array_store i v a) = array_store i v a.
Proof.
  intros H. rewrite (array_store_insert i v a H).
  rewrite array_store_insert by (rewrite length_insert; exact H).
  apply list_insert_insert_eq.
Qed.

(** X23.  With the signature included (the default), [hash] returns the
    Keccak-256 digest of what [serialize] returns after the call.
    Without a chain id the record is unchanged; with one, [v] is
    overwritten first, and a second call returns the same digest and
    changes nothing more. *)
Theorem hash_of_serialize (chainID : option Z) (tx : Transaction) :
  constructed tx ->
  hash None None tx = (Ret (Keccak.keccak256 (serialize tx)), tx)
  /\ (hash (Some true) chainID tx).1
     = Ret (Keccak.keccak256 (serialize (hash (Some true) chainID tx).2))
  /\ hash None chainID tx = hash (Some true) chainID tx
  /\ hash (Some true) chainID (hash (Some true) chainID tx).2
     = hash (Some true) chainID tx.
Proof.
  intros (Hlen & _).
  split; [reflexivity|]. split; [|split; [reflexivity|]].
  - rewrite hash_with_signature_run. cbv zeta. reflexivity.
  - rewrite (hash_with_signature_run chainID tx). cbv zeta. cbn [snd].
    rewrite hash_with_signature_run. cbv zeta.
    destruct (negb (default 0 chainID =? 0)); [|reflexivity].
    cbn [raw set_raw]. rewrite set_raw_twice.
    now rewrite array_store_twice by lia.
Qed.

Section SenderExtras.
Context {curve : Secp256k1}.

(** X24.  On a record with no cached sender or key whose signature
    [verifySignature] rejects, [getSenderAddress] throws
    [Invalid Signature] and caches no sender. *)
Theorem getSenderAddress_invalid (tx : Transaction) :
  _from tx = None ->
  _senderPubKey tx = None ->
  (verifySignature tx).1 = Ret false ->
  (getSenderAddress tx).1 = Throw "Invalid Signature"
  /\ _from (getSenderAddress tx).2 = None.
Proof.
  intros Hf Hk Hv. rewrite getSenderAddress_run. cbv zeta.
  unfold sender_cached. rewrite Hf, Hk.
  pose proof (verifySignature_frame tx) as (_ & _ & _ & _ & Hfrom).
  destruct (verifySignature tx) as [[[]|e] t]; cbn [fst snd] in *;
    try discriminate.
  split; [reflexivity | congruence].
Qed.

End SenderExtras.

(** ** The further properties at concrete records *)

Lemma serialize_decode_witness :
  Z.of_nat (length (serialize transfer_signed_tx)) < 2 ^ 64
  /\ Ethers.decode (serialize transfer_signed_tx)
     = Ret (Ethers.RArr (map (fun b => Ethers.RStr (Ethers.hexlify b))
                             (raw transfer_signed_tx))).
Proof.
  split; [vm_compute; reflexivity|].
  apply (serialize_decode transfer_signed_tx). vm_compute; reflexivity.
Defined.

Lemma verifySignature_true_only_witness :
  verifySignature (curve := Curve.curve) transfer_signed_tx
  = (Ret true, (verifySignature (curve := Curve.curve) transfer_signed_tx).2)
  /\ exists v k,
       EthUtil.bufferToInt (get "v" transfer_signed_tx) = Ret v
       /\ (v = 37 \/ v = 38)
       /\ (_homestead transfer_signed_tx = true ->
           EthUtil.BN (get "s" transfer_signed_tx) <= N_DIV_2)
       /\ ecrecover (curve := Curve.curve)
            (rlphash (verify_items (set_chainId 1 transfer_signed_tx))) (v - 10)
            (get "r" transfer_signed_tx) (get "s" transfer_signed_tx) = Ret k
       /\ (verifySignature (curve := Curve.curve) transfer_signed_tx).2
          = set_senderPubKey k (set_chainId 1 transfer_signed_tx).
Proof.
  assert (verifySignature (curve := Curve.curve) transfer_signed_tx
          = (Ret true, (verifySignature (curve := Curve.curve) transfer_signed_tx).2))
    as H by (vm_compute; reflexivity).
  split; [exact H|].
  exact (verifySignature_true_only (curve := Curve.curve) transfer_signed_tx _ H).
Defined.

Lemma getSenderAddress_cached_witness :
  getSenderAddress (curve := Curve.curve) transfer_signed_tx
  = (Ret example_address, transfer_verified_tx)
  /\ getSenderAddress (curve := Curve.curve) transfer_verified_tx
     = (Ret example_address, transfer_verified_tx)
  /\ (_from transfer_signed_tx = None -> length example_address = 20%nat).
Proof.
  assert (getSenderAddress (curve := Curve.curve) transfer_signed_tx
          = (Ret example_address, transfer_verified_tx)) as H
    by (vm_compute; reflexivity).
  split; [exact H|].
  exact (getSenderAddress_cached (curve := Curve.curve) transfer_signed_tx
           transfer_verified_tx example_address H).
Defined.

Lemma getBaseFee_formula_witness :
  constructed creation_signed_tx
  /\ get "data" creation_signed_tx = JBuf (Hex.decode "600057")
  /\ get "to" creation_signed_tx = JBuf []
  /\ getBaseFee params_json creation_signed_tx
     = Ret (txDataZeroGas params_json
              * Z.of_nat (length (filter (fun x => x = Byte.x00) (Hex.decode "600057")))
            + txDataNonZeroGas params_json
              * Z.of_nat (length (filter (fun x => x <> Byte.x00) (Hex.decode "600057")))
            + txGas params_json
            + if bool_decide (@nil byte = []) then txCreation params_json else 0).
Proof.
  split; [repeat split|]. split; [reflexivity|]. split; [reflexivity|].
  apply (getBaseFee_formula params_json creation_signed_tx);
    [repeat split | reflexivity | reflexivity].
Defined.

Lemma new_Transaction_well_formed_witness :
  new_Transaction transfer_data = Ret transfer_tx
  /\ well_formed_record transfer_tx.
Proof.
  split; [vm_compute; reflexivity|].
  apply (new_Transaction_well_formed transfer_data transfer_tx).
  vm_compute; reflexivity.
Defined.

Lemma transfer_tx_well_formed : well_formed_record transfer_tx.
Proof. apply (new_Transaction_bounds transfer_data). vm_compute; reflexivity. Qed.

Lemma transfer_signed_tx_well_formed : well_formed_record transfer_signed_tx.
Proof. apply (new_Transaction_bounds transfer_signed_data). vm_compute; reflexivity. Qed.

Lemma methods_keep_well_formed_witness :
  well_formed_record transfer_tx
  /\ well_formed_record (sign (curve := Curve.curve) example_key (Some 1) transfer_tx).2
  /\ well_formed_record (hash (Some false) (Some 1) transfer_tx).2
  /\ well_formed_record (verifySignature (curve := Curve.curve) transfer_tx).2
  /\ well_formed_record (getSenderAddress (curve := Curve.curve) transfer_tx).2
  /\ well_formed_record
       (validate (curve := Curve.curve) params_json None transfer_tx).2.
Proof.
  split; [exact transfer_tx_well_formed|].
  exact (methods_keep_well_formed (curve := Curve.curve) params_json example_key
           (Some 1) (Some false) None transfer_tx transfer_tx_well_formed).
Defined.

Lemma set_get_same_witness :
  property "gas"
  = Some (2%nat, {| Field.name := "gasLimit"; Field.alias := Some "gas"%string;
                    Field.length := Some 32%nat; Field.allowLess := true;
                    Field.allowZero := false; Field.default := [] |})
  /\ well_formed_record transfer_signed_tx
  /\ set "gas" (get "gas" transfer_signed_tx) transfer_signed_tx
     = (Ret tt, transfer_signed_tx).
Proof.
  split; [vm_compute; reflexivity|].
  split; [exact transfer_signed_tx_well_formed|].
  exact (set_get_same "gas" 2 _ transfer_signed_tx
           ltac:(vm_compute; reflexivity) transfer_signed_tx_well_formed).
Defined.

Lemma new_Transaction_from_raw_witness :
  well_formed_record transfer_signed_tx
  /\ EthUtil.bufferToInt (get "v" transfer_signed_tx) = Ret 38
  /\ new_Transaction (Some (DataArray (map JBuf (raw transfer_signed_tx))))
     = Ret {| raw := raw transfer_signed_tx; _chainId := derived_chainId 38;
              _homestead := true; _subAddress := JUndef; _from := None;
              _senderPubKey := None |}.
Proof.
  split; [exact transfer_signed_tx_well_formed|].
  split; [reflexivity|].
  exact (new_Transaction_from_raw transfer_signed_tx 38
           transfer_signed_tx_well_formed eq_refl).
Defined.

Lemma new_Transaction_too_many_fields_witness :
  (16 < length (replicate 17 (JNum 0)))%nat
  /\ new_Transaction (Some (DataArray (replicate 17 (JNum 0))))
     = Throw "wrong number of fields in data".
Proof.
  split; [cbn; lia|].
  apply (new_Transaction_too_many_fields (replicate 17 (JNum 0))). cbn; lia.
Defined.

Lemma new_Transaction_rejects_witness :
  fields !! 3%nat
  = Some {| Field.name := "to"; Field.alias := None; Field.length := Some 20%nat;
            Field.allowLess := false; Field.allowZero := true;
            Field.default := [] |}
  /\ short_to_props !! "to"%string = Some (JStr "0x1234")
  /\ canonicalize {| Field.name := "to"; Field.alias := None;
                     Field.length := Some 20%nat; Field.allowLess := false;
                     Field.allowZero := true; Field.default := [] |}
                  (JStr "0x1234")
     = Throw "The field to must have byte length of 20"
  /\ exists e, new_Transaction (Some (DataObject short_to_props None)) = Throw e.
Proof.
  split; [reflexivity|]. split; [vm_compute; reflexivity|].
  split; [vm_compute; reflexivity|].
  apply (new_Transaction_rejects short_to_props None 3
           {| Field.name := "to"; Field.alias := None; Field.length := Some 20%nat;
              Field.allowLess := false; Field.allowZero := true;
              Field.default := [] |}
           (JStr "0x1234") "The field to must have byte length of 20");
    [reflexivity | vm_compute; reflexivity | vm_compute; reflexivity].
Defined.

Lemma sign_touches_signature_only_witness :
  constructed transfer_tx
  /\ take 13 (raw (sign (curve := Curve.curve) example_key (Some 1) transfer_tx).2)
     = take 13 (raw transfer_tx)
  /\ length (raw (sign (curve := Curve.curve) example_key (Some 1) transfer_tx).2)
     = 16%nat
  /\ same_caches transfer_tx
       (sign (curve := Curve.curve) example_key (Some 1) transfer_tx).2.
Proof.
  split; [repeat split|].
  apply (sign_touches_signature_only (curve := Curve.curve) example_key (Some 1)
           transfer_tx).
  repeat split.
Defined.

Lemma sign_keeps_cached_sender_witness :
  constructed transfer_verified_tx
  /\ _from transfer_verified_tx = Some example_address
  /\ (getSenderAddress (curve := Curve.curve)
        (sign (curve := Curve.curve) (Hex.decode
           "0000000000000000000000000000000000000000000000000000000000000001")
           (Some 1) transfer_verified_tx).2).1
     = Ret example_address.
Proof.
  split; [repeat split|]. split; [reflexivity|].
  apply (sign_keeps_cached_sender (curve := Curve.curve)); [repeat split | reflexivity].
Defined.

Lemma sign_failure_overwrites_v_witness :
  5 <> 0
  /\ secp_sign (Secp256k1 := Curve.curve) (signed_digest (Some 5) transfer_tx) []
     = Throw "private key invalid"
  /\ sign (curve := Curve.curve) [] (Some 5) transfer_tx
     = (Throw "private key invalid",
        set_raw (array_store 13 (EthUtil.intToBuffer 5) (raw transfer_tx))
                transfer_tx).
Proof.
  split; [lia|]. split; [reflexivity|].
  apply (sign_failure_overwrites_v (curve := Curve.curve) [] 5 transfer_tx
           "private key invalid"); [lia | reflexivity].
Defined.

Lemma decodeTx_serialize_witness :
  exists d,
    raw transfer_signed_tx
    = [Hex.decode "07"; Hex.decode "09184e72a000"; Hex.decode "5208";
       Hex.decode "7e5f4552091a69125d5dfcb7b8c2659029395bdf";
       Hex.decode "0de0b6b3a7640000"; []; []; []; []; []; []; []; [];
       default [] (raw transfer_signed_tx !! 13%nat);
       default [] (raw transfer_signed_tx !! 14%nat);
       default [] (raw transfer_signed_tx !! 15%nat)]
    /\ Z.of_nat (length (serialize transfer_signed_tx)) < 2 ^ 64
    /\ decodeTx (curve := Curve.curve) (serialize transfer_signed_tx) = Ret d
    /\ Decoded.nonce d = 7
    /\ Decoded.gasPrice d = 10000000000000
    /\ Decoded.gasLimit d = 21000
    /\ Decoded.to d = Some "AOA7e5f4552091a69125d5dfcb7b8c2659029395bdf"%string
    /\ Decoded.value d = 1000000000000000000
    /\ Decoded.v d = 38
    /\ Decoded.subAddress d = String Ascii.zero EmptyString.
Proof.
  eexists.
  split; [reflexivity|].
  split; [vm_compute; reflexivity|].
  split; [vm_compute; reflexivity|].
  match goal with
  | |- Decoded.nonce ?d = _ /\ _ =>
      assert (decodeTx (curve := Curve.curve) (serialize transfer_signed_tx) = Ret d)
        as H by (vm_compute; reflexivity);
      pose proof (decodeTx_serialize (curve := Curve.curve) transfer_signed_tx
                    _ _ _ _ _ _ _ _ _ _ _ _ _ _ _ d eq_refl
                    ltac:(vm_compute; reflexivity) H)
        as (H1 & H2 & H3 & H4 & H5 & _ & H7 & _ & _ & _ & _ & H12 & _)
  end.
  repeat split; assumption.
Defined.

Lemma decodeTx_v_and_from_witness :
  decodeTx (curve := Curve.curve) (serialize creation_signed_tx)
  = Ret creation_decoded
  /\ (Decoded.v creation_decoded = 37 \/ Decoded.v creation_decoded = 38)
  /\ exists address,
       length address = 20%nat
       /\ Decoded.from creation_decoded = "AOA" +:+ Hex.encode address.
Proof.
  assert (decodeTx (curve := Curve.curve) (serialize creation_signed_tx)
          = Ret creation_decoded) as H by (vm_compute; reflexivity).
  split; [exact H|].
  exact (decodeTx_v_and_from (curve := Curve.curve) _ _ H).
Defined.

Lemma decodeTx_after_sign_witness :
  raw transfer_tx
  = [Hex.decode "07"; Hex.decode "09184e72a000"; Hex.decode "5208";
     Hex.decode "7e5f4552091a69125d5dfcb7b8c2659029395bdf";
     Hex.decode "0de0b6b3a7640000"; []; []; []; []; []; []; []; [];
     [Byte.x1b]; []; []]
  /\ Buf.to_Z (Hex.decode "07") < 2 ^ 53
  /\ signs_correctly (curve := Curve.curve)
       (signed_digest (Some 1) transfer_tx) example_key
  /\ Z.of_nat (length (serialize
                         (sign (curve := Curve.curve) example_key (Some 1)
                               transfer_tx).2)) < 2 ^ 64
  /\ exists address d,
       privateToAddress (curve := Curve.curve) example_key = Ret address
       /\ decodeTx (curve := Curve.curve)
            (serialize (sign (curve := Curve.curve) example_key (Some 1)
                             transfer_tx).2) = Ret d
       /\ Decoded.from d = HexToAOA (Hex.bufferToHex address).
Proof.
  assert (signs_correctly (curve := Curve.curve)
            (signed_digest (Some 1) transfer_tx) example_key) as Hsig.
  { unfold signs_correctly. eexists. eexists.
    split; [vm_compute; reflexivity|].
    split; [reflexivity|]. split; [right; reflexivity|].
    split; [vm_compute; discriminate|].
    split; vm_compute; reflexivity. }
  assert (Z.of_nat (length (serialize
                              (sign (curve := Curve.curve) example_key (Some 1)
                                    transfer_tx).2)) < 2 ^ 64) as Hlen
    by (vm_compute; reflexivity).
  split; [reflexivity|]. split; [vm_compute; reflexivity|].
  split; [exact Hsig|]. split; [exact Hlen|].
  exact (decodeTx_after_sign (curve := Curve.curve) example_key transfer_tx
           _ _ _ _ _ _ _ eq_refl ltac:(vm_compute; reflexivity) Hsig Hlen).
Defined.

Lemma verifyAddress_accepts_witness :
  length example_address = 20%nat
  /\ verifyAddress (HexToAOA (Hex.bufferToHex example_address)) = true
  /\ verifyAddress ("not an address 0x" +:+ Hex.bufferToHex example_address) = true.
Proof.
  split; [reflexivity|].
  apply (verifyAddress_accepts example_address "not an address 0x"). reflexivity.
Defined.

Lemma verifyAddress_rejects_short_witness :
  (String.length "AOAbe862ad9abfe6f22bcb087716c7d89a26051f7" < 42)%nat
  /\ verifyAddress "AOAbe862ad9abfe6f22bcb087716c7d89a26051f7" = false.
Proof.
  split; [cbn; lia|].
  apply (verifyAddress_rejects_short "AOAbe862ad9abfe6f22bcb087716c7d89a26051f7").
  cbn; lia.
Defined.

Lemma getSenderAddress_invalid_witness :
  _from high_s_tx = None
  /\ _senderPubKey high_s_tx = None
  /\ (verifySignature (curve := Curve.curve) high_s_tx).1 = Ret false
  /\ (getSenderAddress (curve := Curve.curve) high_s_tx).1
     = Throw "Invalid Signature"
  /\ _from (getSenderAddress (curve := Curve.curve) high_s_tx).2 = None.
Proof.
  split; [reflexivity|]. split; [reflexivity|].
  split; [vm_compute; reflexivity|].
  apply (getSenderAddress_invalid (curve := Curve.curve) high_s_tx);
    [reflexivity | reflexivity | vm_compute; reflexivity].
Defined.

Lemma hash_of_serialize_witness :
  constructed transfer_tx
  /\ hash None None transfer_tx
     = (Ret (Keccak.keccak256 (serialize transfer_tx)), transfer_tx)
  /\ (hash (Some true) (Some 1) transfer_tx).1
     = Ret (Keccak.keccak256
              (serialize (hash (Some true) (Some 1) transfer_tx).2))
  /\ hash None (Some 1) transfer_tx = hash (Some true) (Some 1) transfer_tx
  /\ hash (Some true) (Some 1) (hash (Some true) (Some 1) transfer_tx).2
     = hash (Some true) (Some 1) transfer_tx.
Proof.
  split; [repeat split|].
  apply (hash_of_serialize (Some 1) transfer_tx). repeat split.
Defined.

Lemma sign_keeps_costs_witness :
  constructed transfer_tx
  /\ getBaseFee params_json
       (sign (curve := Curve.curve) example_key (Some 1) transfer_tx).2
     = getBaseFee params_json transfer_tx
  /\ getUpfrontCost
       (sign (curve := Curve.curve) example_key (Some 1) transfer_tx).2
     = getUpfrontCost transfer_tx
  /\ toCreationAddress
       (sign (curve := Curve.curve) example_key (Some 1) transfer_tx).2
     = toCreationAddress transfer_tx.
Proof.
  split; [repeat split|].
  apply (sign_keeps_costs (curve := Curve.curve) params_json example_key (Some 1)
           transfer_tx).
  repeat split.
Defined.
